(** * strong_typing: type-driven JSON codecs

    A shallow embedding of [strong_typing/serializer.py],
    [strong_typing/deserializer.py] and the parts of
    [strong_typing/inspection.py] they call, followed by the properties of
    the codec construction engine.

    Conventions of the embedding.
    - A Python exception is a value of [Exception]: its class and the
      f-string of its message, kept as the list of its literal and
      interpolated parts.  A function that may raise returns a [Result].
    - A JSON value ([core.JsonType]) is a [JsonType]; a Python [dict] is an
      association list in insertion order with unique keys.
    - Codec nodes (the [Serializer] and [Deserializer] class hierarchies) are
      inductive types, one constructor per class; the constructors
      ([__init__]) are the factories [create_serializer] and
      [create_deserializer], the methods [generate] and [parse] are
      functions over the nodes.
    - A type is a value of [PyType]; a class carries its kind, its annotated
      fields and its conversion hooks.  Classes that refer to themselves and
      inheritance between classes are not represented.  An object is its
      class name with its attributes, and objects are compared by their
      structure, as the [__eq__] of a data class and of a tuple does. *)

From Stdlib Require Import String Ascii List ZArith NArith Bool Arith Lia.
Import ListNotations.
Open Scope string_scope.
Open Scope list_scope.
Open Scope nat_scope.
Set Warnings "-register-all,-abstract-large-number".

Infix "+++" := String.append (right associativity, at level 60).

(** ** Python strings *)

Module Str.

(** [s.endswith(suffix)] *)
Fixpoint endswith (s suffix : string) : bool :=
  match s with
  | EmptyString => String.eqb suffix EmptyString
  | String _ s' => String.eqb s suffix || endswith s' suffix
  end.

(** [s[i:j]] for indices that are not negative. *)
Definition slice (i j : nat) (s : string) : string := substring i (j - i) s.

(** [s[i:]] *)
Definition slice_from (i : nat) (s : string) : string :=
  substring i (String.length s - i) s.

(** [s[:-n]] *)
Definition drop_last (n : nat) (s : string) : string :=
  substring 0 (String.length s - n) s.

(** [s.find(c)] for a single character: the first position of [c]. *)
Fixpoint find (c : ascii) (s : string) : option nat :=
  match s with
  | EmptyString => None
  | String a s' => if Ascii.eqb a c then Some 0 else option_map S (find c s')
  end.

Definition is_digit (c : ascii) : bool :=
  let n := N_of_ascii c in (48 <=? n)%N && (n <=? 57)%N.

Definition digit_char (k : N) : ascii := ascii_of_N (48 + k mod 10).

(** The decimal digits of [n], exactly [width] of them (the low ones). *)
Fixpoint digits (width : nat) (n : N) : string :=
  match width with
  | 0 => EmptyString
  | S w => digits w (n / 10) +++ String (digit_char n) EmptyString
  end.

(** The decimal representation of [n] without a sign: ["%d" % n]. *)
Fixpoint decimal_fuel (fuel : nat) (n : N) : string :=
  match fuel with
  | 0 => EmptyString
  | S f => (if (n <? 10)%N then EmptyString else decimal_fuel f (n / 10))
           +++ String (digit_char n) EmptyString
  end.

Definition decimal (n : N) : string := decimal_fuel (S (N.size_nat n)) n.

(** ["%0<width>d" % n]: at least [width] digits, padded with zeros. *)
Definition zfill (width : nat) (n : N) : string :=
  if (n <? 10 ^ N.of_nat width)%N then digits width n else decimal n.

(** [int(s)] for a string of decimal digits. *)
Fixpoint int_digits (acc : N) (s : string) : option N :=
  match s with
  | EmptyString => Some acc
  | String c s' =>
      if is_digit c then int_digits (10 * acc + (N_of_ascii c - 48)) s'
      else None
  end.

Definition parse_int (s : string) : option N :=
  match s with
  | EmptyString => None
  | _ => int_digits 0 s
  end.

(** The last character of a string, if it has one. *)
Fixpoint last_char (s : string) : option ascii :=
  match s with
  | EmptyString => None
  | String c EmptyString => Some c
  | String _ s' => last_char s'
  end.

(** A string without a sign character. *)
Definition no_sign (s : string) : Prop := find "-" s = None /\ find "+" s = None.

End Str.

(** ** The standard library's [datetime] module

    The repository calls [isoformat] and [fromisoformat] of the standard
    library; they are modelled here after the library's reference
    implementation for the Python versions the code is written for (the
    versions whose [fromisoformat] reads only what [isoformat] writes, and
    in particular no ["Z"] suffix).  A [None] result stands for the
    [ValueError] the library raises. *)

Module datetime.

(** [timezone(timedelta(microseconds=offset))]: a fixed UTC offset. *)
Definition tzinfo := Z.

Definition utc : tzinfo := 0%Z.

Record date := mkdate { d_year : N; d_month : N; d_day : N }.

Record time := mktime
  { t_hour : N; t_minute : N; t_second : N; t_microsecond : N;
    t_tzinfo : option tzinfo }.

Record datetime := mkdatetime
  { year : N; month : N; day : N;
    hour : N; minute : N; second : N; microsecond : N;
    dt_tzinfo : option tzinfo }.

Definition is_leap (y : N) : bool :=
  ((y mod 4 =? 0) && (negb (y mod 100 =? 0) || (y mod 400 =? 0)))%N.

Definition days_in_month (y m : N) : N :=
  (if m =? 2 then (if is_leap y then 29 else 28)
   else if (m =? 4) || (m =? 6) || (m =? 9) || (m =? 11) then 30
   else 31)%N.

Definition check_date_fields (y m d : N) : bool :=
  ((1 <=? y) && (y <=? 9999) && (1 <=? m) && (m <=? 12)
   && (1 <=? d) && (d <=? days_in_month y m))%N.

Definition check_time_fields (hh mm ss us : N) : bool :=
  ((hh <=? 23) && (mm <=? 59) && (ss <=? 59) && (us <=? 999999))%N.

Definition day_us : Z := 86400000000%Z.

(** [timezone(offset)] accepts offsets strictly within a day. *)
Definition check_tzinfo (tz : option tzinfo) : bool :=
  match tz with
  | None => true
  | Some off => ((- day_us <? off) && (off <? day_us))%Z
  end.

Definition valid_date (d : date) : bool :=
  check_date_fields (d_year d) (d_month d) (d_day d).

Definition valid_time (t : time) : bool :=
  check_time_fields (t_hour t) (t_minute t) (t_second t) (t_microsecond t)
  && check_tzinfo (t_tzinfo t).

Definition valid_datetime (d : datetime) : bool :=
  check_date_fields (year d) (month d) (day d)
  && check_time_fields (hour d) (minute d) (second d) (microsecond d)
  && check_tzinfo (dt_tzinfo d).

(** [_format_time] with [timespec='auto']. *)
Definition format_time (hh mm ss us : N) : string :=
  Str.zfill 2 hh +++ ":" +++ Str.zfill 2 mm +++ ":" +++ Str.zfill 2 ss
  +++ (if (us =? 0)%N then "" else "." +++ Str.zfill 6 us).

(** [_format_offset]: ["+HH:MM"], with [":SS"] and [".ffffff"] only when
    they are not zero; the empty string without an offset. *)
Definition format_offset (off : option tzinfo) : string :=
  match off with
  | None => ""
  | Some o =>
      let sign := if (o <? 0)%Z then "-" else "+" in
      let a := Z.to_N (Z.abs o) in
      let hh := (a / 3600000000)%N in
      let r := (a mod 3600000000)%N in
      let mm := (r / 60000000)%N in
      let r' := (r mod 60000000)%N in
      let ss := (r' / 1000000)%N in
      let us := (r' mod 1000000)%N in
      sign +++ Str.zfill 2 hh +++ ":" +++ Str.zfill 2 mm
      +++ (if ((ss =? 0) && (us =? 0))%N then ""
           else ":" +++ Str.zfill 2 ss
                +++ (if (us =? 0)%N then "" else "." +++ Str.zfill 6 us))
  end.

(** [date.isoformat()] *)
Definition date_isoformat (d : date) : string :=
  Str.zfill 4 (d_year d) +++ "-" +++ Str.zfill 2 (d_month d)
  +++ "-" +++ Str.zfill 2 (d_day d).

(** [time.isoformat()] *)
Definition time_isoformat (t : time) : string :=
  format_time (t_hour t) (t_minute t) (t_second t) (t_microsecond t)
  +++ format_offset (t_tzinfo t).

(** [datetime.isoformat()] with the default separator ["T"]. *)
Definition isoformat (d : datetime) : string :=
  Str.zfill 4 (year d) +++ "-" +++ Str.zfill 2 (month d)
  +++ "-" +++ Str.zfill 2 (day d) +++ "T"
  +++ format_time (hour d) (minute d) (second d) (microsecond d)
  +++ format_offset (dt_tzinfo d).

Definition bind {A B} (o : option A) (f : A -> option B) : option B :=
  match o with Some a => f a | None => None end.

Notation "x <- a ;; b" := (bind a (fun x => b))
  (at level 61, a at next level, right associativity).

Definition guard (b : bool) : option unit := if b then Some tt else None.

(** [_parse_isoformat_date] *)
Definition parse_isoformat_date (dtstr : string) : option (N * N * N) :=
  y <- Str.parse_int (Str.slice 0 4 dtstr) ;;
  _ <- guard (String.eqb (Str.slice 4 5 dtstr) "-") ;;
  m <- Str.parse_int (Str.slice 5 7 dtstr) ;;
  _ <- guard (String.eqb (Str.slice 7 8 dtstr) "-") ;;
  d <- Str.parse_int (Str.slice 8 10 dtstr) ;;
  Some (y, m, d).

(** The loop of [_parse_hh_mm_ss_ff] over the components [comp], [comp+1],
    ..., 2: it returns the components read and the position reached. *)
Fixpoint parse_hh_mm_ss (n comp pos : nat) (tstr : string) (comps : list N)
  : option (list N * nat) :=
  match n with
  | 0 => Some (comps, pos)
  | S n' =>
      _ <- guard (2 <=? String.length tstr - pos) ;;
      v <- Str.parse_int (Str.slice pos (pos + 2) tstr) ;;
      let comps := comps ++ [v] in
      let pos := pos + 2 in
      let next_char := Str.slice pos (pos + 1) tstr in
      if String.eqb next_char "" || (2 <=? comp) then Some (comps, pos)
      else
        _ <- guard (String.eqb next_char ":") ;;
        parse_hh_mm_ss n' (S comp) (pos + 1) tstr comps
  end.

(** [_parse_hh_mm_ss_ff]: hours, minutes, seconds, microseconds; the
    components that are not written are zero. *)
Definition parse_hh_mm_ss_ff (tstr : string) : option (N * N * N * N) :=
  r <- parse_hh_mm_ss 3 0 0 tstr [] ;;
  let '(comps, pos) := r in
  let hh := nth 0 comps 0%N in
  let mm := nth 1 comps 0%N in
  let ss := nth 2 comps 0%N in
  if pos <? String.length tstr then
    _ <- guard (String.eqb (Str.slice pos (pos + 1) tstr) ".") ;;
    let len_remainder := String.length tstr - (pos + 1) in
    _ <- guard ((len_remainder =? 3) || (len_remainder =? 6)) ;;
    us <- Str.parse_int (Str.slice_from (pos + 1) tstr) ;;
    Some (hh, mm, ss, if len_remainder =? 3 then (us * 1000)%N else us)
  else Some (hh, mm, ss, 0%N).

(** [_parse_isoformat_time]: the clock fields and the offset, if any. *)
Definition parse_isoformat_time (tstr : string)
  : option (N * N * N * N * option tzinfo) :=
  _ <- guard (2 <=? String.length tstr) ;;
  let tz_pos :=
    match Str.find "-" tstr with
    | Some i => Some i
    | None => Str.find "+" tstr
    end in
  let timestr := match tz_pos with Some i => Str.slice 0 i tstr | None => tstr end in
  c <- parse_hh_mm_ss_ff timestr ;;
  let '(hh, mm, ss, us) := c in
  match tz_pos with
  | None => Some (hh, mm, ss, us, None)
  | Some i =>
      let tzstr := Str.slice_from (S i) tstr in
      let n := String.length tzstr in
      _ <- guard ((n =? 5) || (n =? 8) || (n =? 15)) ;;
      z <- parse_hh_mm_ss_ff tzstr ;;
      let '(zh, zm, zs, zus) := z in
      let td := Z.of_N (((zh * 60 + zm) * 60 + zs) * 1000000 + zus) in
      let tzsign := if String.eqb (Str.slice i (S i) tstr) "-" then (-1)%Z else 1%Z in
      let off := (tzsign * td)%Z in
      _ <- guard (check_tzinfo (Some off)) ;;
      Some (hh, mm, ss, us, Some off)
  end.

(** [date.fromisoformat] *)
Definition date_fromisoformat (s : string) : option date :=
  _ <- guard (String.length s =? 10) ;;
  c <- parse_isoformat_date s ;;
  let '(y, m, d) := c in
  _ <- guard (check_date_fields y m d) ;;
  Some (mkdate y m d).

(** [time.fromisoformat] *)
Definition time_fromisoformat (s : string) : option time :=
  c <- parse_isoformat_time s ;;
  let '(hh, mm, ss, us, tz) := c in
  _ <- guard (check_time_fields hh mm ss us) ;;
  Some (mktime hh mm ss us tz).

(** [datetime.fromisoformat]: the date is read from the first ten
    characters, the time from what follows the separator. *)
Definition fromisoformat (s : string) : option datetime :=
  let dstr := Str.slice 0 10 s in
  let tstr := Str.slice_from 11 s in
  c <- parse_isoformat_date dstr ;;
  let '(y, m, d) := c in
  t <- (if String.eqb tstr "" then Some (0%N, 0%N, 0%N, 0%N, None)
        else parse_isoformat_time tstr) ;;
  let '(hh, mm, ss, us, tz) := t in
  _ <- guard (check_date_fields y m d) ;;
  _ <- guard (check_time_fields hh mm ss us) ;;
  Some (mkdatetime y m d hh mm ss us tz).

(** [d.replace(tzinfo=tz)] *)
Definition replace_tzinfo (d : datetime) (tz : option tzinfo) : datetime :=
  mkdatetime (year d) (month d) (day d) (hour d) (minute d) (second d)
    (microsecond d) tz.

(** The parts of [isoformat] for a date and a time whose fields are in
    range. *)
Definition date_part (d : datetime) : string :=
  Str.digits 4 (year d) +++ "-" +++ Str.digits 2 (month d)
  +++ "-" +++ Str.digits 2 (day d).

Definition time_part (d : datetime) : string :=
  format_time (hour d) (minute d) (second d) (microsecond d).

End datetime.

(** ** Values *)

(** A Python [float], as the bit pattern of its IEEE 754 double. *)
Record PyFloat := mkfloat { float_bits : Z }.

(** [core.JsonType]: what a JSON document holds.  A JSON [object] is a
    Python [dict] with string keys: an association list in insertion order
    whose keys are unique. *)
Inductive JsonType :=
| JNull
| JBool (b : bool)
| JInt (n : Z)
| JFloat (x : PyFloat)
| JStr (s : string)
| JList (items : list JsonType)
| JDict (props : list (string * JsonType)).

(** The Python values the codecs read and write.  An enumeration member
    carries the name of its class, its own name and its value; an object
    carries the name of its class and its attributes in the order in which
    they were set. *)
Inductive PyVal :=
| VNone
| VBool (b : bool)
| VInt (n : Z)
| VFloat (x : PyFloat)
| VStr (s : string)
| VBytes (b : list Byte.byte)
| VDateTime (d : datetime.datetime)
| VDate (d : datetime.date)
| VTime (t : datetime.time)
| VUUID (u : N)
| VEnum (cls : string) (name : string) (value : JsonType)
| VList (items : list PyVal)
| VDict (items : list (PyVal * PyVal))
| VSet (items : list PyVal)
| VTuple (items : list PyVal)
| VObject (cls : string) (attrs : list (string * PyVal)).

(** *** Dictionaries with string keys *)

Module Dict.
Section Dict.
Context {V : Type}.

(** [d.get(key)] *)
Fixpoint get (d : list (string * V)) (key : string) : option V :=
  match d with
  | [] => None
  | (k, v) :: d' => if String.eqb k key then Some v else get d' key
  end.

(** [key in d] *)
Definition contains (d : list (string * V)) (key : string) : bool :=
  match get d key with Some _ => true | None => false end.

(** [d[key] = value]: a key that is present keeps its place. *)
Fixpoint set (d : list (string * V)) (key : string) (value : V) : list (string * V) :=
  match d with
  | [] => [(key, value)]
  | (k, v) :: d' =>
      if String.eqb k key then (k, value) :: d' else (k, v) :: set d' key value
  end.

(** [list(d)]: the keys in insertion order. *)
Definition keys (d : list (string * V)) : list string := map fst d.

End Dict.
End Dict.

(** [name in names] for a collection of strings. *)
Definition str_in (name : string) (names : list string) : bool :=
  existsb (String.eqb name) names.

(** ** Exceptions *)

(** The exception classes that the codecs raise or let through:
    the three of [strong_typing.exception], the built-in [TypeError] and
    [ValueError], and [OtherError] for any other class a conversion hook
    of a user's type may raise. *)
Inductive ExceptionType :=
| JsonKeyError
| JsonTypeError
| JsonValueError
| TypeError
| ValueError
| OtherError (name : string).

(** The parts of an f-string: literal text and interpolated values. *)
Inductive Fragment :=
| Text (s : string)
| Data (data : JsonType)            (* [{data}] *)
| Value (obj : PyVal)               (* [{obj}] *)
| Names (names : list string)       (* a list of strings, [{unassigned_names}] *)
| TypeName (name : string)          (* [python_type_to_str(typ)] or [{typ}] *)
| TypeNames (names : list string)   (* [", ".join(python_type_to_str(t) ...)] *)
| Number (n : nat).

Definition Message := list Fragment.

Record Exception := mkexc { exc_type : ExceptionType; exc_msg : Message }.

Inductive Result (A : Type) :=
| Ok (a : A)
| Raise (e : Exception).
Arguments Ok {A} a.
Arguments Raise {A} e.

Definition raise {A} (t : ExceptionType) (m : Message) : Result A :=
  Raise (mkexc t m).

Definition rbind {A B} (r : Result A) (f : A -> Result B) : Result B :=
  match r with
  | Ok a => f a
  | Raise e => Raise e
  end.

Declare Scope result_scope.
Delimit Scope result_scope with result.
Notation "'let*' x := a 'in' b" := (rbind a (fun x => b))
  (at level 10, x pattern, a at level 100, b at level 200) : result_scope.
Open Scope result_scope.

(** A comprehension [f(x) for x in l]: the first exception ends it. *)
Definition mapM {A B} (f : A -> Result B) : list A -> Result (list B) :=
  fix go (l : list A) : Result (list B) :=
    match l with
    | [] => Ok []
    | x :: l' => let* y := f x in let* ys := go l' in Ok (y :: ys)
    end.

(** What a conversion hook of a user's type does: it returns, or it raises
    an exception of some class. *)
Inductive HookOutcome (A : Type) :=
| HReturn (a : A)
| HRaise (t : ExceptionType) (text : string).
Arguments HReturn {A} a.
Arguments HRaise {A} t text.

Definition run_hook {A} (o : HookOutcome A) : Result A :=
  match o with
  | HReturn a => Ok a
  | HRaise t text => raise t [Text text]
  end.

(** ** Types

    The type objects and typing forms that a codec can be asked for.  A
    class is given by its name, its kind, its annotated attributes in
    definition order (for a data class: its fields, each with the default
    and the default factory it declares), and the conversion hooks
    [to_json] and [from_json] it defines, if any. *)

Inductive Annotation :=
| Alias (name : string)
| Constraint (name : string).

(** The values of a [Literal[...]] type, other than enumeration members. *)
Inductive LiteralValue :=
| LitNone
| LitBool (b : bool)
| LitInt (n : Z)
| LitStr (s : string)
| LitBytes (b : list Byte.byte).

(** [field.default] and [field.default_factory]; [None] is [MISSING]. *)
Record FieldDefaults := mkdefaults
  { default : option PyVal;
    default_factory : option (unit -> PyVal) }.

Definition no_default : FieldDefaults := mkdefaults None None.

Inductive ClassKind :=
| KEnum (members : list (string * JsonType))   (* a subclass of [enum.Enum] *)
| KNamedTuple (_fields : list string)          (* a subclass of [tuple] with [_fields] *)
| KDataclass                                   (* decorated with [@dataclass] *)
| KPlain.                                      (* any other class *)

Inductive PyType :=
| tNone | tBool | tInt | tFloat | tStr | tBytes
| tDateTime | tDate | tTime | tUUID
| tlist | tdict | tset | ttuple                       (* [list], [dict], [set], [tuple] *)
| tList (item : PyType)                               (* [List[T]] *)
| tDict (key value : PyType)                          (* [Dict[K, V]] *)
| tSet (member : PyType)                              (* [Set[T]] *)
| tTuple (items : list PyType)                        (* [Tuple[T1, ..., Tn]] *)
| tUnion (members : list PyType)                      (* [Union[T1, ..., Tn]] *)
| tLiteral (values : list LiteralValue)               (* [Literal[v1, ..., vn]] *)
| tAnnotated (inner : PyType) (metadata : list Annotation)
| tClass (name : string) (kind : ClassKind)
         (fields : list (string * PyType * FieldDefaults))
         (to_json : option (PyVal -> HookOutcome JsonType))
         (from_json : option (JsonType -> HookOutcome PyVal))
| tFunctionType | tModuleType | tType | tMethodType.  (* of module [types], and [type] *)

(** [Optional[T]] is [Union[T, None]]. *)
Definition tOptional (t : PyType) : PyType := tUnion [t; tNone].

(** [a is b] for the types whose identity the code tests: the built-in
    types and classes (a class is identified by its name). *)
Definition type_is (a b : PyType) : bool :=
  match a, b with
  | tNone, tNone | tBool, tBool | tInt, tInt | tFloat, tFloat | tStr, tStr
  | tBytes, tBytes | tDateTime, tDateTime | tDate, tDate | tTime, tTime
  | tUUID, tUUID | tlist, tlist | tdict, tdict | tset, tset | ttuple, ttuple
  | tFunctionType, tFunctionType | tModuleType, tModuleType | tType, tType
  | tMethodType, tMethodType => true
  | tClass n _ _ _ _, tClass m _ _ _ _ => String.eqb n m
  | _, _ => false
  end.

(** [type(value)] for a JSON value and for a literal value. *)
Definition type_of_json (j : JsonType) : PyType :=
  match j with
  | JNull => tNone | JBool _ => tBool | JInt _ => tInt | JFloat _ => tFloat
  | JStr _ => tStr | JList _ => tlist | JDict _ => tdict
  end.

Definition type_of_literal (v : LiteralValue) : PyType :=
  match v with
  | LitNone => tNone | LitBool _ => tBool | LitInt _ => tInt
  | LitStr _ => tStr | LitBytes _ => tBytes
  end.

(** [list(dict.fromkeys(types))] and [set(types)]: the distinct types, in
    the order of their first occurrence. *)
Fixpoint unique_types (seen types : list PyType) : list PyType :=
  match types with
  | [] => []
  | t :: rest =>
      if existsb (type_is t) seen then unique_types seen rest
      else t :: unique_types (t :: seen) rest
  end.

(** [inspect.isclass(typ)]: the typing forms are not classes. *)
Definition isclass (typ : PyType) : bool :=
  match typ with
  | tList _ | tDict _ _ | tSet _ | tTuple _ | tUnion _ | tLiteral _
  | tAnnotated _ _ => false
  | _ => true
  end.

(** *** [strong_typing/inspection.py] *)

Definition is_type_annotated (typ : PyType) : bool :=
  match typ with tAnnotated _ _ => true | _ => false end.

Definition unwrap_annotated_type (typ : PyType) : PyType :=
  match typ with tAnnotated inner _ => inner | _ => typ end.

Definition is_dataclass_type (typ : PyType) : bool :=
  match unwrap_annotated_type typ with
  | tClass _ KDataclass _ _ _ => true
  | _ => false
  end.

Definition is_named_tuple_type (typ : PyType) : bool :=
  match unwrap_annotated_type typ with
  | tClass _ (KNamedTuple _) _ _ _ => true
  | _ => false
  end.

Definition is_type_enum (typ : PyType) : bool :=
  match unwrap_annotated_type typ with
  | tClass _ (KEnum _) _ _ _ => true
  | _ => false
  end.

(** [issubclass(typ, enum.Enum)], which raises [TypeError] when [typ] is
    not a class. *)
Definition issubclass_Enum (typ : PyType) : Result bool :=
  if isclass typ then
    Ok (match typ with tClass _ (KEnum _) _ _ _ => true | _ => false end)
  else raise TypeError [Text "issubclass() arg 1 must be a class"].

Definition enum_members (enum_type : PyType) : list (string * JsonType) :=
  match enum_type with
  | tClass _ (KEnum members) _ _ _ => members
  | _ => []
  end.

Definition enum_value_types (enum_type : PyType) : list PyType :=
  unique_types [] (map (fun e => type_of_json (snd e)) (enum_members enum_type)).

Definition _is_union_like (typ : PyType) : bool :=
  match typ with tUnion _ => true | _ => false end.

Definition get_args (typ : PyType) : list PyType :=
  match typ with
  | tList t | tSet t => [t]
  | tDict k v => [k; v]
  | tTuple ts | tUnion ts => ts
  | _ => []
  end.

(** [is_type_optional(typ)] with [strict=False]. *)
Definition is_type_optional (typ : PyType) : bool :=
  let typ := unwrap_annotated_type typ in
  if _is_union_like typ then existsb (type_is tNone) (get_args typ) else false.

(** [Union[tuple(...)]]: a union of one type is that type. *)
Definition make_union (members : list PyType) : PyType :=
  match members with
  | [t] => t
  | _ => tUnion members
  end.

Definition _unwrap_optional_type (typ : PyType) : Result PyType :=
  match typ with
  | tUnion members =>
      Ok (make_union (filter (fun item => negb (type_is item tNone)) members))
  | _ => raise TypeError [Text "optional type must have un-subscripted type of Union"]
  end.

Definition rewrap_annotated_type (transform : PyType -> Result PyType) (typ : PyType)
  : Result PyType :=
  match typ with
  | tAnnotated inner_type metadata =>
      let* transformed_type := transform inner_type in
      Ok (tAnnotated transformed_type metadata)
  | _ => transform typ
  end.

Definition unwrap_optional_type (typ : PyType) : Result PyType :=
  rewrap_annotated_type _unwrap_optional_type typ.

(** [get_annotation(data_type, Alias)] *)
Definition get_annotation_Alias (data_type : PyType) : option string :=
  match data_type with
  | tAnnotated _ metadata =>
      (fix first (l : list Annotation) : option string :=
         match l with
         | [] => None
         | Alias name :: _ => Some name
         | _ :: l' => first l'
         end) metadata
  | _ => None
  end.

(** [typing.get_type_hints(typ, include_extras=True)]: the annotated
    attributes of a class; a [TypeError] for a typing form. *)
Definition get_resolved_hints (typ : PyType) : Result (list (string * PyType)) :=
  match typ with
  | tClass _ _ fields _ _ => Ok (map fst fields)
  | _ =>
      if isclass typ then Ok []
      else raise TypeError [Text "is not a module, class, method, or function."]
  end.

(** [dataclasses.fields(typ)] *)
Definition dataclass_fields (typ : PyType) : list (string * PyType * FieldDefaults) :=
  match unwrap_annotated_type typ with
  | tClass _ KDataclass fields _ _ => fields
  | _ => []
  end.

Definition get_class_properties (typ : PyType) : Result (list (string * PyType)) :=
  if is_dataclass_type typ then Ok (map fst (dataclass_fields typ))
  else get_resolved_hints typ.

(** ** Codec nodes *)

(** The class hierarchy of [Serializer], and [FieldSerializer]. *)
Inductive Serializer :=
| NoneSerializer
| BoolSerializer
| IntSerializer
| FloatSerializer
| StringSerializer
| BytesSerializer
| DateTimeSerializer
| DateSerializer
| TimeSerializer
| UUIDSerializer
| EnumSerializer
| UntypedListSerializer
| UntypedDictSerializer
| UntypedSetSerializer
| UntypedTupleSerializer
| TypedListSerializer (generator : Serializer)
| TypedStringDictSerializer (generator : Serializer)
| TypedEnumDictSerializer (generator : Serializer)
| TypedSetSerializer (generator : Serializer)
| TypedTupleSerializer (item_generators : list Serializer)
| CustomSerializer (converter : PyVal -> HookOutcome JsonType)
| TypedClassSerializer (property_generators : list FieldSerializer)
| TypedNamedTupleSerializer (property_generators : list FieldSerializer)
| DataclassSerializer (property_generators : list FieldSerializer)
| UnionSerializer
| LiteralSerializer (generator : Serializer)
| UntypedNamedTupleSerializer (fields : list (string * string))
| UntypedClassSerializer
with FieldSerializer :=
| mkFieldSerializer (field_name property_name : string) (generator : Serializer).

(** The class hierarchy of [Deserializer], and that of [FieldDeserializer]. *)
Inductive Deserializer :=
| NoneDeserializer
| BoolDeserializer
| IntDeserializer
| FloatDeserializer
| StringDeserializer
| BytesDeserializer
| DateTimeDeserializer
| DateDeserializer
| TimeDeserializer
| UUIDDeserializer
| ListDeserializer (item_type : PyType) (item_parser : Deserializer)
| DictDeserializer (key_type value_type : PyType) (value_parser : Deserializer)
| SetDeserializer (member_type : PyType) (member_parser : Deserializer)
| TupleDeserializer (item_types : list PyType) (item_parsers : list Deserializer)
| UnionDeserializer (member_types : list PyType) (member_parsers : list Deserializer)
| EnumDeserializer (enum_type : PyType)
| CustomDeserializer (converter : JsonType -> HookOutcome PyVal)
| NamedTupleDeserializer (class_type : PyType) (property_parsers : list FieldDeserializer)
| DataclassDeserializer (class_type : PyType) (property_parsers : list FieldDeserializer)
| TypedClassDeserializer (class_type : PyType) (property_parsers : list FieldDeserializer)
with FieldDeserializer :=
| RequiredFieldDeserializer (property_name field_name : string) (parser : Deserializer)
| OptionalFieldDeserializer (property_name field_name : string) (parser : Deserializer)
| DefaultFieldDeserializer (property_name field_name : string) (parser : Deserializer)
    (default_value : PyVal)
| DefaultFactoryFieldDeserializer (property_name field_name : string)
    (parser : Deserializer) (default_factory : unit -> PyVal).

Definition fs_field_name (f : FieldSerializer) : string :=
  match f with mkFieldSerializer n _ _ => n end.
Definition fs_property_name (f : FieldSerializer) : string :=
  match f with mkFieldSerializer _ p _ => p end.
Definition fs_generator (f : FieldSerializer) : Serializer :=
  match f with mkFieldSerializer _ _ g => g end.

Definition fd_property_name (f : FieldDeserializer) : string :=
  match f with
  | RequiredFieldDeserializer p _ _ | OptionalFieldDeserializer p _ _
  | DefaultFieldDeserializer p _ _ _ | DefaultFactoryFieldDeserializer p _ _ _ => p
  end.
Definition fd_field_name (f : FieldDeserializer) : string :=
  match f with
  | RequiredFieldDeserializer _ n _ | OptionalFieldDeserializer _ n _
  | DefaultFieldDeserializer _ n _ _ | DefaultFactoryFieldDeserializer _ n _ _ => n
  end.
Definition fd_parser (f : FieldDeserializer) : Deserializer :=
  match f with
  | RequiredFieldDeserializer _ _ p | OptionalFieldDeserializer _ _ p
  | DefaultFieldDeserializer _ _ p _ | DefaultFactoryFieldDeserializer _ _ p _ => p
  end.

Definition nonempty {A} (l : list A) : bool :=
  match l with [] => false | _ => true end.

(** [l.pop()] of a list that is not empty: its last element. *)
Definition pop (l : list PyType) : PyType := last l tNone.

(** ** Codec construction *)

Section Codecs.

(** What the code imports from modules of the package that are not at
    hand, [name.python_type_to_str] and
    [mapping.python_field_to_json_property] (called with the field's type,
    or without one), is a parameter of the development. *)
Variable python_type_to_str : PyType -> string.
Variable python_field_to_json_property : string -> option PyType -> string.

(** The serializers of the well-known types. *)
Definition well_known_serializer (typ : PyType) : option Serializer :=
  match typ with
  | tNone => Some NoneSerializer
  | tBool => Some BoolSerializer
  | tInt => Some IntSerializer
  | tFloat => Some FloatSerializer
  | tStr => Some StringSerializer
  | tBytes => Some BytesSerializer
  | tDateTime => Some DateTimeSerializer
  | tDate => Some DateSerializer
  | tTime => Some TimeSerializer
  | tUUID => Some UUIDSerializer
  | _ => None
  end.

(** [TypedEnumDictSerializer.__init__], after the serializer of the values
    has been built. *)
Definition TypedEnumDictSerializer_init (key_type : PyType) (generator : Serializer)
  : Result Serializer :=
  let value_types := enum_value_types key_type in
  if negb (List.length value_types =? 1) then
    raise JsonTypeError
      [Text "invalid key type, enumerations must have a consistent member value type but several types found: ";
       TypeNames (map python_type_to_str value_types)]
  else
    let value_type := pop value_types in
    if negb (type_is value_type tStr) then
      raise JsonTypeError
        [Text "invalid enumeration key type, expected `enum.Enum` with string values"]
    else Ok (TypedEnumDictSerializer generator).

(** [LiteralSerializer.__init__].  The type of a literal value is one of the
    well-known types, whose serializer [create_serializer] returns at
    once. *)
Definition LiteralSerializer_init (values : list LiteralValue) : Result Serializer :=
  let literal_type_tuple := map type_of_literal values in
  let literal_type_set := unique_types [] literal_type_tuple in
  if negb (List.length literal_type_set =? 1) then
    raise TypeError
      [Text "type `Literal[...]` expects consistent literal value types but got: ";
       TypeNames (map python_type_to_str literal_type_tuple)]
  else
    let literal_type := pop literal_type_set in
    match well_known_serializer literal_type with
    | Some generator => Ok (LiteralSerializer generator)
    | None => raise TypeError [Text "unsupported literal type"]
    end.

(** The list of field serializers that [TypedClassSerializer.__init__]
    builds from the properties of the class, given [create_serializer]. *)
Section FieldSerializerList.
Variable create_serializer : PyType -> Result Serializer.

Fixpoint field_serializers (props : list (string * PyType * FieldDefaults))
  : Result (list FieldSerializer) :=
  match props with
  | [] => Ok []
  | (field_name, field_type, _) :: rest =>
      let* generator := create_serializer field_type in
      let* generators := field_serializers rest in
      Ok (mkFieldSerializer field_name
            (python_field_to_json_property field_name (Some field_type))
            generator :: generators)
  end.

End FieldSerializerList.

(** [create_serializer] and [_create_serializer].  [_fetch_serializer] only
    caches the result, which depends on the type alone. *)
Fixpoint create_serializer (typ : PyType) : Result Serializer :=
  let field_serializers := field_serializers create_serializer in
  match typ with
  (* well-known types *)
  | tNone => Ok NoneSerializer
  | tBool => Ok BoolSerializer
  | tInt => Ok IntSerializer
  | tFloat => Ok FloatSerializer
  | tStr => Ok StringSerializer
  | tBytes => Ok BytesSerializer
  | tDateTime => Ok DateTimeSerializer
  | tDate => Ok DateSerializer
  | tTime => Ok TimeSerializer
  | tUUID => Ok UUIDSerializer
  (* dynamically-typed collection types *)
  | tlist => Ok UntypedListSerializer
  | tdict => Ok UntypedDictSerializer
  | tset => Ok UntypedSetSerializer
  | ttuple => Ok UntypedTupleSerializer
  (* generic types *)
  | tList list_item_type =>
      let* generator := create_serializer list_item_type in
      Ok (TypedListSerializer generator)
  | tDict key_type value_type =>
      if type_is key_type tStr then
        let* generator := create_serializer value_type in
        Ok (TypedStringDictSerializer generator)
      else
        let* is_enum := issubclass_Enum key_type in
        if is_enum then
          let* generator := create_serializer value_type in
          TypedEnumDictSerializer_init key_type generator
        else
          (* no branch returns: a [Dict] has no hook and is no class, and
             the last test, [get_resolved_hints(typ)], raises *)
          let* _ := get_resolved_hints typ in
          Ok UntypedClassSerializer
  | tSet set_member_type =>
      let* generator := create_serializer set_member_type in
      Ok (TypedSetSerializer generator)
  | tTuple item_types =>
      let* item_generators := mapM create_serializer item_types in
      Ok (TypedTupleSerializer item_generators)
  | tUnion _ => Ok UnionSerializer
  | tLiteral values => LiteralSerializer_init values
  | tAnnotated inner _ => create_serializer inner
  | tClass _ kind fields to_json _ =>
      (* check if object has custom serialization method *)
      match to_json with
      | Some convert_func => Ok (CustomSerializer convert_func)
      | None =>
          if is_type_enum typ then Ok EnumSerializer
          else if is_dataclass_type typ then
            let* property_generators := field_serializers fields in
            Ok (DataclassSerializer property_generators)
          else if is_named_tuple_type typ then
            if nonempty fields then
              let* property_generators := field_serializers fields in
              Ok (TypedNamedTupleSerializer property_generators)
            else
              Ok (UntypedNamedTupleSerializer
                    (map (fun field_name =>
                            (field_name, python_field_to_json_property field_name None))
                         (match kind with KNamedTuple names => names | _ => [] end)))
          else if nonempty fields then
            let* property_generators := field_serializers fields in
            Ok (TypedClassSerializer property_generators)
          else Ok UntypedClassSerializer
      end
  (* fail early if caller passes an object with an exotic type *)
  | tFunctionType | tModuleType | tType | tMethodType =>
      raise TypeError
        [Text "object of type "; TypeName (python_type_to_str typ);
         Text " cannot be represented in JSON"]
  end.

(** [DictDeserializer.container_type] *)
Definition dict_container_type (key_type value_type : PyType) : Message :=
  [Text "Dict["; TypeName (python_type_to_str key_type); Text ", ";
   TypeName (python_type_to_str value_type); Text "]"].

(** [DictDeserializer._check_key_type].  Where the member values of the
    enumeration are of one type that is not [str], the source builds the
    text of a message and raises nothing. *)
Definition _check_key_type (key_type value_type : PyType) : Result unit :=
  if type_is key_type tStr then Ok tt
  else
    let* is_enum := issubclass_Enum key_type in
    if is_enum then
      let value_types := enum_value_types key_type in
      if negb (List.length value_types =? 1) then
        raise JsonTypeError
          ([Text "type `"] ++ dict_container_type key_type value_type
           ++ [Text "` has invalid key type, enumerations must have a consistent member value type but several types found: ";
               TypeNames (map python_type_to_str value_types)])
      else
        let value_type' := pop value_types in
        if negb (type_is value_type' tStr) then Ok tt
        else Ok tt
    else
      raise JsonTypeError
        ([Text "`type `"] ++ dict_container_type key_type value_type
         ++ [Text "` has invalid key type, expected `str` or `enum.Enum` with string values"]).

(** The field deserializer that [DataclassDeserializer.__init__] picks. *)
Definition dataclass_field_parser (property_name field_name : string)
    (defaults : FieldDefaults) (is_optional : bool) (parser : Deserializer)
  : FieldDeserializer :=
  match default defaults with
  | Some default_value =>
      DefaultFieldDeserializer property_name field_name parser default_value
  | None =>
      match default_factory defaults with
      | Some factory =>
          DefaultFactoryFieldDeserializer property_name field_name parser factory
      | None =>
          if is_optional then OptionalFieldDeserializer property_name field_name parser
          else RequiredFieldDeserializer property_name field_name parser
      end
  end.

(** The field deserializer that [TypedClassDeserializer.__init__] picks. *)
Definition typed_class_field_parser (property_name field_name : string)
    (is_optional : bool) (parser : Deserializer) : FieldDeserializer :=
  if is_optional then OptionalFieldDeserializer property_name field_name parser
  else RequiredFieldDeserializer property_name field_name parser.

(** The lists of field deserializers that the constructors of
    [NamedTupleDeserializer], [DataclassDeserializer] and
    [TypedClassDeserializer] build, given [create_deserializer].

    For an optional field the source calls
    [create_deserializer(unwrap_optional_type(field_type))]; the type it
    passes is built from the members of the union and is no part of
    [field_type], so [required_parser] reads the members that are not
    [NoneType] itself: one member gives the deserializer of that member,
    several give a [UnionDeserializer] of them. *)
Section FieldDeserializerList.
Variable create_deserializer : PyType -> Result Deserializer.

Fixpoint union_parsers (members : list PyType) : Result (list (PyType * Deserializer)) :=
  match members with
  | [] => Ok []
  | member :: rest =>
      if negb (type_is member tNone) then
        let* p := create_deserializer member in
        let* ps := union_parsers rest in
        Ok ((member, p) :: ps)
      else union_parsers rest
  end.

Definition union_required (members : list PyType) : Result Deserializer :=
  let* ps := union_parsers members in
  match ps with
  | [(_, p)] => Ok p
  | _ => Ok (UnionDeserializer (map fst ps) (map snd ps))
  end.

Definition required_parser (field_type : PyType) : Result Deserializer :=
  if is_type_optional field_type then
    match field_type with
    | tUnion members => union_required members
    | tAnnotated (tUnion members) _ => union_required members
    | _ => raise TypeError [Text "optional type must have un-subscripted type of Union"]
    end
  else create_deserializer field_type.

Fixpoint named_tuple_parsers (props : list (string * PyType * FieldDefaults))
  : Result (list FieldDeserializer) :=
  match props with
  | [] => Ok []
  | (field_name, field_type, _) :: rest =>
      let* parser := create_deserializer field_type in
      let* parsers := named_tuple_parsers rest in
      Ok (RequiredFieldDeserializer field_name field_name parser :: parsers)
  end.

Fixpoint dataclass_parsers (props : list (string * PyType * FieldDefaults))
  : Result (list FieldDeserializer) :=
  match props with
  | [] => Ok []
  | (field_name, field_type, defaults) :: rest =>
      let property_name := python_field_to_json_property field_name (Some field_type) in
      let is_optional := is_type_optional field_type in
      let* parser := required_parser field_type in
      let* parsers := dataclass_parsers rest in
      Ok (dataclass_field_parser property_name field_name defaults is_optional parser
          :: parsers)
  end.

Fixpoint typed_class_parsers (props : list (string * PyType * FieldDefaults))
  : Result (list FieldDeserializer) :=
  match props with
  | [] => Ok []
  | (field_name, field_type, _) :: rest =>
      let property_name := python_field_to_json_property field_name (Some field_type) in
      let is_optional := is_type_optional field_type in
      let* parser := required_parser field_type in
      let* parsers := typed_class_parsers rest in
      Ok (typed_class_field_parser property_name field_name is_optional parser :: parsers)
  end.

End FieldDeserializerList.

(** [create_deserializer] and [_create_deserializer].  [_fetch_deserializer]
    only caches the result, which depends on the type alone. *)
Fixpoint create_deserializer (typ : PyType) : Result Deserializer :=
  let named_tuple_parsers := named_tuple_parsers create_deserializer in
  let dataclass_parsers := dataclass_parsers create_deserializer in
  let typed_class_parsers := typed_class_parsers create_deserializer in
  match typ with
  (* well-known types *)
  | tNone => Ok NoneDeserializer
  | tBool => Ok BoolDeserializer
  | tInt => Ok IntDeserializer
  | tFloat => Ok FloatDeserializer
  | tStr => Ok StringDeserializer
  | tBytes => Ok BytesDeserializer
  | tDateTime => Ok DateTimeDeserializer
  | tDate => Ok DateDeserializer
  | tTime => Ok TimeDeserializer
  | tUUID => Ok UUIDDeserializer
  (* dynamically-typed collection types *)
  | tlist =>
      raise TypeError [Text "explicit item type required: use `List[T]` instead of `list`"]
  | tdict =>
      raise TypeError
        [Text "explicit key and value types required: use `Dict[K, V]` instead of `dict`"]
  | tset =>
      raise TypeError [Text "explicit member type required: use `Set[T]` instead of `set`"]
  | ttuple =>
      raise TypeError
        [Text "explicit item type list required: use `Tuple[T, ...]` instead of `tuple`"]
  (* generic types *)
  | tList list_item_type =>
      let* item_parser := create_deserializer list_item_type in
      Ok (ListDeserializer list_item_type item_parser)
  | tDict key_type value_type =>
      let* _ := _check_key_type key_type value_type in
      let* value_parser := create_deserializer value_type in
      Ok (DictDeserializer key_type value_type value_parser)
  | tSet set_member_type =>
      let* member_parser := create_deserializer set_member_type in
      Ok (SetDeserializer set_member_type member_parser)
  | tTuple item_types =>
      let* item_parsers := mapM create_deserializer item_types in
      Ok (TupleDeserializer item_types item_parsers)
  | tUnion member_types =>
      let* member_parsers := mapM create_deserializer member_types in
      Ok (UnionDeserializer member_types member_parsers)
  | tAnnotated inner _ => create_deserializer inner
  (* [not inspect.isclass(typ)]; no value of [PyType] is a data class instance *)
  | tLiteral _ =>
      raise TypeError
        [Text "unable to de-serialize unrecognized type: "; TypeName (python_type_to_str typ)]
  | tClass _ _ fields _ from_json =>
      let* is_enum := issubclass_Enum typ in
      if is_enum then Ok (EnumDeserializer typ)
      else if is_named_tuple_type typ then
        let* property_parsers := named_tuple_parsers fields in
        Ok (NamedTupleDeserializer typ property_parsers)
      else
        (* check if object has custom serialization method *)
        match from_json with
        | Some convert_func => Ok (CustomDeserializer convert_func)
        | None =>
            if is_dataclass_type typ then
              let* property_parsers := dataclass_parsers fields in
              Ok (DataclassDeserializer typ property_parsers)
            else
              let* property_parsers := typed_class_parsers fields in
              Ok (TypedClassDeserializer typ property_parsers)
        end
  (* classes without annotations and without a hook *)
  | tFunctionType | tModuleType | tType | tMethodType => Ok (TypedClassDeserializer typ [])
  end.

(** ** Running the codecs *)

(** The interpreter and the standard library, as far as the codecs call
    them: the class of an object ([type(obj)] for an instance of a user's
    class, by the name of the class), [str(obj)], [float(n)] for an
    integer ([None] for the [OverflowError] of an integer that is too
    large), [base64.b64encode], [base64.b64decode] with [validate=True] and
    [uuid.UUID(s)]; the decoders return [None] where the library raises
    [ValueError]. *)
Variable class_of : string -> PyType.
Variable py_str : PyVal -> string.
Variable float_of_int : Z -> option PyFloat.
Variable b64encode : list Byte.byte -> string.
Variable b64decode : string -> option (list Byte.byte).
Variable uuid_parse : string -> option N.

(** [type(obj)] *)
Definition type_of (obj : PyVal) : PyType :=
  match obj with
  | VNone => tNone | VBool _ => tBool | VInt _ => tInt | VFloat _ => tFloat
  | VStr _ => tStr | VBytes _ => tBytes
  | VDateTime _ => tDateTime | VDate _ => tDate | VTime _ => tTime | VUUID _ => tUUID
  | VEnum cls _ _ => class_of cls
  | VList _ => tlist | VDict _ => tdict | VSet _ => tset | VTuple _ => ttuple
  | VObject cls _ => class_of cls
  end.

Definition AttributeError {A} (name : string) : Result A :=
  raise (OtherError "AttributeError") [Text "object has no attribute "; Text name].

(** [getattr(obj, name)] for the attributes of an object. *)
Definition getattr (obj : PyVal) (name : string) : Result PyVal :=
  match obj with
  | VObject _ attrs =>
      match Dict.get attrs name with
      | Some value => Ok value
      | None => AttributeError name
      end
  | _ => AttributeError name
  end.

(** A Python value that is a JSON value, as such.  The serializers of the
    fundamental types return their argument; an argument that is no JSON
    value has no counterpart in [JsonType]. *)
Fixpoint as_json (obj : PyVal) : option JsonType :=
  match obj with
  | VNone => Some JNull
  | VBool b => Some (JBool b)
  | VInt n => Some (JInt n)
  | VFloat x => Some (JFloat x)
  | VStr s => Some (JStr s)
  | VList items =>
      option_map JList
        ((fix go (l : list PyVal) : option (list JsonType) :=
            match l with
            | [] => Some []
            | x :: l' =>
                match as_json x, go l' with
                | Some j, Some js => Some (j :: js)
                | _, _ => None
                end
            end) items)
  | VDict items =>
      option_map JDict
        ((fix go (l : list (PyVal * PyVal)) : option (list (string * JsonType)) :=
            match l with
            | [] => Some []
            | (VStr k, v) :: l' =>
                match as_json v, go l' with
                | Some j, Some js => Some ((k, j) :: js)
                | _, _ => None
                end
            | _ => None
            end) items)
  | _ => None
  end.

Definition return_ (obj : PyVal) : Result JsonType :=
  match as_json obj with
  | Some j => Ok j
  | None => raise (OtherError "NotJson") [Value obj]
  end.

(** [obj.tzinfo] and [obj.isoformat()] *)
Definition py_tzinfo (obj : PyVal) : Result (option datetime.tzinfo) :=
  match obj with
  | VDateTime d => Ok (datetime.dt_tzinfo d)
  | VTime t => Ok (datetime.t_tzinfo t)
  | _ => AttributeError "tzinfo"
  end.

Definition py_isoformat (obj : PyVal) : Result string :=
  match obj with
  | VDateTime d => Ok (datetime.isoformat d)
  | VDate d => Ok (datetime.date_isoformat d)
  | VTime t => Ok (datetime.time_isoformat t)
  | _ => AttributeError "isoformat"
  end.

(** [for item in obj] *)
Definition py_iter (obj : PyVal) : Result (list PyVal) :=
  match obj with
  | VList items | VSet items | VTuple items => Ok items
  | VDict items => Ok (map fst items)
  | _ => raise TypeError [Text "object is not iterable"]
  end.

(** [obj.items()] *)
Definition py_items (obj : PyVal) : Result (list (PyVal * PyVal)) :=
  match obj with
  | VDict items => Ok items
  | _ => AttributeError "items"
  end.

(** A key of a JSON [object] is a string. *)
Definition json_key (key : JsonType) : Result string :=
  match key with
  | JStr s => Ok s
  | _ => raise (OtherError "NotJson") [Data key]
  end.

Definition py_key (key : PyVal) : Result string :=
  match key with
  | VStr s => Ok s
  | _ => raise (OtherError "NotJson") [Value key]
  end.

(** [key.value] *)
Definition enum_value (obj : PyVal) : Result JsonType :=
  match obj with
  | VEnum _ _ value => Ok value
  | _ => AttributeError "value"
  end.

(** [dict(pairs)] and a dictionary comprehension, for string keys. *)
Definition dict_of (pairs : list (string * JsonType)) : list (string * JsonType) :=
  fold_left (fun d kv => Dict.set d (fst kv) (snd kv)) pairs [].

(** *** [DateTimeSerializer.generate] *)
Definition DateTimeSerializer_generate (obj : PyVal) : Result JsonType :=
  let* tz := py_tzinfo obj in
  match tz with
  | None =>
      raise JsonValueError
        [Text "timestamp lacks explicit time zone designator: "; Value obj]
  | Some _ =>
      let* fmt := py_isoformat obj in
      if Str.endswith fmt "+00:00" then Ok (JStr (Str.drop_last 6 fmt +++ "Z"))
      else Ok (JStr fmt)
  end.

(** *** [DateSerializer.generate] and [TimeSerializer.generate] *)
Definition DateSerializer_generate (obj : PyVal) : Result JsonType :=
  let* fmt := py_isoformat obj in Ok (JStr fmt).

Definition TimeSerializer_generate (obj : PyVal) : Result JsonType :=
  let* fmt := py_isoformat obj in Ok (JStr fmt).

(** [is_reserved_property]: the names [__x__] and [_abc_impl]. *)
Definition is_reserved_property (name : string) : bool :=
  (String.prefix "__" name && Str.endswith name "__" && (5 <=? String.length name))
  || String.eqb name "_abc_impl".

(** [dir(obj)]: the names of the attributes, sorted. *)
Fixpoint insert_sorted (name : string) (names : list string) : list string :=
  match names with
  | [] => [name]
  | n :: rest =>
      if String.leb name n then name :: names else n :: insert_sorted name rest
  end.

Definition dir (obj : PyVal) : list string :=
  match obj with
  | VObject _ attrs => fold_right insert_sorted [] (map fst attrs)
  | _ => []
  end.

Section Loops.
Context {Node Item Out : Type}.
Variable run : Node -> Item -> Result Out.

(** [run(n, x) for n, x in zip(nodes, items)] *)
Fixpoint zipM (nodes : list Node) (items : list Item) : Result (list Out) :=
  match nodes, items with
  | n :: nodes', x :: items' =>
      let* y := run n x in
      let* ys := zipM nodes' items' in
      Ok (y :: ys)
  | _, _ => Ok []
  end.

End Loops.

Section FieldSerializers.
Variable generate : Serializer -> PyVal -> Result JsonType.

(** [FieldSerializer.generate_field], given the [generate] of its
    generator: it returns the dictionary as the method leaves it. *)
Definition generate_field (f : FieldSerializer) (obj : PyVal)
    (object_dict : list (string * JsonType)) : Result (list (string * JsonType)) :=
  let* value := getattr obj (fs_field_name f) in
  match value with
  | VNone => Ok object_dict
  | _ =>
      let* j := generate (fs_generator f) value in
      Ok (Dict.set object_dict (fs_property_name f) j)
  end.

(** The loop of [TypedClassSerializer.generate] over the property
    generators. *)
Fixpoint generate_fields (property_generators : list FieldSerializer) (obj : PyVal)
    (object_dict : list (string * JsonType)) : Result (list (string * JsonType)) :=
  match property_generators with
  | [] => Ok object_dict
  | property_generator :: rest =>
      let* object_dict := generate_field property_generator obj object_dict in
      generate_fields rest obj object_dict
  end.

End FieldSerializers.

(** The loop of [UntypedNamedTupleSerializer.generate]. *)
Fixpoint generate_untyped_fields (object_to_json : PyVal -> Result JsonType)
    (fields : list (string * string)) (obj : PyVal)
    (object_dict : list (string * JsonType)) : Result (list (string * JsonType)) :=
  match fields with
  | [] => Ok object_dict
  | (field_name, property_name) :: rest =>
      let* value := getattr obj field_name in
      let* j := object_to_json value in
      generate_untyped_fields object_to_json rest obj (Dict.set object_dict property_name j)
  end.

(** The loop of [UntypedClassSerializer.generate] over [dir(obj)]; no
    attribute of an object of the model is a bound method. *)
Fixpoint generate_dir (object_to_json : PyVal -> Result JsonType)
    (names : list string) (obj : PyVal)
    (object_dict : list (string * JsonType)) : Result (list (string * JsonType)) :=
  match names with
  | [] => Ok object_dict
  | name :: rest =>
      if is_reserved_property name then generate_dir object_to_json rest obj object_dict
      else
        let* value := getattr obj name in
        match value with
        | VNone => generate_dir object_to_json rest obj object_dict
        | _ =>
            let* j := object_to_json value in
            generate_dir object_to_json rest obj
              (Dict.set object_dict (python_field_to_json_property name None) j)
        end
  end.

(** The loops of [UntypedDictSerializer.generate], [TypedStringDictSerializer.generate]
    and [TypedEnumDictSerializer.generate]: the key by [key_of], the value
    by [value_of]. *)
Definition generate_items (key_of : PyVal -> Result string)
    (value_of : PyVal -> Result JsonType) (items : list (PyVal * PyVal))
  : Result (list (string * JsonType)) :=
  mapM (fun kv => let* k := key_of (fst kv) in
                  let* j := value_of (snd kv) in Ok (k, j)) items.

Definition enum_key (key : PyVal) : Result string :=
  let* value := enum_value key in json_key value.

Definition is_enum_instance (obj : PyVal) : bool :=
  match obj with VEnum _ _ _ => true | _ => false end.

(** [Serializer.generate] for every class of serializer.  [object_to_json]
    is the function of that name, which the untyped serializers and the
    serializer of a union call with the value or its parts. *)
Fixpoint generate (object_to_json : PyVal -> Result JsonType)
    (self : Serializer) (obj : PyVal) {struct self} : Result JsonType :=
  match self with
  | NoneSerializer => Ok JNull
  | BoolSerializer | IntSerializer | FloatSerializer | StringSerializer => return_ obj
  | BytesSerializer =>
      match obj with
      | VBytes data => Ok (JStr (b64encode data))
      | _ => raise TypeError [Text "a bytes-like object is required"]
      end
  | DateTimeSerializer => DateTimeSerializer_generate obj
  | DateSerializer => DateSerializer_generate obj
  | TimeSerializer => TimeSerializer_generate obj
  | UUIDSerializer => Ok (JStr (py_str obj))
  | EnumSerializer => enum_value obj
  | UntypedListSerializer | UntypedSetSerializer | UntypedTupleSerializer =>
      let* items := py_iter obj in
      let* js := mapM object_to_json items in
      Ok (JList js)
  | UntypedDictSerializer =>
      let* items := py_items obj in
      let* pairs :=
        if match items with (key, _) :: _ => is_enum_instance key | [] => false end
        then generate_items enum_key object_to_json items
        else generate_items (fun key => Ok (py_str key)) object_to_json items in
      Ok (JDict (dict_of pairs))
  | TypedListSerializer generator | TypedSetSerializer generator =>
      let* items := py_iter obj in
      let* js := mapM (generate object_to_json generator) items in
      Ok (JList js)
  | TypedStringDictSerializer generator =>
      let* items := py_items obj in
      let* pairs := generate_items py_key (generate object_to_json generator) items in
      Ok (JDict (dict_of pairs))
  | TypedEnumDictSerializer generator =>
      let* items := py_items obj in
      let* pairs := generate_items enum_key (generate object_to_json generator) items in
      Ok (JDict (dict_of pairs))
  | TypedTupleSerializer item_generators =>
      let* items := py_iter obj in
      let* js := zipM (generate object_to_json) item_generators items in
      Ok (JList js)
  | CustomSerializer converter => run_hook (converter obj)
  | TypedClassSerializer property_generators
  | TypedNamedTupleSerializer property_generators
  | DataclassSerializer property_generators =>
      let* object_dict :=
        generate_fields (generate object_to_json) property_generators obj [] in
      Ok (JDict object_dict)
  | UnionSerializer => object_to_json obj
  | LiteralSerializer generator => generate object_to_json generator obj
  | UntypedNamedTupleSerializer fields =>
      let* object_dict := generate_untyped_fields object_to_json fields obj [] in
      Ok (JDict object_dict)
  | UntypedClassSerializer =>
      let* object_dict := generate_dir object_to_json (dir obj) obj [] in
      Ok (JDict object_dict)
  end.

(** [object_to_json] of [serializer.py]: the serializer of the value's own
    type, applied to the value.  The first argument bounds the depth of the
    calls, as the interpreter's recursion limit does. *)
Fixpoint object_to_json (depth : nat) (obj : PyVal) : Result JsonType :=
  match depth with
  | 0 => raise (OtherError "RecursionError") [Text "maximum recursion depth exceeded"]
  | S depth' =>
      let* generator := create_serializer (type_of obj) in
      generate (object_to_json depth') generator obj
  end.

(** *** Equality of values

    [==] as far as the codecs need it: structural, with [True == 1] and
    [False == 0]. *)

Section ListEqb.
Context {A : Type}.
Variable eqb : A -> A -> bool.

Fixpoint list_eqb (l1 l2 : list A) : bool :=
  match l1, l2 with
  | [], [] => true
  | x :: l1', y :: l2' => eqb x y && list_eqb l1' l2'
  | _, _ => false
  end.

End ListEqb.

Definition int_of_bool (b : bool) : Z := if b then 1%Z else 0%Z.

Fixpoint JsonType_eqb (a b : JsonType) {struct a} : bool :=
  match a, b with
  | JNull, JNull => true
  | JBool x, JBool y => Bool.eqb x y
  | JBool x, JInt n | JInt n, JBool x => Z.eqb (int_of_bool x) n
  | JInt n, JInt m => Z.eqb n m
  | JFloat x, JFloat y => Z.eqb (float_bits x) (float_bits y)
  | JStr s, JStr t => String.eqb s t
  | JList l1, JList l2 => list_eqb JsonType_eqb l1 l2
  | JDict d1, JDict d2 =>
      (fix go (d1 d2 : list (string * JsonType)) : bool :=
         match d1, d2 with
         | [], [] => true
         | (k1, v1) :: d1', (k2, v2) :: d2' =>
             String.eqb k1 k2 && JsonType_eqb v1 v2 && go d1' d2'
         | _, _ => false
         end) d1 d2
  | _, _ => false
  end.

Definition date_eqb (a b : datetime.date) : bool :=
  (N.eqb (datetime.d_year a) (datetime.d_year b)
   && N.eqb (datetime.d_month a) (datetime.d_month b)
   && N.eqb (datetime.d_day a) (datetime.d_day b)).

Definition tzinfo_eqb (a b : option datetime.tzinfo) : bool :=
  match a, b with
  | None, None => true
  | Some x, Some y => Z.eqb x y
  | _, _ => false
  end.

Definition time_eqb (a b : datetime.time) : bool :=
  (N.eqb (datetime.t_hour a) (datetime.t_hour b)
   && N.eqb (datetime.t_minute a) (datetime.t_minute b)
   && N.eqb (datetime.t_second a) (datetime.t_second b)
   && N.eqb (datetime.t_microsecond a) (datetime.t_microsecond b)
   && tzinfo_eqb (datetime.t_tzinfo a) (datetime.t_tzinfo b)).

Definition datetime_eqb (a b : datetime.datetime) : bool :=
  (N.eqb (datetime.year a) (datetime.year b)
   && N.eqb (datetime.month a) (datetime.month b)
   && N.eqb (datetime.day a) (datetime.day b)
   && N.eqb (datetime.hour a) (datetime.hour b)
   && N.eqb (datetime.minute a) (datetime.minute b)
   && N.eqb (datetime.second a) (datetime.second b)
   && N.eqb (datetime.microsecond a) (datetime.microsecond b)
   && tzinfo_eqb (datetime.dt_tzinfo a) (datetime.dt_tzinfo b)).

Definition byte_eqb (a b : Byte.byte) : bool := N.eqb (Byte.to_N a) (Byte.to_N b).

Fixpoint PyVal_eqb (a b : PyVal) {struct a} : bool :=
  match a, b with
  | VNone, VNone => true
  | VBool x, VBool y => Bool.eqb x y
  | VBool x, VInt n | VInt n, VBool x => Z.eqb (int_of_bool x) n
  | VInt n, VInt m => Z.eqb n m
  | VFloat x, VFloat y => Z.eqb (float_bits x) (float_bits y)
  | VStr s, VStr t => String.eqb s t
  | VBytes x, VBytes y => list_eqb byte_eqb x y
  | VDateTime x, VDateTime y => datetime_eqb x y
  | VDate x, VDate y => date_eqb x y
  | VTime x, VTime y => time_eqb x y
  | VUUID x, VUUID y => N.eqb x y
  | VEnum c1 n1 _, VEnum c2 n2 _ => String.eqb c1 c2 && String.eqb n1 n2
  | VList l1, VList l2 | VTuple l1, VTuple l2 | VSet l1, VSet l2 =>
      list_eqb PyVal_eqb l1 l2
  | VDict d1, VDict d2 =>
      (fix go (d1 d2 : list (PyVal * PyVal)) : bool :=
         match d1, d2 with
         | [], [] => true
         | (k1, v1) :: d1', (k2, v2) :: d2' =>
             PyVal_eqb k1 k2 && PyVal_eqb v1 v2 && go d1' d2'
         | _, _ => false
         end) d1 d2
  | VObject c1 a1, VObject c2 a2 =>
      String.eqb c1 c2
      && (fix go (a1 a2 : list (string * PyVal)) : bool :=
            match a1, a2 with
            | [], [] => true
            | (k1, v1) :: a1', (k2, v2) :: a2' =>
                String.eqb k1 k2 && PyVal_eqb v1 v2 && go a1' a2'
            | _, _ => false
            end) a1 a2
  | _, _ => false
  end.

(** [set(items)]: the distinct items, in the order of first occurrence. *)
Fixpoint set_of (seen items : list PyVal) : list PyVal :=
  match items with
  | [] => []
  | x :: rest =>
      if existsb (PyVal_eqb x) seen then set_of seen rest
      else x :: set_of (x :: seen) rest
  end.

(** *** Deserializers *)

Definition class_name (typ : PyType) : string :=
  match typ with
  | tClass name _ _ _ _ => name
  | _ => python_type_to_str typ
  end.

(** [enum_type(data)]: the member with that value, or [ValueError]. *)
Definition enum_lookup (enum_type : PyType) (data : JsonType) : Result PyVal :=
  match find (fun m => JsonType_eqb (snd m) data) (enum_members enum_type) with
  | Some (name, value) => Ok (VEnum (class_name enum_type) name value)
  | None =>
      raise ValueError
        [Data data; Text " is not a valid "; TypeName (python_type_to_str enum_type)]
  end.

(** [self.key_type(key)] in [DictDeserializer.parse]: [str(key)], or the
    member of the enumeration. *)
Definition call_key_type (key_type : PyType) (key : string) : Result PyVal :=
  if type_is key_type tStr then Ok (VStr key)
  else enum_lookup key_type (JStr key).

(** The exceptions that [UnionDeserializer.parse] catches. *)
Definition is_shape_error (e : Exception) : bool :=
  match exc_type e with
  | JsonKeyError | JsonTypeError => true
  | _ => false
  end.

Section FieldDeserializers.
Variable parse : Deserializer -> JsonType -> Result PyVal.

(** [FieldDeserializer.parse_field] for the four classes. *)
Definition parse_field (self : FieldDeserializer) (data : list (string * JsonType))
  : Result PyVal :=
  match self with
  | RequiredFieldDeserializer property_name _ parser =>
      match Dict.get data property_name with
      | None =>
          raise JsonKeyError
            [Text "missing required property `"; Text property_name;
             Text "` from JSON object: "; Data (JDict data)]
      | Some value => parse parser value
      end
  | OptionalFieldDeserializer property_name _ parser =>
      match Dict.get data property_name with
      | Some JNull | None => Ok VNone
      | Some value => parse parser value
      end
  | DefaultFieldDeserializer property_name _ parser default_value =>
      match Dict.get data property_name with
      | Some JNull | None => Ok default_value
      | Some value => parse parser value
      end
  | DefaultFactoryFieldDeserializer property_name _ parser default_factory =>
      match Dict.get data property_name with
      | Some JNull | None => Ok (default_factory tt)
      | Some value => parse parser value
      end
  end.

(** The loop of [ClassDeserializer.parse] over the property parsers: the
    field values and the names of the parsed properties. *)
Fixpoint parse_fields (property_parsers : list FieldDeserializer)
    (object_data : list (string * JsonType))
    (field_values : list (string * PyVal)) (parsed_properties : list string)
  : Result (list (string * PyVal) * list string) :=
  match property_parsers with
  | [] => Ok (field_values, parsed_properties)
  | property_parser :: rest =>
      let* value := parse_field property_parser object_data in
      parse_fields rest object_data
        (Dict.set field_values (fd_field_name property_parser) value)
        (parsed_properties ++ [fd_property_name property_parser])
  end.

(** The loop of [UnionDeserializer.parse]: [None] when it ends without a
    [return]. *)
Fixpoint parse_members (member_parsers : list Deserializer) (data : JsonType)
  : option (Result PyVal) :=
  match member_parsers with
  | [] => None
  | member_parser :: rest =>
      match parse member_parser data with
      | Ok value => Some (Ok value)
      | Raise e =>
          if is_shape_error e then parse_members rest data
          else Some (Raise e)
      end
  end.

End FieldDeserializers.

(** [ClassDeserializer.create]: a new object of the class with the field
    values as its attributes. *)
Definition create (class_type : PyType) (field_values : list (string * PyVal))
  : Result PyVal :=
  Ok (VObject (class_name class_type) field_values).

(** [NamedTupleDeserializer.create]: [class_type( **field_values )], a tuple
    of the values in the order of [_fields]. *)
Definition create_named_tuple (class_type : PyType) (field_values : list (string * PyVal))
  : Result PyVal :=
  match class_type with
  | tClass name (KNamedTuple names) _ _ _ =>
      if forallb (fun kv => str_in (fst kv) names) field_values then
        let* attrs :=
          mapM (fun n => match Dict.get field_values n with
                         | Some v => Ok (n, v)
                         | None =>
                             raise TypeError
                               [Text "__new__() missing required argument: "; Text n]
                         end) names in
        Ok (VObject name attrs)
      else raise TypeError [Text "__new__() got an unexpected keyword argument"]
  | _ => raise TypeError [Text "not a named tuple"]
  end.

(** [ClassDeserializer.parse], given the loop over the fields and the
    [create] of the class. *)
Definition ClassDeserializer_parse
    (parse_fields : list (string * JsonType) -> list (string * PyVal) -> list string ->
                    Result (list (string * PyVal) * list string))
    (create : list (string * PyVal) -> Result PyVal)
    (class_type : PyType) (data : JsonType) : Result PyVal :=
  match data with
  | JDict object_data =>
      let* r := parse_fields object_data [] [] in
      let '(field_values, parsed_properties) := r in
      let unassigned_names :=
        filter (fun name => negb (str_in name parsed_properties)) (Dict.keys object_data) in
      if nonempty unassigned_names then
        raise JsonKeyError [Text "unrecognized fields in JSON object: "; Names unassigned_names]
      else create field_values
  | _ =>
      raise JsonTypeError
        [Text "`type `"; TypeName (python_type_to_str class_type);
         Text "` expects JSON `object` data but instead received: "; Data data]
  end.

Definition expects (type_text json_text : string) (data : JsonType) : Result PyVal :=
  raise JsonTypeError
    [Text type_text; Text " expects "; Text json_text;
     Text " but instead received: "; Data data].

(** [float(n)] *)
Definition py_float (n : Z) : Result PyVal :=
  match float_of_int n with
  | Some x => Ok (VFloat x)
  | None => raise (OtherError "OverflowError") [Text "int too large to convert to float"]
  end.

(** *** [DateTimeDeserializer.parse] *)
Definition DateTimeDeserializer_parse (data : JsonType) : Result PyVal :=
  match data with
  | JStr s =>
      let s := if Str.endswith s "Z" then Str.drop_last 1 s +++ "+00:00" else s in
      match datetime.fromisoformat s with
      | None => raise ValueError [Text "Invalid isoformat string: "; Text s]
      | Some timestamp =>
          match datetime.dt_tzinfo timestamp with
          | None =>
              raise JsonValueError
                [Text "timestamp lacks explicit time zone designator: "; Text s]
          | Some _ => Ok (VDateTime timestamp)
          end
      end
  | _ => expects "`datetime` type" "JSON `string` data" data
  end.

(** *** [DateDeserializer.parse] and [TimeDeserializer.parse] *)
Definition DateDeserializer_parse (data : JsonType) : Result PyVal :=
  match data with
  | JStr s =>
      match datetime.date_fromisoformat s with
      | Some d => Ok (VDate d)
      | None => raise ValueError [Text "Invalid isoformat string: "; Text s]
      end
  | _ => expects "`date` type" "JSON `string` data" data
  end.

Definition TimeDeserializer_parse (data : JsonType) : Result PyVal :=
  match data with
  | JStr s =>
      match datetime.time_fromisoformat s with
      | Some t => Ok (VTime t)
      | None => raise ValueError [Text "Invalid isoformat string: "; Text s]
      end
  | _ => expects "`time` type" "JSON `string` data" data
  end.

(** [Deserializer.parse] for every class of deserializer. *)
Fixpoint parse (self : Deserializer) (data : JsonType) {struct self} : Result PyVal :=
  match self with
  | NoneDeserializer =>
      match data with
      | JNull => Ok VNone
      | _ => expects "`None` type" "JSON `null`" data
      end
  | BoolDeserializer =>
      match data with
      | JBool b => Ok (VBool b)
      | _ => expects "`bool` type" "JSON `boolean` data" data
      end
  | IntDeserializer =>
      match data with
      | JInt n => Ok (VInt n)
      | JBool b => Ok (VInt (int_of_bool b))
      | _ => expects "`int` type" "integer data as JSON `number`" data
      end
  | FloatDeserializer =>
      match data with
      | JFloat x => Ok (VFloat x)
      | JInt n => py_float n
      | JBool b => py_float (int_of_bool b)
      | _ => expects "`int` type" "data as JSON `number`" data
      end
  | StringDeserializer =>
      match data with
      | JStr s => Ok (VStr s)
      | _ => expects "`str` type" "JSON `string` data" data
      end
  | BytesDeserializer =>
      match data with
      | JStr s =>
          match b64decode s with
          | Some b => Ok (VBytes b)
          | None => raise ValueError [Text "Incorrect padding or non-base64 digit"]
          end
      | _ => expects "`bytes` type" "JSON `string` data" data
      end
  | DateTimeDeserializer => DateTimeDeserializer_parse data
  | DateDeserializer => DateDeserializer_parse data
  | TimeDeserializer => TimeDeserializer_parse data
  | UUIDDeserializer =>
      match data with
      | JStr s =>
          match uuid_parse s with
          | Some u => Ok (VUUID u)
          | None => raise ValueError [Text "badly formed hexadecimal UUID string"]
          end
      | _ => expects "`UUID` type" "JSON `string` data" data
      end
  | ListDeserializer item_type item_parser =>
      match data with
      | JList items =>
          let* values := mapM (parse item_parser) items in
          Ok (VList values)
      | _ =>
          raise JsonTypeError
            [Text "type `List["; TypeName (python_type_to_str item_type);
             Text "]` expects JSON `array` data but instead received: "; Data data]
      end
  | DictDeserializer key_type value_type value_parser =>
      match data with
      | JDict props =>
          let* items :=
            mapM (fun kv => let* k := call_key_type key_type (fst kv) in
                            let* v := parse value_parser (snd kv) in
                            Ok (k, v)) props in
          Ok (VDict items)
      | _ =>
          raise JsonTypeError
            ([Text "`type `"] ++ dict_container_type key_type value_type
             ++ [Text "` expects JSON `object` data but instead received: "; Data data])
      end
  | SetDeserializer member_type member_parser =>
      match data with
      | JList items =>
          let* values := mapM (parse member_parser) items in
          Ok (VSet (set_of [] values))
      | _ =>
          raise JsonTypeError
            [Text "type `Set["; TypeName (python_type_to_str member_type);
             Text "]` expects JSON `array` data but instead received: "; Data data]
      end
  | TupleDeserializer item_types item_parsers =>
      match data with
      | JList items =>
          if negb (List.length items =? List.length item_parsers) then
            raise JsonValueError
              [Text "type `Tuple["; TypeNames (map python_type_to_str item_types);
               Text "]` expects a JSON `array` of length ";
               Number (List.length item_parsers);
               Text " but received length "; Number (List.length items)]
          else
            let* values := zipM parse item_parsers items in
            Ok (VTuple values)
      | _ =>
          raise JsonTypeError
            [Text "type `Tuple["; TypeNames (map python_type_to_str item_types);
             Text "]` expects JSON `array` data but instead received: "; Data data]
      end
  | UnionDeserializer member_types member_parsers =>
      match parse_members parse member_parsers data with
      | Some result => result
      | None =>
          raise JsonKeyError
            [Text "type `Union["; TypeNames (map python_type_to_str member_types);
             Text "]` could not be instantiated from: "; Data data]
      end
  | EnumDeserializer enum_type => enum_lookup enum_type data
  | CustomDeserializer converter => run_hook (converter data)
  | NamedTupleDeserializer class_type property_parsers =>
      ClassDeserializer_parse (parse_fields parse property_parsers)
        (create_named_tuple class_type) class_type data
  | DataclassDeserializer class_type property_parsers
  | TypedClassDeserializer class_type property_parsers =>
      ClassDeserializer_parse (parse_fields parse property_parsers)
        (create class_type) class_type data
  end.

(** The alternative fails on [data] with an exception that the union
    catches. *)
Definition shape_mismatch (data : JsonType) (p : Deserializer) : Prop :=
  exists e, parse p data = Raise e /\ is_shape_error e = true.

End Codecs.

(** ** Notions used in the statements *)

(** The value that a field gets when its property is absent:
    the declared default, the value of the default factory, or [None]. *)
Definition declared_default (defaults : FieldDefaults) : PyVal :=
  match default defaults with
  | Some value => value
  | None =>
      match default_factory defaults with
      | Some factory => factory tt
      | None => VNone
      end
  end.

Definition has_default (defaults : FieldDefaults) : bool :=
  match default defaults, default_factory defaults with
  | None, None => false
  | _, _ => true
  end.

(** The names in [object_data] that are no property of a field parser, in
    the order of the object. *)
Definition unrecognized_names (property_parsers : list FieldDeserializer)
    (object_data : list (string * JsonType)) : list string :=
  filter (fun name => negb (str_in name (map fd_property_name property_parsers)))
    (Dict.keys object_data).

(** A deserializer for the type of the field that rejects every input. *)
Definition failing_parse (_ : Deserializer) (data : JsonType) : Result PyVal :=
  raise JsonTypeError [Data data].


Inductive Forall3 {A B C : Type} (R : A -> B -> C -> Prop)
  : list A -> list B -> list C -> Prop :=
| Forall3_nil : Forall3 R [] [] []
| Forall3_cons a b c la lb lc :
    R a b c -> Forall3 R la lb lc -> Forall3 R (a :: la) (b :: lb) (c :: lc).

(** The serializer and the deserializer of one field give back the value
    [x] of the field: a value that is [None] is not written, and the field
    deserializer returns [None] for the absent property; any other value is
    written as some JSON value, from which the field deserializer returns
    [x]. *)
Definition field_round_trips
    (generate : Serializer -> PyVal -> Result JsonType)
    (parse : Deserializer -> JsonType -> Result PyVal)
    (g : FieldSerializer) (p : FieldDeserializer) (x : PyVal) : Prop :=
  (x = VNone ->
   forall data, Dict.get data (fd_property_name p) = None ->
                parse_field parse p data = Ok VNone)
  /\ (x <> VNone ->
      exists j, generate (fs_generator g) x = Ok j
                /\ forall data, Dict.get data (fd_property_name p) = Some j ->
                                parse_field parse p data = Ok x).

(** A field serializer, a field deserializer and an attribute that belong
    to one field, and give back its value. *)
Definition row_ok
    (generate : Serializer -> PyVal -> Result JsonType)
    (parse : Deserializer -> JsonType -> Result PyVal)
    (g : FieldSerializer) (p : FieldDeserializer) (a : string * PyVal) : Prop :=
  fs_field_name g = fst a /\ fd_field_name p = fst a
  /\ fs_property_name g = fd_property_name p
  /\ field_round_trips generate parse g p (snd a).

(** The names of the fields of a class, and the names of their JSON
    properties. *)
Definition field_name (f : string * PyType * FieldDefaults) : string := fst (fst f).
Definition field_type (f : string * PyType * FieldDefaults) : PyType := snd (fst f).
Definition field_defaults (f : string * PyType * FieldDefaults) : FieldDefaults := snd f.

Definition property_name (python_field_to_json_property : string -> option PyType -> string)
    (f : string * PyType * FieldDefaults) : string :=
  python_field_to_json_property (field_name f) (Some (field_type f)).

(** The names and the property names of the field codecs that the
    factories build for a class. *)
Definition codecs_of (python_field_to_json_property : string -> option PyType -> string)
    (fields : list (string * PyType * FieldDefaults))
    (gens : list FieldSerializer) (parsers : list FieldDeserializer) : Prop :=
  map fs_field_name gens = map field_name fields
  /\ map fs_property_name gens = map (property_name python_field_to_json_property) fields
  /\ map fd_field_name parsers = map field_name fields
  /\ map fd_property_name parsers = map (property_name python_field_to_json_property) fields.

(** The field of [obj] that [g] reads holds a value other than [None]. *)
Definition holds_value (obj : PyVal) (g : FieldSerializer) : bool :=
  match getattr obj (fs_field_name g) with
  | Ok VNone => false
  | Ok _ => true
  | Raise _ => false
  end.

(** The serializer [g] writes [x] as a JSON value from which the
    deserializer [p] returns [x]. *)
Definition round_trips
    (generate : Serializer -> PyVal -> Result JsonType)
    (parse : Deserializer -> JsonType -> Result PyVal)
    (g : Serializer) (p : Deserializer) (x : PyVal) : Prop :=
  exists j, generate g x = Ok j /\ parse p j = Ok x.

(** [{key: value for key, value in items}] with string keys, as a value. *)
Definition str_dict (items : list (string * PyVal)) : PyVal :=
  VDict (map (fun kv => (VStr (fst kv), snd kv)) items).

(** A dictionary whose keys are the members [(name, value)] of the
    enumeration [cls], the values of the members being strings. *)
Definition enum_dict (cls : string) (items : list (string * string * PyVal)) : PyVal :=
  VDict (map (fun kv => (VEnum cls (fst (fst kv)) (JStr (snd (fst kv))), snd kv)) items).

(** The values of the members of an enumeration are strings. *)
Definition str_valued (members : list (string * JsonType)) : Prop :=
  Forall (fun m => exists s, snd m = JStr s) members.

(** The JSON values for which [==] is equality of the values themselves:
    strings and integers. *)
Definition is_scalar (j : JsonType) : bool :=
  match j with JStr _ | JInt _ => true | _ => false end.

(** Whether a deserializer that tests the kind of its input takes a JSON
    value of the kind of [data]; [None] for the deserializers that do not
    test it. *)
Definition accepts_kind (p : Deserializer) (data : JsonType) : option bool :=
  match p with
  | NoneDeserializer => Some (match data with JNull => true | _ => false end)
  | BoolDeserializer => Some (match data with JBool _ => true | _ => false end)
  | IntDeserializer => Some (match data with JInt _ | JBool _ => true | _ => false end)
  | FloatDeserializer =>
      Some (match data with JFloat _ | JInt _ | JBool _ => true | _ => false end)
  | StringDeserializer | BytesDeserializer | DateTimeDeserializer | DateDeserializer
  | TimeDeserializer | UUIDDeserializer =>
      Some (match data with JStr _ => true | _ => false end)
  | ListDeserializer _ _ | SetDeserializer _ _ | TupleDeserializer _ _ =>
      Some (match data with JList _ => true | _ => false end)
  | DictDeserializer _ _ _ | NamedTupleDeserializer _ _ | DataclassDeserializer _ _
  | TypedClassDeserializer _ _ =>
      Some (match data with JDict _ => true | _ => false end)
  | UnionDeserializer _ _ | EnumDeserializer _ | CustomDeserializer _ => None
  end.

(** The hours, minutes, seconds and microseconds of the absolute value of
    an offset, as [_format_offset] computes them. *)
Definition offset_fields (o : datetime.tzinfo) : N * N * N * N :=
  let a := Z.to_N (Z.abs o) in
  let r := (a mod 3600000000)%N in
  let r' := (r mod 60000000)%N in
  ((a / 3600000000)%N, (r / 60000000)%N, (r' / 1000000)%N, (r' mod 1000000)%N).

Definition offset_body (o : datetime.tzinfo) : string :=
  let '(hh, mm, ss, us) := offset_fields o in
  if ((ss =? 0) && (us =? 0))%N then Str.digits 2 hh +++ ":" +++ Str.digits 2 mm
  else datetime.format_time hh mm ss us.

(** The types that are built from the well-known types with [List],
    [Set], [Tuple], [Dict] with string keys, [Union] and [Annotated]. *)
Fixpoint plain_type (typ : PyType) : bool :=
  match typ with
  | tNone | tBool | tInt | tFloat | tStr | tBytes
  | tDateTime | tDate | tTime | tUUID => true
  | tList t | tSet t => plain_type t
  | tDict k v => type_is k tStr && plain_type v
  | tTuple ts | tUnion ts => forallb plain_type ts
  | tAnnotated t _ => plain_type t
  | _ => false
  end.

(** The number of levels of a JSON value: one for a value that is no
    container, one more than its deepest item for an array and an object. *)
Fixpoint json_depth (j : JsonType) : nat :=
  match j with
  | JList items => S (fold_right (fun x m => Nat.max (json_depth x) m) 0 items)
  | JDict props => S (fold_right (fun kv m => Nat.max (json_depth (snd kv)) m) 0 props)
  | _ => 1
  end.

(** The keys of every object inside a JSON value are pairwise distinct, as
    the keys of a [dict] are. *)
Fixpoint unique_keys (j : JsonType) : Prop :=
  match j with
  | JList items => fold_right (fun x P => unique_keys x /\ P) True items
  | JDict props =>
      NoDup (map fst props)
      /\ fold_right (fun kv P => unique_keys (snd kv) /\ P) True props
  | _ => True
  end.

(** *** [inspection.is_generic_instance]

    A forward reference is no value of [PyType]. *)

(** [isinstance(obj, typ)] for a class [typ]: the class of the object or
    a class it is derived from, which is [int] for a [bool], [date] for a
    [datetime] and [tuple] for a named tuple. *)
Definition isinstance (class_of : string -> PyType) (obj : PyVal) (typ : PyType) : bool :=
  match obj, typ with
  | VNone, tNone => true
  | VBool _, tBool | VBool _, tInt => true
  | VInt _, tInt => true
  | VFloat _, tFloat => true
  | VStr _, tStr => true
  | VBytes _, tBytes => true
  | VDateTime _, tDateTime | VDateTime _, tDate => true
  | VDate _, tDate => true
  | VTime _, tTime => true
  | VUUID _, tUUID => true
  | VList _, tlist => true
  | VDict _, tdict => true
  | VSet _, tset => true
  | VTuple _, ttuple => true
  | VEnum cls _ _, tClass name _ _ _ _ => String.eqb cls name
  | VObject cls _, tClass name _ _ _ _ => String.eqb cls name
  | VObject cls _, ttuple => is_named_tuple_type (class_of cls)
  | _, _ => false
  end.

(** The items of a tuple: those of a [tuple], and the field values of a
    named tuple. *)
Definition tuple_items (class_of : string -> PyType) (obj : PyVal) : option (list PyVal) :=
  match obj with
  | VTuple items => Some items
  | VObject cls attrs =>
      if is_named_tuple_type (class_of cls) then Some (map snd attrs) else None
  | _ => None
  end.

Section Quantifiers.
Context {A B : Type}.

(** [all(f(x) for x in l)] and [any(f(x) for x in l)]: the items are
    tested in order, up to the first that decides. *)
Fixpoint allM (f : A -> Result bool) (l : list A) : Result bool :=
  match l with
  | [] => Ok true
  | x :: l' => let* b := f x in if b then allM f l' else Ok false
  end.

Fixpoint anyM (f : A -> Result bool) (l : list A) : Result bool :=
  match l with
  | [] => Ok false
  | x :: l' => let* b := f x in if b then Ok true else anyM f l'
  end.

(** [all(f(a, b) for a, b in zip(la, lb))] *)
Fixpoint all2M (f : A -> B -> Result bool) (la : list A) (lb : list B) : Result bool :=
  match la, lb with
  | a :: la', b :: lb' => let* r := f a b in if r then all2M f la' lb' else Ok false
  | _, _ => Ok true
  end.

End Quantifiers.

Fixpoint is_generic_instance (python_type_to_str : PyType -> string)
    (class_of : string -> PyType) (obj : PyVal) (typ : PyType) {struct typ}
  : Result bool :=
  match typ with
  | tList list_item_type =>
      match obj with
      | VList list_obj =>
          allM (fun item =>
                  is_generic_instance python_type_to_str class_of item list_item_type)
            list_obj
      | _ => Ok false
      end
  | tDict key_type value_type =>
      match obj with
      | VDict dict_obj =>
          allM (fun kv =>
                  let* k := is_generic_instance python_type_to_str class_of
                              (fst kv) key_type in
                  if k then
                    is_generic_instance python_type_to_str class_of (snd kv) value_type
                  else Ok false)
            dict_obj
      | _ => Ok false
      end
  | tSet set_member_type =>
      match obj with
      | VSet set_obj =>
          allM (fun item =>
                  is_generic_instance python_type_to_str class_of item set_member_type)
            set_obj
      | _ => Ok false
      end
  | tTuple item_types =>
      match tuple_items class_of obj with
      | Some items =>
          all2M (fun tuple_item_type item =>
                   is_generic_instance python_type_to_str class_of item tuple_item_type)
            item_types items
      | None => Ok false
      end
  | tUnion member_types =>
      anyM (fun member_type =>
              is_generic_instance python_type_to_str class_of obj member_type)
        member_types
  | tLiteral _ | tAnnotated _ _ =>
      raise TypeError [Text "expected `type` but got: "; TypeName (python_type_to_str typ)]
  | _ => Ok (isinstance class_of obj typ)
  end.

(** The types for which the test of [is_generic_instance] is defined, and
    whose deserializer is no conversion hook of a class: the well-known
    types, enumerations, named tuples, the classes without [from_json],
    and what [List], [Dict], [Set], [Tuple] and [Union] make of them. *)
Fixpoint checkable (typ : PyType) : bool :=
  match typ with
  | tNone | tBool | tInt | tFloat | tStr | tBytes
  | tDateTime | tDate | tTime | tUUID => true
  | tList t | tSet t => checkable t
  | tDict k v => checkable k && checkable v
  | tTuple ts | tUnion ts => forallb checkable ts
  | tClass _ kind _ _ from_json =>
      match kind, from_json with
      | KEnum _, _ | KNamedTuple _, _ => true
      | _, None => true
      | _, Some _ => false
      end
  | _ => false
  end.

(** *** More of [strong_typing/inspection.py] *)

(** [is_type_union(typ)] *)
Definition is_type_union (typ : PyType) : bool :=
  let typ := unwrap_annotated_type typ in
  if _is_union_like typ then
    let args := get_args typ in
    (2 <? List.length args) || negb (existsb (type_is tNone) args)
  else false.

(** [unwrap_union_types] and [_unwrap_union_types] *)
Definition _unwrap_union_types (typ : PyType) : Result (list PyType) :=
  match typ with
  | tUnion members => Ok members
  | _ => raise TypeError [Text "union type must have un-subscripted type of Union"]
  end.

Definition unwrap_union_types (typ : PyType) : Result (list PyType) :=
  _unwrap_union_types typ.

(** What [get_referenced_types] collects: types, and, out of a literal
    type, the values of the literal, which are its arguments. *)
Inductive Referenced :=
| RefType (typ : PyType)
| RefValue (value : LiteralValue).

(** [get_referenced_types(typ)] *)
Fixpoint get_referenced_types (typ : PyType) : list Referenced :=
  match typ with
  | tAnnotated arg _ => get_referenced_types arg
  | tList arg | tSet arg => get_referenced_types arg
  | tDict key value => get_referenced_types key ++ get_referenced_types value
  | tTuple args | tUnion args => flat_map get_referenced_types args
  | tLiteral values => map RefValue values
  | tNone => []
  | _ => [RefType typ]
  end.

(** *** [serialization.python_id_to_json_field]

    [keyword.iskeyword] of the standard library is a parameter. *)
Definition python_id_to_json_field (iskeyword : string -> bool)
    (python_id : string) (python_type : option PyType) : string :=
  match match python_type with
        | Some typ => get_annotation_Alias typ
        | None => None
        end with
  | Some alias_name => alias_name
  | None =>
      if Str.endswith python_id "_" && iskeyword (Str.drop_last 1 python_id)
      then Str.drop_last 1 python_id
      else python_id
  end.

(** The keywords of Python 3.8, [keyword.kwlist]. *)
Definition kwlist : list string :=
  ["False"; "None"; "True"; "and"; "as"; "assert"; "async"; "await"; "break";
   "class"; "continue"; "def"; "del"; "elif"; "else"; "except"; "finally"; "for";
   "from"; "global"; "if"; "import"; "in"; "is"; "lambda"; "nonlocal"; "not"; "or";
   "pass"; "raise"; "return"; "try"; "while"; "with"; "yield"].

(** ** An instance of the parameters

    The functions of the package and of the library that the development
    takes as parameters, written out so that the codecs can be run on the
    types and values of the examples. *)

Module Lib.

Definition join (sep : string) (parts : list string) : string := String.concat sep parts.

(** Modelled from the spec: [python_type_to_str] of [name.py], which is not
    among the sources.  A rendering of the name of a type; the codecs use it
    in the messages of their exceptions only. *)
Fixpoint python_type_to_str (typ : PyType) : string :=
  match typ with
  | tNone => "None" | tBool => "bool" | tInt => "int" | tFloat => "float"
  | tStr => "str" | tBytes => "bytes" | tDateTime => "datetime" | tDate => "date"
  | tTime => "time" | tUUID => "UUID"
  | tlist => "list" | tdict => "dict" | tset => "set" | ttuple => "tuple"
  | tList t => "List[" +++ python_type_to_str t +++ "]"
  | tDict k v => "Dict[" +++ python_type_to_str k +++ ", " +++ python_type_to_str v +++ "]"
  | tSet t => "Set[" +++ python_type_to_str t +++ "]"
  | tTuple ts => "Tuple[" +++ join ", " (map python_type_to_str ts) +++ "]"
  | tUnion ts => "Union[" +++ join ", " (map python_type_to_str ts) +++ "]"
  | tLiteral _ => "Literal[...]"
  | tAnnotated t _ => "Annotated[" +++ python_type_to_str t +++ ", ...]"
  | tClass name _ _ _ _ => name
  | tFunctionType => "function" | tModuleType => "module" | tType => "type"
  | tMethodType => "method"
  end.

(** Modelled from the spec: [python_field_to_json_property] of
    [mapping.py], which is not among the sources.  The external name of a
    field is its own name unless an alias annotation overrides it. *)
Definition python_field_to_json_property (python_id : string) (python_type : option PyType)
  : string :=
  match python_type with
  | Some typ =>
      match get_annotation_Alias typ with
      | Some alias => alias
      | None => python_id
      end
  | None => python_id
  end.

(** [float(n)]: the double nearest to [n], ties to even. *)
Definition float_of_int (n : Z) : option PyFloat :=
  (if n =? 0 then Some (mkfloat 0)
   else
     let sign := if n <? 0 then 1 else 0 in
     let a := Z.abs n in
     let len := Z.log2 a + 1 in                     (* bit length *)
     let '(m, e) :=
       if len <=? 53 then (Z.shiftl a (53 - len), len - 1)
       else
         let shift := len - 53 in
         let q := Z.shiftr a shift in
         let r := Z.land a (Z.ones shift) in
         let half := Z.shiftl 1 (shift - 1) in
         let q' := if (half <? r) || ((r =? half) && Z.odd q) then q + 1 else q in
         if q' =? Z.shiftl 1 53 then (Z.shiftl 1 52, len) else (q', len - 1) in
     if 1023 <? e then None
     else Some (mkfloat (Z.lor (Z.shiftl sign 63)
                           (Z.lor (Z.shiftl (e + 1023) 52) (Z.land m (Z.ones 52))))))%Z.

(** Base64 with the standard alphabet. *)
Definition alphabet : string :=
  "ABCDEFGHIJKLMNOPQRSTUVWXYZabcdefghijklmnopqrstuvwxyz0123456789+/".

Definition b64_char (n : N) : ascii :=
  match String.get (N.to_nat (n mod 64)) alphabet with
  | Some c => c
  | None => "A"%char
  end.

Definition b64_index (c : ascii) : option N :=
  option_map N.of_nat (Str.find c alphabet).

Definition chars (l : list ascii) : string := fold_right String "" l.

Fixpoint b64encode_N (data : list N) : string :=
  match data with
  | [] => ""
  | [a] =>
      chars [b64_char (a / 4); b64_char ((a mod 4) * 16); "="; "="]%char
  | [a; b] =>
      chars [b64_char (a / 4); b64_char ((a mod 4) * 16 + b / 16);
             b64_char ((b mod 16) * 4); "="]%char
  | a :: b :: c :: rest =>
      chars [b64_char (a / 4); b64_char ((a mod 4) * 16 + b / 16);
             b64_char ((b mod 16) * 4 + c / 64); b64_char (c mod 64)]
      +++ b64encode_N rest
  end.

Definition b64encode (data : list Byte.byte) : string :=
  b64encode_N (map Byte.to_N data).

Definition byte_of_N (n : N) : Byte.byte :=
  match Byte.of_N (n mod 256) with
  | Some b => b
  | None => Byte.x00
  end.

Fixpoint b64decode_chars (fuel : nat) (l : list ascii) : option (list Byte.byte) :=
  match fuel with
  | 0 => None
  | S fuel' =>
      match l with
      | [] => Some []
      | [a; b; c; d] =>
          match b64_index a, b64_index b with
          | Some x, Some y =>
              let b1 := byte_of_N (x * 4 + y / 16) in
              if (Ascii.eqb c "=" && Ascii.eqb d "=")%bool then Some [b1]
              else
                match b64_index c with
                | Some z =>
                    let b2 := byte_of_N ((y mod 16) * 16 + z / 4) in
                    if Ascii.eqb d "=" then Some [b1; b2]
                    else
                      match b64_index d with
                      | Some w => Some [b1; b2; byte_of_N ((z mod 4) * 64 + w)]
                      | None => None
                      end
                | None => None
                end
          | _, _ => None
          end
      | a :: b :: c :: d :: rest =>
          match b64_index a, b64_index b, b64_index c, b64_index d,
                b64decode_chars fuel' rest with
          | Some x, Some y, Some z, Some w, Some bytes =>
              Some (byte_of_N (x * 4 + y / 16) :: byte_of_N ((y mod 16) * 16 + z / 4)
                    :: byte_of_N ((z mod 4) * 64 + w) :: bytes)
          | _, _, _, _, _ => None
          end
      | _ => None
      end
  end.

Definition b64decode (s : string) : option (list Byte.byte) :=
  b64decode_chars (S (String.length s)) (list_ascii_of_string s).

(** UUIDs: 128 bits, written as 32 hexadecimal digits in five groups. *)
Definition hex_char (n : N) : ascii :=
  match String.get (N.to_nat (n mod 16)) "0123456789abcdef" with
  | Some c => c
  | None => "0"%char
  end.

Fixpoint hex_digits (width : nat) (n : N) : string :=
  match width with
  | 0 => ""
  | S w => hex_digits w (n / 16) +++ String (hex_char n) ""
  end.

Definition uuid_str (u : N) : string :=
  let h := hex_digits 32 u in
  Str.slice 0 8 h +++ "-" +++ Str.slice 8 12 h +++ "-" +++ Str.slice 12 16 h
  +++ "-" +++ Str.slice 16 20 h +++ "-" +++ Str.slice 20 32 h.

Definition hex_value (c : ascii) : option N :=
  let n := N_of_ascii c in
  if ((48 <=? n) && (n <=? 57))%N then Some (n - 48)%N
  else if ((97 <=? n) && (n <=? 102))%N then Some (n - 87)%N
  else if ((65 <=? n) && (n <=? 70))%N then Some (n - 55)%N
  else None.

Fixpoint hex_int (acc : N) (s : string) : option N :=
  match s with
  | "" => Some acc
  | String c s' =>
      match hex_value c with
      | Some v => hex_int (16 * acc + v) s'
      | None => None
      end
  end.

Fixpoint remove_hyphens (s : string) : string :=
  match s with
  | "" => ""
  | String c s' => if Ascii.eqb c "-" then remove_hyphens s' else String c (remove_hyphens s')
  end.

Definition uuid_parse (s : string) : option N :=
  let hex := remove_hyphens s in
  if String.length hex =? 32 then hex_int 0 hex else None.

(** [str(obj)] for the values that have a text of their own here. *)
Definition py_str (obj : PyVal) : string :=
  match obj with
  | VNone => "None"
  | VBool true => "True"
  | VBool false => "False"
  | VInt n => (if (n <? 0)%Z then "-" else "") +++ Str.decimal (Z.to_N (Z.abs n))
  | VStr s => s
  | VUUID u => uuid_str u
  | _ => "<object>"
  end.

End Lib.

(** ** Types and values of the examples

    Classes in the manner of those that the tests of the package import
    from [sample_types]. *)

Module Sample.

Definition dataclass (name : string) (fields : list (string * PyType * FieldDefaults))
  : PyType := tClass name KDataclass fields None None.

Definition required (name : string) (typ : PyType) : string * PyType * FieldDefaults :=
  (name, typ, no_default).

Definition with_default (name : string) (typ : PyType) (value : PyVal)
  : string * PyType * FieldDefaults :=
  (name, typ, mkdefaults (Some value) None).

(** [class Side(enum.Enum): LEFT = "L"; RIGHT = "R"] *)
Definition Side : PyType :=
  tClass "Side" (KEnum [("LEFT", JStr "L"); ("RIGHT", JStr "R")]) [] None None.

(** [class Suit(enum.Enum): Diamonds = 1; Hearts = 2; Clubs = 3; Spades = 4] *)
Definition Suit : PyType :=
  tClass "Suit"
    (KEnum [("Diamonds", JInt 1); ("Hearts", JInt 2); ("Clubs", JInt 3); ("Spades", JInt 4)])
    [] None None.

(** [@dataclass class SimpleValueWrapper: value: int] *)
Definition SimpleValueWrapper : PyType :=
  dataclass "SimpleValueWrapper" [required "value" tInt].

(** [@dataclass class OptionalValueWrapper: value: Optional[int]] *)
Definition OptionalValueWrapper : PyType :=
  dataclass "OptionalValueWrapper" [required "value" (tOptional tInt)].

(** [@dataclass class DefaultValueWrapper: value: Optional[int] = 5] *)
Definition DefaultValueWrapper : PyType :=
  dataclass "DefaultValueWrapper" [with_default "value" (tOptional tInt) (VInt 5)].

(** [@dataclass class PairWrapper: value: Tuple[int, int]] *)
Definition PairWrapper : PyType :=
  dataclass "PairWrapper" [required "value" (tTuple [tInt; tInt])].

(** [@dataclass class Event: name: str; when: datetime.datetime;
    tags: List[str]; side: Optional[Side]; priority: int = 0;
    note: Annotated[Optional[str], Alias("comment")] = None] *)
Definition Event : PyType :=
  dataclass "Event"
    [required "name" tStr;
     required "when" tDateTime;
     required "tags" (tList tStr);
     required "side" (tOptional Side);
     with_default "priority" tInt (VInt 0);
     with_default "note" (tAnnotated (tOptional tStr) [Alias "comment"]) VNone].

(** [class SimpleTypedNamedTuple(NamedTuple): int_value: int; str_value: str] *)
Definition SimpleTypedNamedTuple : PyType :=
  tClass "SimpleTypedNamedTuple" (KNamedTuple ["int_value"; "str_value"])
    [required "int_value" tInt; required "str_value" tStr] None None.

(** [SimpleUntypedNamedTuple = collections.namedtuple("SimpleUntypedNamedTuple",
    ["int_value", "str_value"])] *)
Definition SimpleUntypedNamedTuple : PyType :=
  tClass "SimpleUntypedNamedTuple" (KNamedTuple ["int_value"; "str_value"]) [] None None.

(** [class OptionalNamedTuple(NamedTuple): int_value: Optional[int]; str_value: str] *)
Definition OptionalNamedTuple : PyType :=
  tClass "OptionalNamedTuple" (KNamedTuple ["int_value"; "str_value"])
    [required "int_value" (tOptional tInt); required "str_value" tStr] None None.

(** Conversion hooks in the manner of the class [UID] of the tests, which
    is written as its text: [to_json] returns the attribute [value],
    [from_json] builds the object from a string. *)
Definition text_to_json (obj : PyVal) : HookOutcome JsonType :=
  match obj with
  | VObject _ [(_, VStr s)] => HReturn (JStr s)
  | VEnum _ name _ => HReturn (JStr name)
  | _ => HRaise (OtherError "AttributeError") "value"
  end.

Definition text_from_json (cls : string) (data : JsonType) : HookOutcome PyVal :=
  match data with
  | JStr s => HReturn (VObject cls [("value", VStr s)])
  | _ => HRaise TypeError "expected a string"
  end.

Definition UID : PyType :=
  tClass "UID" KPlain [required "value" tStr]
    (Some text_to_json) (Some (text_from_json "UID")).

(** An enumeration and a named tuple that define both hooks. *)
Definition HookedSide : PyType :=
  tClass "HookedSide" (KEnum [("LEFT", JStr "L"); ("RIGHT", JStr "R")]) []
    (Some text_to_json) (Some (text_from_json "HookedSide")).

Definition HookedTuple : PyType :=
  tClass "HookedTuple" (KNamedTuple ["value"]) [required "value" tStr]
    (Some text_to_json) (Some (text_from_json "HookedTuple")).

Definition classes : list PyType :=
  [Side; Suit; SimpleValueWrapper; OptionalValueWrapper; DefaultValueWrapper;
   PairWrapper; Event; SimpleTypedNamedTuple; SimpleUntypedNamedTuple;
   OptionalNamedTuple; UID; HookedSide; HookedTuple].

(** The class of an object, by its name; an unknown name is a class
    without attributes. *)
Definition class_of (name : string) : PyType :=
  match find (fun c => match c with
                       | tClass n _ _ _ _ => String.eqb n name
                       | _ => false
                       end) classes with
  | Some c => c
  | None => tClass name KPlain [] None None
  end.

End Sample.

(** The codecs with this instance of the parameters. *)

Module Py.

Definition create_serializer : PyType -> Result Serializer :=
  create_serializer Lib.python_type_to_str Lib.python_field_to_json_property.

Definition create_deserializer : PyType -> Result Deserializer :=
  create_deserializer Lib.python_type_to_str Lib.python_field_to_json_property.

Definition object_to_json : nat -> PyVal -> Result JsonType :=
  object_to_json Lib.python_type_to_str Lib.python_field_to_json_property
    Sample.class_of Lib.py_str Lib.b64encode.

(** The interpreter's default recursion limit. *)
Definition recursion_limit : nat := 1000.

Definition generate : Serializer -> PyVal -> Result JsonType :=
  generate Lib.python_field_to_json_property Lib.py_str Lib.b64encode
    (object_to_json recursion_limit).

Definition parse : Deserializer -> JsonType -> Result PyVal :=
  parse Lib.python_type_to_str Lib.float_of_int Lib.b64decode Lib.uuid_parse.

(** [create_serializer(typ).generate(obj)] *)
Definition serialize (typ : PyType) (obj : PyVal) : Result JsonType :=
  let* generator := create_serializer typ in generate generator obj.

(** [create_deserializer(typ).parse(data)] *)
Definition deserialize (typ : PyType) (data : JsonType) : Result PyVal :=
  let* parser := create_deserializer typ in parse parser data.

End Py.

(** Values of the examples. *)
Definition sample_timestamp : datetime.datetime :=
  datetime.mkdatetime 1989 10 23 1 45 50 0 None.

Definition sample_event : PyVal :=
  VObject "Event"
    [("name", VStr "launch");
     ("when", VDateTime (datetime.mkdatetime 1989 10 23 1 45 50 0 (Some datetime.utc)));
     ("tags", VList [VStr "a"; VStr "b"]);
     ("side", VNone);
     ("priority", VInt 3);
     ("note", VNone)].

(** * Properties *)

(** ** Strings *)

Module StrFacts.
Import Str.

Lemma append_assoc (a b c : string) : (a +++ b) +++ c = a +++ b +++ c.
Proof. induction a as [|x a IH]; simpl; [reflexivity | now rewrite IH]. Qed.

Lemma append_empty_r (a : string) : a +++ "" = a.
Proof. induction a as [|x a IH]; simpl; [reflexivity | now rewrite IH]. Qed.

Lemma length_append (a b : string) :
  String.length (a +++ b) = String.length a + String.length b.
Proof. induction a as [|x a IH]; simpl; [reflexivity | now rewrite IH]. Qed.

Lemma substring_all (s : string) : substring 0 (String.length s) s = s.
Proof. induction s as [|x s IH]; simpl; [reflexivity | now rewrite IH]. Qed.

Lemma substring_0_0 (s : string) : substring 0 0 s = "".
Proof. destruct s; reflexivity. Qed.

Lemma substring_app_l (a b : string) :
  substring 0 (String.length a) (a +++ b) = a.
Proof.
  induction a as [|x a IH]; simpl.
  - apply substring_0_0.
  - now rewrite IH.
Qed.

Lemma substring_app_r (a b : string) (m : nat) :
  substring (String.length a) m (a +++ b) = substring 0 m b.
Proof. induction a as [|x a IH]; simpl; [reflexivity | exact IH]. Qed.

Lemma drop_last_app (a suffix : string) :
  drop_last (String.length suffix) (a +++ suffix) = a.
Proof.
  unfold drop_last. rewrite length_append.
  replace (String.length a + String.length suffix - String.length suffix)
    with (String.length a) by lia.
  apply substring_app_l.
Qed.

Lemma slice_app_l (a b : string) (j : nat) :
  j = String.length a -> slice 0 j (a +++ b) = a.
Proof.
  intros ->. unfold slice. rewrite Nat.sub_0_r. apply substring_app_l.
Qed.

Lemma slice_from_app_r (a b : string) (i : nat) :
  i = String.length a -> slice_from i (a +++ b) = b.
Proof.
  intros ->. unfold slice_from. rewrite length_append.
  replace (String.length a + String.length b - String.length a)
    with (String.length b) by lia.
  rewrite substring_app_r. apply substring_all.
Qed.

Lemma endswith_refl (s : string) : endswith s s = true.
Proof.
  destruct s as [|x s]; cbn [endswith]; [reflexivity|].
  now rewrite String.eqb_refl.
Qed.

Lemma endswith_app (a suffix : string) : endswith (a +++ suffix) suffix = true.
Proof.
  induction a as [|x a IH]; cbn [endswith append].
  - apply endswith_refl.
  - rewrite IH. apply orb_true_r.
Qed.

Lemma endswith_inv (s suffix : string) :
  endswith s suffix = true -> exists a, s = a +++ suffix.
Proof.
  induction s as [|x s IH]; cbn [endswith]; intros H.
  - apply String.eqb_eq in H. subst. now exists "".
  - apply orb_true_iff in H. destruct H as [H|H].
    + apply String.eqb_eq in H. subst. now exists "".
    + destruct (IH H) as [a ->]. now exists (String x a).
Qed.

Lemma last_char_app (a b : string) :
  b <> "" -> last_char (a +++ b) = last_char b.
Proof.
  intros Hb. induction a as [|x a IH]; simpl; [reflexivity|].
  rewrite <- IH. destruct (a +++ b) eqn:E; [|reflexivity].
  destruct a; simpl in E; [contradiction | discriminate].
Qed.

Lemma endswith_last_char (s suffix : string) :
  suffix <> "" -> endswith s suffix = true -> last_char s = last_char suffix.
Proof.
  intros Hs H. apply endswith_inv in H. destruct H as [a ->].
  now apply last_char_app.
Qed.

(** A string that ends in ["Z"] does not end in ["+00:00"], and one that
    ends in ["+00:00"] does not end in ["Z"]. *)
Lemma endswith_Z_not_offset (a : string) : endswith (a +++ "Z") "+00:00" = false.
Proof.
  destruct (endswith (a +++ "Z") "+00:00") eqn:E; [|reflexivity].
  apply endswith_last_char in E; [|discriminate].
  rewrite last_char_app in E by discriminate. discriminate.
Qed.

Lemma endswith_offset_not_Z (a : string) : endswith (a +++ "+00:00") "Z" = false.
Proof.
  destruct (endswith (a +++ "+00:00") "Z") eqn:E; [|reflexivity].
  apply endswith_last_char in E; [|discriminate].
  rewrite last_char_app in E by discriminate. discriminate.
Qed.

Lemma N_of_digit_char (k : N) : N_of_ascii (digit_char k) = (48 + k mod 10)%N.
Proof.
  unfold digit_char. apply N_ascii_embedding.
  assert (k mod 10 < 10)%N by (apply N.mod_upper_bound; discriminate). lia.
Qed.

Lemma is_digit_digit_char (k : N) : is_digit (digit_char k) = true.
Proof.
  unfold is_digit. rewrite N_of_digit_char.
  assert (H : (k mod 10 < 10)%N) by (apply N.mod_upper_bound; discriminate).
  revert H. generalize (k mod 10)%N. intros r H. cbv zeta.
  apply andb_true_iff. split; apply N.leb_le; lia.
Qed.

Lemma int_digits_app (a b : string) (acc : N) :
  int_digits acc (a +++ b)
  = match int_digits acc a with Some x => int_digits x b | None => None end.
Proof.
  revert acc. induction a as [|c a IH]; intros acc; simpl; [reflexivity|].
  destruct (is_digit c); [apply IH | reflexivity].
Qed.

Lemma int_digits_digits (w : nat) (n acc : N) :
  int_digits acc (digits w n) = Some (acc * 10 ^ N.of_nat w + n mod 10 ^ N.of_nat w)%N.
Proof.
  revert n acc. induction w as [|w IH]; intros n acc.
  - simpl. f_equal. rewrite N.mod_1_r. lia.
  - cbn [digits]. rewrite int_digits_app, IH. cbn [int_digits].
    rewrite is_digit_digit_char, N_of_digit_char. f_equal.
    rewrite Nat2N.inj_succ, N.pow_succ_r'.
    set (p := (10 ^ N.of_nat w)%N).
    assert (Hp : (p <> 0)%N) by (apply N.pow_nonzero; discriminate).
    rewrite (N.Div0.mod_mul_r n 10 p).
    generalize (n mod 10)%N ((n / 10) mod p)%N. intros. lia.
Qed.

Lemma length_digits (w : nat) (n : N) : String.length (digits w n) = w.
Proof.
  revert n. induction w as [|w IH]; intros n; [reflexivity|].
  cbn [digits]. rewrite length_append, IH. simpl. lia.
Qed.

Lemma parse_int_digits (w : nat) (n : N) :
  0 < w -> (n < 10 ^ N.of_nat w)%N -> parse_int (digits w n) = Some n.
Proof.
  intros Hw Hn. unfold parse_int.
  destruct (digits w n) eqn:E.
  - pose proof (length_digits w n) as L. rewrite E in L. simpl in L. lia.
  - rewrite <- E, int_digits_digits. f_equal. rewrite N.mod_small by exact Hn. lia.
Qed.

Lemma zfill_digits (w : nat) (n : N) :
  (n < 10 ^ N.of_nat w)%N -> zfill w n = digits w n.
Proof.
  intros Hn. unfold zfill. apply N.ltb_lt in Hn. now rewrite Hn.
Qed.

Lemma digits2 (n : N) :
  digits 2 n = String (digit_char (n / 10)) (String (digit_char n) "").
Proof. reflexivity. Qed.

Lemma digit_not_special (c : ascii) :
  is_digit c = true ->
  Ascii.eqb c "-" = false /\ Ascii.eqb c "+" = false.
Proof.
  destruct c as [[] [] [] [] [] [] [] []]; cbv; intros H; try discriminate; now split.
Qed.

End StrFacts.

(** ** The [datetime] model: what [fromisoformat] reads of what [isoformat]
    writes *)

Module DatetimeFacts.
Import Str StrFacts datetime.


Lemma parse_hms_chars (a b c d e f : ascii) (x y z us : N) (tail : string) :
  parse_int (String a (String b "")) = Some x ->
  parse_int (String c (String d "")) = Some y ->
  parse_int (String e (String f "")) = Some z ->
  (tail = "" /\ us = 0%N)
  \/ (exists u, String.length u = 6 /\ tail = String "." u /\ parse_int u = Some us) ->
  parse_hh_mm_ss_ff
    (String a (String b (String ":" (String c (String d (String ":"
       (String e (String f tail))))))))
  = Some (x, y, z, us).
Proof.
  intros Hx Hy Hz [[-> ->] | (u & Lu & -> & Hu)].
  - unfold parse_hh_mm_ss_ff. cbn -[parse_int]. rewrite Hx. cbn -[parse_int].
    rewrite Hy. cbn -[parse_int]. rewrite Hz. reflexivity.
  - do 7 (destruct u as [|? u]; try discriminate Lu).
    unfold parse_hh_mm_ss_ff. cbn -[parse_int]. rewrite Hx. cbn -[parse_int].
    rewrite Hy. cbn -[parse_int]. rewrite Hz. cbn -[parse_int].
    cbn -[parse_int] in Hu |- *. rewrite Hu. reflexivity.
Qed.

Lemma find_app (c : ascii) (a b : string) :
  find c (a +++ b)
  = match find c a with
    | Some i => Some i
    | None => option_map (Nat.add (String.length a)) (find c b)
    end.
Proof.
  induction a as [|x a IH]; simpl.
  - destruct (find c b); reflexivity.
  - destruct (Ascii.eqb x c); [reflexivity|].
    rewrite IH. destruct (find c a); [reflexivity|].
    destruct (find c b); reflexivity.
Qed.

Lemma no_sign_digits (w : nat) (n : N) : no_sign (digits w n).
Proof.
  revert n. induction w as [|w IH]; intros n; [split; reflexivity|].
  destruct (IH (n / 10)%N) as [H1 H2].
  destruct (digit_not_special _ (is_digit_digit_char n)) as [D1 D2].
  split; cbn [digits]; rewrite find_app; [rewrite H1 | rewrite H2];
    cbn [find]; [rewrite D1 | rewrite D2]; reflexivity.
Qed.

Lemma no_sign_app (a b : string) : no_sign a -> no_sign b -> no_sign (a +++ b).
Proof.
  intros [A1 A2] [B1 B2]. split; rewrite find_app.
  - now rewrite A1, B1.
  - now rewrite A2, B2.
Qed.

Lemma no_sign_format_time (hh mm ss us : N) :
  (hh < 100)%N -> (mm < 100)%N -> (ss < 100)%N -> (us < 1000000)%N ->
  no_sign (format_time hh mm ss us).
Proof.
  intros Hh Hm Hs Hu. unfold format_time.
  rewrite !zfill_digits by assumption.
  destruct (us =? 0)%N;
    repeat first [ apply no_sign_digits | (split; reflexivity) | apply no_sign_app ].
Qed.

Lemma parse_format_time (hh mm ss us : N) :
  (hh < 100)%N -> (mm < 100)%N -> (ss < 100)%N -> (us < 1000000)%N ->
  parse_hh_mm_ss_ff (format_time hh mm ss us) = Some (hh, mm, ss, us).
Proof.
  intros Hh Hm Hs Hu. unfold format_time.
  rewrite !zfill_digits by assumption. rewrite !digits2.
  cbn [append].
  apply parse_hms_chars;
    try (rewrite <- digits2; apply parse_int_digits; [lia | assumption]).
  destruct (us =? 0)%N eqn:E.
  - left. apply N.eqb_eq in E. now split.
  - right. exists (digits 6 us).
    split; [apply length_digits | split; [reflexivity|]].
    apply parse_int_digits; [lia | assumption].
Qed.

Lemma length_format_time (hh mm ss us : N) :
  (hh < 100)%N -> (mm < 100)%N -> (ss < 100)%N ->
  8 <= String.length (format_time hh mm ss us).
Proof.
  intros Hh Hm Hs. unfold format_time.
  rewrite !zfill_digits by assumption.
  rewrite !length_append, !length_digits. simpl. lia.
Qed.

Lemma slice_from_app_plus (a b : string) (k : nat) :
  slice_from (String.length a + k) (a +++ b) = slice_from k b.
Proof.
  unfold slice_from. rewrite length_append.
  replace (String.length a + String.length b - (String.length a + k))
    with (String.length b - k) by lia.
  induction a as [|x a IH]; simpl; [reflexivity | exact IH].
Qed.

Lemma slice_app_plus (a b : string) (i j : nat) :
  slice (String.length a + i) (String.length a + j) (a +++ b) = slice i j b.
Proof.
  unfold slice.
  replace (String.length a + j - (String.length a + i)) with (j - i) by lia.
  induction a as [|x a IH]; simpl; [reflexivity | exact IH].
Qed.

Lemma slice_app_at (a b : string) (j : nat) :
  slice (String.length a) (String.length a + j) (a +++ b) = slice 0 j b.
Proof.
  rewrite <- (slice_app_plus a b 0 j). now rewrite Nat.add_0_r.
Qed.

Lemma parse_isoformat_time_naive (tstr : string) (c : N * N * N * N) :
  2 <= String.length tstr -> no_sign tstr ->
  parse_hh_mm_ss_ff tstr = Some c ->
  parse_isoformat_time tstr = Some (c, None).
Proof.
  intros L [S1 S2] P. unfold parse_isoformat_time.
  apply Nat.leb_le in L. rewrite L. cbn [guard bind].
  rewrite S1, S2, P. cbn [bind].
  destruct c as [[[hh mm] ss] us]. reflexivity.
Qed.

Lemma parse_isoformat_time_utc (tstr : string) (c : N * N * N * N) :
  2 <= String.length tstr -> no_sign tstr ->
  parse_hh_mm_ss_ff tstr = Some c ->
  parse_isoformat_time (tstr +++ "+00:00") = Some (c, Some utc).
Proof.
  intros L [S1 S2] P. unfold parse_isoformat_time.
  assert (L' : (2 <=? String.length (tstr +++ "+00:00")) = true).
  { apply Nat.leb_le. rewrite length_append. lia. }
  rewrite L'. cbn [guard bind].
  rewrite !find_app, S1, S2. cbn [find Ascii.eqb Bool.eqb option_map].
  rewrite Nat.add_0_r.
  rewrite slice_app_l by reflexivity. rewrite P. cbn [bind].
  destruct c as [[[hh mm] ss] us].
  replace (S (String.length tstr)) with (String.length tstr + 1) by lia.
  rewrite slice_from_app_plus.
  rewrite slice_app_at.
  reflexivity.
Qed.

Lemma digits4 (n : N) :
  digits 4 n
  = String (digit_char (n / 10 / 10 / 10))
      (String (digit_char (n / 10 / 10)) (String (digit_char (n / 10))
         (String (digit_char n) ""))).
Proof. reflexivity. Qed.

Lemma parse_isoformat_date_format (y m d : N) :
  (y < 10000)%N -> (m < 100)%N -> (d < 100)%N ->
  parse_isoformat_date (digits 4 y +++ "-" +++ digits 2 m +++ "-" +++ digits 2 d)
  = Some (y, m, d).
Proof.
  intros Hy Hm Hd.
  pose proof (parse_int_digits 4 y ltac:(lia) Hy) as Py.
  pose proof (parse_int_digits 2 m ltac:(lia) Hm) as Pm.
  pose proof (parse_int_digits 2 d ltac:(lia) Hd) as Pd.
  rewrite digits4 in *. rewrite !digits2 in *.
  unfold parse_isoformat_date. cbn -[parse_int].
  rewrite Py. cbn -[parse_int]. rewrite Pm. cbn -[parse_int]. rewrite Pd.
  reflexivity.
Qed.

Lemma valid_datetime_bounds (d : datetime) :
  valid_datetime d = true ->
  ((year d < 10000) /\ (month d < 100) /\ (day d < 100) /\ (hour d < 100)
   /\ (minute d < 100) /\ (second d < 100) /\ (microsecond d < 1000000))%N.
Proof.
  unfold valid_datetime, check_date_fields, check_time_fields.
  rewrite !andb_true_iff, !N.leb_le. intros H.
  assert (days_in_month (year d) (month d) <= 31)%N.
  { unfold days_in_month.
    destruct (month d =? 2)%N; [destruct (is_leap (year d)); lia|].
    destruct ((month d =? 4) || (month d =? 6) || (month d =? 9) || (month d =? 11))%N; lia. }
  lia.
Qed.

Lemma isoformat_parts (d : datetime) :
  valid_datetime d = true ->
  isoformat d = (date_part d +++ "T") +++ time_part d +++ format_offset (dt_tzinfo d).
Proof.
  intros V. apply valid_datetime_bounds in V.
  unfold isoformat, date_part, time_part.
  rewrite !zfill_digits by (cbn; lia).
  now rewrite !append_assoc.
Qed.

Lemma fromisoformat_parts (d : datetime) (tstr : string) (tz : option tzinfo) :
  valid_datetime d = true ->
  tstr <> "" ->
  parse_isoformat_time tstr
  = Some (hour d, minute d, second d, microsecond d, tz) ->
  fromisoformat ((date_part d +++ "T") +++ tstr)
  = Some (mkdatetime (year d) (month d) (day d)
            (hour d) (minute d) (second d) (microsecond d) tz).
Proof.
  intros V Ht P. pose proof (valid_datetime_bounds d V) as B.
  assert (L : String.length (date_part d) = 10).
  { unfold date_part. rewrite !length_append, !length_digits. reflexivity. }
  unfold fromisoformat.
  rewrite slice_from_app_r by (rewrite length_append, L; reflexivity).
  rewrite append_assoc. rewrite slice_app_l by (now rewrite L).
  unfold date_part. rewrite parse_isoformat_date_format by lia.
  cbn [bind].
  destruct (String.eqb_spec tstr "") as [E|_]; [contradiction|].
  rewrite P. cbn [bind].
  unfold valid_datetime in V. rewrite !andb_true_iff in V.
  destruct V as [[V1 V2] _]. now rewrite V1, V2.
Qed.

Lemma last_char_digits (w : nat) (n : N) :
  last_char (digits (S w) n) = Some (digit_char n).
Proof. cbn [digits]. now rewrite last_char_app. Qed.

Lemma digit_char_not_Z (n : N) : digit_char n <> "Z"%char.
Proof.
  intros E. pose proof (is_digit_digit_char n) as D. rewrite E in D. discriminate.
Qed.

Lemma time_part_not_Z (d : datetime) :
  valid_datetime d = true -> endswith ((date_part d +++ "T") +++ time_part d) "Z" = false.
Proof.
  intros V. apply valid_datetime_bounds in V.
  destruct (endswith _ "Z") eqn:E; [|reflexivity].
  apply endswith_last_char in E; [|discriminate].
  unfold time_part, format_time in E.
  rewrite !zfill_digits in E by (cbn; lia).
  destruct (microsecond d =? 0)%N.
  - rewrite append_empty_r in E.
    rewrite <- !append_assoc in E.
    rewrite last_char_app, last_char_digits in E by discriminate.
    injection E as E. now apply digit_char_not_Z in E.
  - rewrite <- !append_assoc in E.
    rewrite last_char_app, last_char_digits in E by discriminate.
    injection E as E. now apply digit_char_not_Z in E.
Qed.

Lemma time_part_parses (d : datetime) :
  valid_datetime d = true ->
  2 <= String.length (time_part d) /\ no_sign (time_part d)
  /\ parse_hh_mm_ss_ff (time_part d)
     = Some (hour d, minute d, second d, microsecond d).
Proof.
  intros V. apply valid_datetime_bounds in V. unfold time_part. repeat split.
  - pose proof (length_format_time (hour d) (minute d) (second d) (microsecond d)). lia.
  - apply no_sign_format_time; lia.
  - apply no_sign_format_time; lia.
  - apply parse_format_time; lia.
Qed.

Lemma nonempty_length (s : string) : 2 <= String.length s -> s <> "".
Proof. intros L ->. simpl in L. lia. Qed.

Lemma fromisoformat_naive (d : datetime) :
  valid_datetime d = true -> dt_tzinfo d = None ->
  fromisoformat (isoformat d) = Some d.
Proof.
  intros V Z. destruct (time_part_parses d V) as (L & S & P).
  rewrite isoformat_parts, Z by assumption. cbn [format_offset].
  rewrite append_empty_r.
  rewrite (fromisoformat_parts d (time_part d) None V).
  - destruct d; simpl in *; now subst.
  - now apply nonempty_length.
  - now apply parse_isoformat_time_naive.
Qed.

Lemma fromisoformat_utc_suffix (d : datetime) :
  valid_datetime d = true -> dt_tzinfo d = None ->
  fromisoformat (isoformat d +++ "+00:00") = Some (replace_tzinfo d (Some utc)).
Proof.
  intros V Z. destruct (time_part_parses d V) as (L & S & P).
  rewrite isoformat_parts, Z by assumption. cbn [format_offset].
  rewrite append_empty_r, append_assoc.
  rewrite (fromisoformat_parts d (time_part d +++ "+00:00") (Some utc) V).
  - reflexivity.
  - apply nonempty_length. rewrite length_append. lia.
  - now apply parse_isoformat_time_utc.
Qed.

Lemma isoformat_utc_suffix (d : datetime) :
  dt_tzinfo d = Some utc -> exists body, isoformat d = body +++ "+00:00".
Proof.
  intros Z. unfold isoformat. rewrite Z.
  change (format_offset (Some utc)) with "+00:00".
  rewrite <- !append_assoc. eexists. reflexivity.
Qed.

End DatetimeFacts.

Example fromisoformat_utc :
  datetime.fromisoformat "1989-10-23T01:45:50+00:00"
  = Some (datetime.mkdatetime 1989 10 23 1 45 50 0 (Some datetime.utc))%N.
Proof. vm_compute. reflexivity. Qed.

Example fromisoformat_cet :
  datetime.fromisoformat "1989-10-23T01:45:50.250+01:00"
  = Some (datetime.mkdatetime 1989 10 23 1 45 50 250000 (Some 3600000000%Z))%N.
Proof. vm_compute. reflexivity. Qed.

Example fromisoformat_zulu : datetime.fromisoformat "1989-10-23T01:45:50Z" = None.
Proof. vm_compute. reflexivity. Qed.

Example isoformat_utc :
  datetime.isoformat (datetime.mkdatetime 1989 10 23 1 45 50 0 (Some datetime.utc))%N
  = "1989-10-23T01:45:50+00:00".
Proof. vm_compute. reflexivity. Qed.

Example time_isoformat_cet :
  datetime.time_isoformat (datetime.mktime 6 15 30 0 (Some (-19800000000)%Z))%N
  = "06:15:30-05:30".
Proof. vm_compute. reflexivity. Qed.


(** ** Timestamps *)

Section Timestamps.
Import datetime StrFacts DatetimeFacts.

Lemma generate_utc (d : datetime) :
  dt_tzinfo d = Some utc ->
  exists body,
    DateTimeSerializer_generate (VDateTime d) = Ok (JStr (body +++ "Z"))
    /\ Str.endswith (body +++ "Z") "+00:00" = false.
Proof.
  intros Z. destruct (isoformat_utc_suffix d Z) as [body E].
  exists body. split; [|apply endswith_Z_not_offset].
  unfold DateTimeSerializer_generate. cbn [py_tzinfo py_isoformat rbind].
  rewrite Z, E, endswith_app.
  change 6 with (String.length "+00:00"). now rewrite drop_last_app.
Qed.

Lemma generate_naive (d : datetime) :
  dt_tzinfo d = None ->
  DateTimeSerializer_generate (VDateTime d)
  = raise JsonValueError
      [Text "timestamp lacks explicit time zone designator: "; Value (VDateTime d)].
Proof.
  intros Z. unfold DateTimeSerializer_generate. cbn [py_tzinfo rbind]. now rewrite Z.
Qed.

Lemma parse_Z_as_offset (s : string) :
  DateTimeDeserializer_parse (JStr (s +++ "Z"))
  = DateTimeDeserializer_parse (JStr (s +++ "+00:00")).
Proof.
  unfold DateTimeDeserializer_parse.
  rewrite endswith_app, endswith_offset_not_Z.
  change 1 with (String.length "Z"). now rewrite drop_last_app.
Qed.

Lemma parse_offset (d : datetime) :
  valid_datetime d = true -> dt_tzinfo d = None ->
  DateTimeDeserializer_parse (JStr (isoformat d +++ "+00:00"))
  = Ok (VDateTime (replace_tzinfo d (Some utc))).
Proof.
  intros V Z. unfold DateTimeDeserializer_parse.
  rewrite endswith_offset_not_Z, fromisoformat_utc_suffix by assumption.
  reflexivity.
Qed.

Lemma parse_naive (d : datetime) :
  valid_datetime d = true -> dt_tzinfo d = None ->
  DateTimeDeserializer_parse (JStr (isoformat d))
  = raise JsonValueError
      [Text "timestamp lacks explicit time zone designator: "; Text (isoformat d)].
Proof.
  intros V Z. unfold DateTimeDeserializer_parse.
  assert (E : Str.endswith (isoformat d) "Z" = false).
  { rewrite isoformat_parts, Z by assumption. cbn [format_offset].
    rewrite append_empty_r. now apply time_part_not_Z. }
  rewrite E, fromisoformat_naive by assumption. now rewrite Z.
Qed.


End Timestamps.


(** C9.  A time of day in UTC is written by [TimeSerializer] with the
    offset ["+00:00"], not with a trailing ["Z"]; [TimeDeserializer] reads
    the text with ["+00:00"] and, with the [time.fromisoformat] modelled
    here, rejects the one with ["Z"]. *)
Theorem C9_time_keeps_numeric_offset :
  (forall hh mm ss us,
     exists body,
       TimeSerializer_generate (VTime (datetime.mktime hh mm ss us (Some datetime.utc)))
       = Ok (JStr (body +++ "+00:00"))
       /\ Str.endswith (body +++ "+00:00") "Z" = false)
  /\ TimeSerializer_generate (VTime (datetime.mktime 6 15 30 0 (Some datetime.utc)))
     = Ok (JStr "06:15:30+00:00")
  /\ TimeDeserializer_parse (JStr "06:15:30+00:00")
     = Ok (VTime (datetime.mktime 6 15 30 0 (Some datetime.utc)))
  /\ TimeDeserializer_parse (JStr "06:15:30Z")
     = raise ValueError [Text "Invalid isoformat string: "; Text "06:15:30Z"].
Proof.
  split; [|repeat split; vm_compute; reflexivity].
  intros hh mm ss us.
  exists (datetime.format_time hh mm ss us).
  split; [reflexivity | apply StrFacts.endswith_offset_not_Z].
Qed.

(** ** The exception monad *)

Lemma rbind_Ok {A B} (r : Result A) (f : A -> Result B) (b : B) :
  rbind r f = Ok b -> exists a, r = Ok a /\ f a = Ok b.
Proof. destruct r as [a|e]; simpl; [eauto | discriminate]. Qed.

Ltac rbind_inv H :=
  let a := fresh "a" in
  let E := fresh "E" in
  apply rbind_Ok in H; destruct H as (a & E & H).

(** ** The parser of a field *)

Section RequiredParsers.
Variable python_type_to_str : PyType -> string.
Variable python_field_to_json_property : string -> option PyType -> string.

Lemma create_deserializer_Union (members : list PyType) :
  create_deserializer python_type_to_str python_field_to_json_property (tUnion members)
  = (let* member_parsers :=
       mapM (create_deserializer python_type_to_str python_field_to_json_property) members in
     Ok (UnionDeserializer members member_parsers)).
Proof. reflexivity. Qed.

Lemma create_deserializer_Annotated (inner : PyType) (metadata : list Annotation) :
  create_deserializer python_type_to_str python_field_to_json_property
    (tAnnotated inner metadata)
  = create_deserializer python_type_to_str python_field_to_json_property inner.
Proof. reflexivity. Qed.

Local Abbreviation create_deserializer :=
  (create_deserializer python_type_to_str python_field_to_json_property).

Lemma union_parsers_filter (members : list PyType) :
  union_parsers create_deserializer members
  = (let* ps := mapM create_deserializer
                  (filter (fun item => negb (type_is item tNone)) members) in
     Ok (combine (filter (fun item => negb (type_is item tNone)) members) ps)).
Proof.
  induction members as [|m members IH]; [reflexivity|].
  cbn [union_parsers filter].
  destruct (negb (type_is m tNone)); [|exact IH].
  rewrite IH. cbn [mapM].
  destruct (create_deserializer m) as [p|e]; [|reflexivity].
  cbn [rbind].
  fold (mapM create_deserializer (filter (fun item => negb (type_is item tNone)) members)).
  destruct (mapM create_deserializer _) as [ps|e]; reflexivity.
Qed.

Lemma mapM_length {A B} (f : A -> Result B) (l : list A) (r : list B) :
  mapM f l = Ok r -> length r = length l.
Proof.
  revert r. induction l as [|x l IH]; intros r E; cbn [mapM] in E.
  - now injection E as <-.
  - destruct (f x); [|discriminate]. cbn [rbind] in E.
    fold (mapM f l) in E.
    destruct (mapM f l) as [ys|]; [|discriminate].
    injection E as <-. cbn. now rewrite (IH ys).
Qed.

Lemma map_combine {A B} (l : list A) (r : list B) :
  length r = length l ->
  map fst (combine l r) = l /\ map snd (combine l r) = r.
Proof.
  revert r. induction l as [|x l IH]; intros [|y r] L; try discriminate L; cbn.
  - now split.
  - injection L as L. destruct (IH r L) as [-> ->]. now split.
Qed.

Lemma union_required_make_union (members : list PyType) :
  union_required create_deserializer members
  = create_deserializer (make_union (filter (fun item => negb (type_is item tNone)) members)).
Proof.
  unfold union_required. rewrite union_parsers_filter.
  set (ms := filter _ members).
  destruct ms as [|m [|m' ms]].
  - reflexivity.
  - cbn [make_union mapM]. destruct (create_deserializer m); reflexivity.
  - cbn [make_union]. rewrite create_deserializer_Union.
    destruct (mapM create_deserializer (m :: m' :: ms)) as [ps|e] eqn:E; [|reflexivity].
    cbn [rbind].
    pose proof (mapM_length _ _ _ E) as L.
    destruct ps as [|p [|p' ps]]; try discriminate L.
    destruct (map_combine (m :: m' :: ms) (p :: p' :: ps) L) as [-> ->].
    reflexivity.
Qed.

(** The parser of a field is the deserializer of
    [unwrap_optional_type(field_type)] when the type of the field is
    optional, and of [field_type] otherwise, as [_create_deserializer] has
    it; [required_parser] spells out the recursive call on the members of
    the union. *)
Lemma required_parser_unwrap_optional_type (field_type : PyType) :
  required_parser create_deserializer field_type
  = (if is_type_optional field_type then
       let* required_type := unwrap_optional_type field_type in
       create_deserializer required_type
     else create_deserializer field_type).
Proof.
  unfold required_parser.
  destruct (is_type_optional field_type); [|reflexivity].
  destruct field_type
    as [ | | | | | | | | | | | | | | item | key value | member | items | members | values
       | inner metadata | name kind fields to_json from_json | | | | ];
    try reflexivity.
  - apply union_required_make_union.
  - destruct inner; try reflexivity.
    cbn [unwrap_optional_type rewrap_annotated_type _unwrap_optional_type rbind].
    rewrite create_deserializer_Annotated. apply union_required_make_union.
Qed.

End RequiredParsers.

(** ** Construction of the codecs *)

Section Construction.
Variable python_type_to_str : PyType -> string.
Variable python_field_to_json_property : string -> option PyType -> string.

Local Abbreviation create_serializer :=
  (create_serializer python_type_to_str python_field_to_json_property).
Local Abbreviation create_deserializer :=
  (create_deserializer python_type_to_str python_field_to_json_property).


(** C7.  No deserializer can be built for a literal type: the type is no
    class, and [_create_deserializer] has no branch for it.  The serializer
    for the same type is built. *)
Theorem C7_literal_deserializer_rejected :
  (forall values,
     create_deserializer (tLiteral values)
     = raise TypeError
         [Text "unable to de-serialize unrecognized type: ";
          TypeName (python_type_to_str (tLiteral values))])
  /\ create_serializer (tLiteral [LitStr "val1"; LitStr "val2"; LitStr "val3"])
     = Ok (LiteralSerializer StringSerializer)
  /\ create_serializer (tLiteral [LitInt 1; LitInt 2; LitInt 3])
     = Ok (LiteralSerializer IntSerializer).
Proof. repeat split. Qed.

(** C8.  For a dictionary whose keys are members of an enumeration with
    member values of one type that is not [str], the deserializer is built
    ([_check_key_type] raises nothing), while the construction of the
    serializer raises [JsonTypeError]. *)
Theorem C8_enum_key_type_not_rejected :
  forall name members fields to_json from_json value_type t,
    enum_value_types (tClass name (KEnum members) fields to_json from_json) = [t] ->
    type_is t tStr = false ->
    (forall value_parser,
       create_deserializer value_type = Ok value_parser ->
       create_deserializer
         (tDict (tClass name (KEnum members) fields to_json from_json) value_type)
       = Ok (DictDeserializer (tClass name (KEnum members) fields to_json from_json)
               value_type value_parser))
    /\ (forall generator,
          create_serializer value_type = Ok generator ->
          create_serializer
            (tDict (tClass name (KEnum members) fields to_json from_json) value_type)
          = raise JsonTypeError
              [Text "invalid enumeration key type, expected `enum.Enum` with string values"]).
Proof.
  intros name members fields to_json from_json value_type t Hv Ht. split.
  - intros value_parser Hp. cbn -[enum_value_types].
    unfold _check_key_type. cbn [type_is issubclass_Enum isclass rbind].
    rewrite Hv. cbn [List.length Nat.eqb negb pop last]. rewrite Ht.
    cbn [negb rbind]. now rewrite Hp.
  - intros generator Hg. cbn -[enum_value_types TypedEnumDictSerializer_init].
    rewrite Hg. cbn [rbind].
    unfold TypedEnumDictSerializer_init.
    rewrite Hv. cbn [List.length Nat.eqb negb pop last]. now rewrite Ht.
Qed.

End Construction.

Lemma C8_enum_key_type_not_rejected_witness :
  Py.create_deserializer (tDict Sample.Suit tInt)
  = Ok (DictDeserializer Sample.Suit tInt IntDeserializer)
  /\ Py.create_serializer (tDict Sample.Suit tInt)
     = raise JsonTypeError
         [Text "invalid enumeration key type, expected `enum.Enum` with string values"].
Proof.
  destruct (C8_enum_key_type_not_rejected
              Lib.python_type_to_str Lib.python_field_to_json_property
              "Suit"
              [("Diamonds", JInt 1); ("Hearts", JInt 2); ("Clubs", JInt 3); ("Spades", JInt 4)]
              [] None None tInt tInt eq_refl eq_refl) as [D S].
  split; [exact (D IntDeserializer eq_refl) | exact (S IntSerializer eq_refl)].
Defined.



(** ** Unions *)

Section Unions.
Variable python_type_to_str : PyType -> string.
Variable float_of_int : Z -> option PyFloat.
Variable b64decode : string -> option (list Byte.byte).
Variable uuid_parse : string -> option N.

Lemma parse_UnionDeserializer (member_types : list PyType)
    (member_parsers : list Deserializer) (data : JsonType) :
  parse python_type_to_str float_of_int b64decode uuid_parse
    (UnionDeserializer member_types member_parsers) data
  = match parse_members (parse python_type_to_str float_of_int b64decode uuid_parse)
            member_parsers data with
    | Some result => result
    | None =>
        raise JsonKeyError
          [Text "type `Union["; TypeNames (map python_type_to_str member_types);
           Text "]` could not be instantiated from: "; Data data]
    end.
Proof. reflexivity. Qed.

Local Abbreviation parse := (parse python_type_to_str float_of_int b64decode uuid_parse).

Lemma parse_members_skip (before rest : list Deserializer) (data : JsonType) :
  Forall (shape_mismatch python_type_to_str float_of_int b64decode uuid_parse data) before ->
  parse_members parse (before ++ rest) data = parse_members parse rest data.
Proof.
  induction 1 as [|q before (e & E & S) _ IH]; [reflexivity|].
  cbn [app parse_members]. now rewrite E, S.
Qed.

Lemma is_shape_error_iff (e : Exception) :
  is_shape_error e = true <-> exc_type e = JsonKeyError \/ exc_type e = JsonTypeError.
Proof.
  unfold is_shape_error. destruct (exc_type e); split; intros H;
    try discriminate; try tauto; destruct H; discriminate.
Qed.


End Unions.


(** ** Fields with a default *)

Section Defaults.
Variable parse : Deserializer -> JsonType -> Result PyVal.


End Defaults.


(** ** Records: strict parsing *)

Lemma str_in_In (name : string) (names : list string) :
  str_in name names = true <-> In name names.
Proof.
  unfold str_in. rewrite existsb_exists. split.
  - intros (x & I & E). apply String.eqb_eq in E. now subst.
  - intros I. exists name. split; [assumption | apply String.eqb_refl].
Qed.

Section Strictness.
Variable python_type_to_str : PyType -> string.
Variable float_of_int : Z -> option PyFloat.
Variable b64decode : string -> option (list Byte.byte).
Variable uuid_parse : string -> option N.

Lemma parse_DataclassDeserializer (class_type : PyType)
    (property_parsers : list FieldDeserializer) (data : JsonType) :
  parse python_type_to_str float_of_int b64decode uuid_parse
    (DataclassDeserializer class_type property_parsers) data
  = ClassDeserializer_parse python_type_to_str
      (parse_fields (parse python_type_to_str float_of_int b64decode uuid_parse)
         property_parsers)
      (create python_type_to_str class_type) class_type data.
Proof. reflexivity. Qed.

Lemma parse_TypedClassDeserializer (class_type : PyType)
    (property_parsers : list FieldDeserializer) (data : JsonType) :
  parse python_type_to_str float_of_int b64decode uuid_parse
    (TypedClassDeserializer class_type property_parsers) data
  = ClassDeserializer_parse python_type_to_str
      (parse_fields (parse python_type_to_str float_of_int b64decode uuid_parse)
         property_parsers)
      (create python_type_to_str class_type) class_type data.
Proof. reflexivity. Qed.

Lemma parse_NamedTupleDeserializer (class_type : PyType)
    (property_parsers : list FieldDeserializer) (data : JsonType) :
  parse python_type_to_str float_of_int b64decode uuid_parse
    (NamedTupleDeserializer class_type property_parsers) data
  = ClassDeserializer_parse python_type_to_str
      (parse_fields (parse python_type_to_str float_of_int b64decode uuid_parse)
         property_parsers)
      (create_named_tuple class_type) class_type data.
Proof. reflexivity. Qed.

Local Abbreviation parse := (parse python_type_to_str float_of_int b64decode uuid_parse).

Lemma parse_fields_properties (p : Deserializer -> JsonType -> Result PyVal)
    (property_parsers : list FieldDeserializer) (object_data : list (string * JsonType))
    (field_values field_values' : list (string * PyVal))
    (parsed_properties parsed_properties' : list string) :
  parse_fields p property_parsers object_data field_values parsed_properties
  = Ok (field_values', parsed_properties') ->
  parsed_properties' = parsed_properties ++ map fd_property_name property_parsers.
Proof.
  revert field_values parsed_properties.
  induction property_parsers as [|f rest IH]; intros fv pp H; cbn [parse_fields] in H.
  - injection H as _ <-. now rewrite app_nil_r.
  - rbind_inv H. apply IH in H. subst. now rewrite <- app_assoc.
Qed.

Lemma ClassDeserializer_parse_unrecognized
    (create : list (string * PyVal) -> Result PyVal) (class_type : PyType)
    (property_parsers : list FieldDeserializer) (object_data : list (string * JsonType))
    (field_values : list (string * PyVal)) (parsed_properties : list string) :
  parse_fields parse property_parsers object_data [] [] = Ok (field_values, parsed_properties) ->
  unrecognized_names property_parsers object_data <> [] ->
  ClassDeserializer_parse python_type_to_str (parse_fields parse property_parsers)
    create class_type (JDict object_data)
  = raise JsonKeyError
      [Text "unrecognized fields in JSON object: ";
       Names (unrecognized_names property_parsers object_data)].
Proof.
  intros P U. unfold ClassDeserializer_parse. rewrite P. cbn [rbind].
  apply parse_fields_properties in P. cbn [app] in P. subst parsed_properties.
  fold (unrecognized_names property_parsers object_data).
  destruct (unrecognized_names property_parsers object_data); [contradiction | reflexivity].
Qed.

(** C3 (as amended).  When every field of the record parses and the object
    has names that are no property of a field, the deserializer of a data
    class, of an annotated class and of a named tuple raises [JsonKeyError],
    and the message lists all those names, in the order of the object. *)
Theorem C3_unrecognized_fields :
  forall class_type property_parsers object_data field_values parsed_properties,
    parse_fields parse property_parsers object_data [] []
    = Ok (field_values, parsed_properties) ->
    unrecognized_names property_parsers object_data <> [] ->
    (parse (DataclassDeserializer class_type property_parsers) (JDict object_data)
     = raise JsonKeyError
         [Text "unrecognized fields in JSON object: ";
          Names (unrecognized_names property_parsers object_data)])
    /\ (parse (TypedClassDeserializer class_type property_parsers) (JDict object_data)
        = raise JsonKeyError
            [Text "unrecognized fields in JSON object: ";
             Names (unrecognized_names property_parsers object_data)])
    /\ (parse (NamedTupleDeserializer class_type property_parsers) (JDict object_data)
        = raise JsonKeyError
            [Text "unrecognized fields in JSON object: ";
             Names (unrecognized_names property_parsers object_data)])
    /\ (forall name,
          In name (unrecognized_names property_parsers object_data)
          <-> In name (Dict.keys object_data)
              /\ ~ In name (map fd_property_name property_parsers)).
Proof.
  intros class_type property_parsers object_data field_values parsed_properties P U.
  rewrite parse_DataclassDeserializer, parse_TypedClassDeserializer,
    parse_NamedTupleDeserializer.
  repeat split; try (eapply ClassDeserializer_parse_unrecognized; eassumption).
  - unfold unrecognized_names in H. apply filter_In in H. tauto.
  - unfold unrecognized_names in H. apply filter_In in H. destruct H as [_ H].
    intros I. apply str_in_In in I. rewrite I in H. discriminate.
  - intros [I N]. unfold unrecognized_names. apply filter_In. split; [assumption|].
    destruct (str_in name (map fd_property_name property_parsers)) eqn:E; [|reflexivity].
    apply str_in_In in E. contradiction.
Qed.

End Strictness.

Lemma C3_unrecognized_fields_witness :
  Py.deserialize Sample.OptionalValueWrapper
    (JDict [("value", JInt 23); ("extra", JInt 42); ("more", JNull)])
  = raise JsonKeyError
      [Text "unrecognized fields in JSON object: "; Names ["extra"; "more"]].
Proof.
  exact (proj1 (C3_unrecognized_fields Lib.python_type_to_str Lib.float_of_int
                  Lib.b64decode Lib.uuid_parse Sample.OptionalValueWrapper
                  [OptionalFieldDeserializer "value" "value" IntDeserializer]
                  [("value", JInt 23); ("extra", JInt 42); ("more", JNull)]
                  [("value", VInt 23)] ["value"] eq_refl
                  ltac:(discriminate))).
Defined.

(** C3, as it is stated, fails: the fields are parsed before the names of
    the object are checked, so an object with an unrecognized name whose
    field [value] has the wrong length raises [JsonValueError], which is no
    error of shape and lists no name. *)
Lemma C3_counterexample :
  Py.deserialize Sample.PairWrapper
    (JDict [("value", JList [JInt 1]); ("extra", JInt 42)])
  = raise JsonValueError
      [Text "type `Tuple["; TypeNames ["int"; "int"];
       Text "]` expects a JSON `array` of length "; Number 2;
       Text " but received length "; Number 1]
  /\ is_shape_error
       (mkexc JsonValueError
          [Text "type `Tuple["; TypeNames ["int"; "int"];
           Text "]` expects a JSON `array` of length "; Number 2;
           Text " but received length "; Number 1]) = false.
Proof. split; reflexivity. Qed.

(** ** Dictionaries *)

Module DictFacts.
Section DictFacts.
Context {V : Type}.
Implicit Types (d : list (string * V)) (k : string) (v : V).

Lemma get_set_same d k v : Dict.get (Dict.set d k v) k = Some v.
Proof.
  induction d as [|[k' v'] d IH]; cbn [Dict.set Dict.get].
  - now rewrite String.eqb_refl.
  - destruct (String.eqb_spec k' k) as [->|N]; cbn [Dict.get].
    + now rewrite String.eqb_refl.
    + destruct (String.eqb_spec k' k); [contradiction | exact IH].
Qed.

Lemma get_set_other d k k' v : k' <> k -> Dict.get (Dict.set d k v) k' = Dict.get d k'.
Proof.
  intros N. induction d as [|[k0 v0] d IH]; cbn [Dict.set Dict.get].
  - destruct (String.eqb_spec k k'); [congruence | reflexivity].
  - destruct (String.eqb_spec k0 k) as [->|N0]; cbn [Dict.get].
    + destruct (String.eqb_spec k k'); [congruence | reflexivity].
    + destruct (String.eqb_spec k0 k'); [reflexivity | exact IH].
Qed.

Lemma get_None d k : Dict.get d k = None <-> ~ In k (Dict.keys d).
Proof.
  induction d as [|[k' v'] d IH]; cbn [Dict.get Dict.keys map fst In]; [tauto|].
  destruct (String.eqb_spec k' k) as [->|N].
  - split; [discriminate | intros H; exfalso; apply H; now left].
  - rewrite IH. unfold Dict.keys. tauto.
Qed.

Lemma set_fresh d k v : Dict.get d k = None -> Dict.set d k v = d ++ [(k, v)].
Proof.
  induction d as [|[k' v'] d IH]; cbn [Dict.set Dict.get app]; [reflexivity|].
  destruct (String.eqb_spec k' k); [discriminate|].
  intros H. now rewrite IH.
Qed.

Lemma keys_app d d' : Dict.keys (d ++ d') = Dict.keys d ++ Dict.keys d'.
Proof. apply map_app. Qed.

Lemma get_app_fresh d k v k' :
  Dict.get (d ++ [(k, v)]) k'
  = match Dict.get d k' with
    | Some x => Some x
    | None => if String.eqb k k' then Some v else None
    end.
Proof.
  induction d as [|[k0 v0] d IH]; cbn [Dict.get app]; [reflexivity|].
  destruct (String.eqb k0 k'); [reflexivity | exact IH].
Qed.

End DictFacts.
End DictFacts.

Lemma NoDup_map_inj {A B} (h : A -> B) (l : list A) (a b : A) :
  NoDup (map h l) -> In a l -> In b l -> h a = h b -> a = b.
Proof.
  induction l as [|x l IH]; cbn [map In]; [tauto|].
  intros N Ia Ib E. inversion N as [|? ? Nx Nl]; subst.
  destruct Ia as [->|Ia], Ib as [->|Ib]; try reflexivity.
  - exfalso. apply Nx. rewrite E. now apply in_map.
  - exfalso. apply Nx. rewrite <- E. now apply in_map.
  - now apply IH.
Qed.

(** ** Records: fields that hold [None] are left out *)

Section Omission.
Variable generate : Serializer -> PyVal -> Result JsonType.

Lemma generate_field_Ok (g : FieldSerializer) (obj : PyVal)
    (object_dict d : list (string * JsonType)) :
  generate_field generate g obj object_dict = Ok d ->
  exists value,
    getattr obj (fs_field_name g) = Ok value
    /\ ((value = VNone /\ d = object_dict)
        \/ (value <> VNone
            /\ exists j, generate (fs_generator g) value = Ok j
                         /\ d = Dict.set object_dict (fs_property_name g) j)).
Proof.
  unfold generate_field. intros H. rbind_inv H. exists a. split; [assumption|].
  destruct a; try (right; split; [discriminate|]; rbind_inv H; injection H as <-; eauto).
  left. injection H as <-. now split.
Qed.

(** A name that no generator writes is not in the result: a generator
    writes its property only if its field does not hold [None]. *)
Lemma generate_fields_absent (property_generators : list FieldSerializer) (obj : PyVal)
    (object_dict d : list (string * JsonType)) (name : string) :
  generate_fields generate property_generators obj object_dict = Ok d ->
  Dict.get object_dict name = None ->
  (forall g, In g property_generators -> fs_property_name g = name ->
             getattr obj (fs_field_name g) = Ok VNone) ->
  Dict.get d name = None.
Proof.
  revert object_dict. induction property_generators as [|g rest IH];
    intros object_dict H A N; cbn [generate_fields] in H.
  - now injection H as <-.
  - rbind_inv H. apply (IH a); [assumption| |intros; apply N; [now right | assumption]].
    apply generate_field_Ok in E.
    destruct E as (value & G & [[-> ->] | (NN & j & _ & ->)]); [assumption|].
    rewrite DictFacts.get_set_other; [assumption|].
    intros EQ. rewrite (N g (or_introl eq_refl) (eq_sym EQ)) in G.
    injection G as <-. contradiction.
Qed.

Lemma generate_fields_omits (property_generators : list FieldSerializer) (obj : PyVal)
    (d : list (string * JsonType)) (f : FieldSerializer) :
  NoDup (map fs_property_name property_generators) ->
  In f property_generators ->
  getattr obj (fs_field_name f) = Ok VNone ->
  generate_fields generate property_generators obj [] = Ok d ->
  Dict.get d (fs_property_name f) = None.
Proof.
  intros N I G H. apply (generate_fields_absent _ _ _ _ _ H); [reflexivity|].
  intros g Ig E.
  now rewrite (NoDup_map_inj fs_property_name property_generators g f N Ig I E).
Qed.

End Omission.

(** ** Records: the loops over the fields *)

Section RoundTrip.
Variable generate : Serializer -> PyVal -> Result JsonType.
Variable parse : Deserializer -> JsonType -> Result PyVal.

Lemma rows_ok (gens : list FieldSerializer) (parsers : list FieldDeserializer)
    (attrs : list (string * PyVal)) :
  map fs_field_name gens = map fst attrs ->
  map fd_field_name parsers = map fst attrs ->
  map fs_property_name gens = map fd_property_name parsers ->
  Forall3 (field_round_trips generate parse) gens parsers (map snd attrs) ->
  Forall3 (row_ok generate parse) gens parsers attrs.
Proof.
  revert gens parsers. induction attrs as [|a attrs IH];
    intros [|g gens] [|p parsers] N1 N2 P R; try discriminate; cbn [map] in *.
  - constructor.
  - injection N1 as N1 N1'. injection N2 as N2 N2'. injection P as P P'.
    inversion R; subst.
    constructor; [red; auto | now apply IH].
Qed.

(** What [field_round_trips] asks of each kind of field.  A value other
    than [None] comes back when the codecs of the type of the field give it
    back through a JSON value other than [null]; [None] comes back for a
    field that is optional, or whose default is [None]. *)
Lemma field_round_trips_value (g : FieldSerializer) (p : FieldDeserializer)
    (x : PyVal) (j : JsonType) :
  x <> VNone ->
  generate (fs_generator g) x = Ok j ->
  j <> JNull ->
  parse (fd_parser p) j = Ok x ->
  field_round_trips generate parse g p x.
Proof.
  intros NZ G J P. split; [contradiction|].
  intros _. exists j. split; [exact G|].
  intros data D.
  destruct p as [pn fn parser|pn fn parser|pn fn parser dv|pn fn parser df];
    cbn [parse_field fd_property_name fd_parser] in *; rewrite D; try exact P;
    destruct j; try exact P; now contradiction J.
Qed.

Lemma field_round_trips_None_optional (g : FieldSerializer)
    (property_name field_name : string) (parser : Deserializer) :
  field_round_trips generate parse g
    (OptionalFieldDeserializer property_name field_name parser) VNone.
Proof.
  split; [|intros N; now contradiction N].
  intros _ data D. cbn [parse_field fd_property_name] in *. now rewrite D.
Qed.

Lemma field_round_trips_None_default (g : FieldSerializer)
    (property_name field_name : string) (parser : Deserializer) :
  field_round_trips generate parse g
    (DefaultFieldDeserializer property_name field_name parser VNone) VNone.
Proof.
  split; [|intros N; now contradiction N].
  intros _ data D. cbn [parse_field fd_property_name] in *. now rewrite D.
Qed.

(** A field whose default is not [None] does not give back [None]. *)
Lemma field_round_trips_None_other_default (g : FieldSerializer)
    (property_name field_name : string) (parser : Deserializer) (default_value : PyVal) :
  default_value <> VNone ->
  ~ field_round_trips generate parse g
      (DefaultFieldDeserializer property_name field_name parser default_value) VNone.
Proof.
  intros N [H _]. specialize (H eq_refl [] eq_refl). cbn in H. congruence.
Qed.

Lemma PyVal_None_dec (x : PyVal) : x = VNone \/ x <> VNone.
Proof. destruct x; (left; reflexivity) || (right; discriminate). Qed.

Lemma generate_field_None (g : FieldSerializer) (obj : PyVal)
    (acc : list (string * JsonType)) :
  getattr obj (fs_field_name g) = Ok VNone ->
  generate_field generate g obj acc = Ok acc.
Proof. intros G. unfold generate_field. now rewrite G. Qed.

Lemma generate_field_value (g : FieldSerializer) (obj x : PyVal) (j : JsonType)
    (acc : list (string * JsonType)) :
  getattr obj (fs_field_name g) = Ok x -> x <> VNone ->
  generate (fs_generator g) x = Ok j ->
  generate_field generate g obj acc = Ok (Dict.set acc (fs_property_name g) j).
Proof.
  intros G N J. unfold generate_field. rewrite G. cbn [rbind].
  destruct x; try contradiction; now rewrite J.
Qed.

Lemma generate_fields_round_trip (obj : PyVal) (gens : list FieldSerializer)
    (parsers : list FieldDeserializer) (attrs : list (string * PyVal))
    (acc : list (string * JsonType)) :
  Forall3 (row_ok generate parse) gens parsers attrs ->
  (forall a, In a attrs -> getattr obj (fst a) = Ok (snd a)) ->
  NoDup (map fs_property_name gens) ->
  (forall g, In g gens -> Dict.get acc (fs_property_name g) = None) ->
  exists d,
    generate_fields generate gens obj acc = Ok d
    /\ (forall name, ~ In name (map fs_property_name gens) ->
                     Dict.get d name = Dict.get acc name)
    /\ Forall2 (fun p a => parse_field parse p d = Ok (snd a) /\ fd_field_name p = fst a)
         parsers attrs.
Proof.
  intros R. revert acc.
  induction R as [|g p a gens parsers attrs (N1 & N2 & P & RT1 & RT2) R IH];
    intros acc G ND A.
  - exists acc. repeat split; constructor.
  - cbn [map] in ND. inversion ND as [|? ? Ng NDrest]; subst.
    assert (Ga : getattr obj (fs_field_name g) = Ok (snd a))
      by (rewrite N1; apply G; now left).
    assert (Grest : forall a', In a' attrs -> getattr obj (fst a') = Ok (snd a'))
      by (intros; apply G; now right).
    destruct (PyVal_None_dec (snd a)) as [Z | NZ].
    + rewrite Z in Ga.
      destruct (IH acc Grest NDrest) as (d & E & F & Q).
      { intros; apply A; now right. }
      exists d. split; [|split].
      * cbn [generate_fields]. now rewrite (generate_field_None g obj acc Ga).
      * intros name Nn. apply F. intros I. apply Nn. now right.
      * constructor; [|exact Q]. split; [|exact N2]. rewrite Z. apply (RT1 Z).
        rewrite <- P, (F _ Ng). apply A. now left.
    + destruct (RT2 NZ) as (j & J & K).
      destruct (IH (Dict.set acc (fs_property_name g) j) Grest NDrest) as (d & E & F & Q).
      { intros g' I. rewrite DictFacts.get_set_other; [apply A; now right|].
        intros EQ. apply Ng. rewrite <- EQ. now apply in_map. }
      exists d. split; [|split].
      * cbn [generate_fields].
        now rewrite (generate_field_value g obj (snd a) j acc Ga NZ J).
      * intros name Nn. rewrite F by (intros I; apply Nn; now right).
        apply DictFacts.get_set_other. intros EQ. apply Nn. left. now symmetry.
      * constructor; [|exact Q]. split; [|exact N2]. apply K.
        rewrite <- P, (F _ Ng). apply DictFacts.get_set_same.
Qed.

Lemma parse_fields_round_trip (d : list (string * JsonType))
    (parsers : list FieldDeserializer) (attrs field_values : list (string * PyVal))
    (parsed_properties : list string) :
  Forall2 (fun p a => parse_field parse p d = Ok (snd a) /\ fd_field_name p = fst a)
    parsers attrs ->
  NoDup (map fst attrs) ->
  (forall a, In a attrs -> Dict.get field_values (fst a) = None) ->
  parse_fields parse parsers d field_values parsed_properties
  = Ok (field_values ++ attrs, parsed_properties ++ map fd_property_name parsers).
Proof.
  intros Q. revert field_values parsed_properties.
  induction Q as [|p a parsers attrs [Pa Na] Q IH]; intros fv pp ND F.
  - cbn [parse_fields map]. now rewrite !app_nil_r.
  - cbn [map] in ND. inversion ND as [|? ? Nn NDrest]; subst.
    cbn [parse_fields]. rewrite Pa. cbn [rbind]. rewrite Na.
    rewrite DictFacts.set_fresh by (apply F; now left).
    rewrite IH; [|assumption|].
    + destruct a as [name x]. cbn [fst snd map]. now rewrite <- !app_assoc.
    + intros a' I. rewrite DictFacts.get_app_fresh, F by now right.
      destruct (String.eqb_spec (fst a) (fst a')) as [EQ|]; [|reflexivity].
      exfalso. apply Nn. rewrite EQ. now apply in_map.
Qed.

Lemma filter_nil {A} (f : A -> bool) (l : list A) :
  (forall x, In x l -> f x = false) -> filter f l = [].
Proof.
  induction l as [|x l IH]; intros H; cbn [filter]; [reflexivity|].
  rewrite (H x (or_introl eq_refl)). apply IH. intros; apply H; now right.
Qed.

Lemma get_of_NoDup (attrs : list (string * PyVal)) (a : string * PyVal) :
  NoDup (map fst attrs) -> In a attrs -> Dict.get attrs (fst a) = Some (snd a).
Proof.
  induction attrs as [|[k v] attrs IH]; cbn [map In Dict.get fst]; [tauto|].
  intros ND I. inversion ND as [|? ? Nk NDrest]; subst.
  destruct I as [<-|I]; cbn [fst snd].
  - now rewrite String.eqb_refl.
  - destruct (String.eqb_spec k (fst a)) as [->|]; [|now apply IH].
    exfalso. apply Nk. now apply in_map.
Qed.

(** The round trip through the loops of [TypedClassSerializer.generate] and
    [ClassDeserializer.parse]: the deserializer hands the attributes of the
    object to the [create] of its class. *)
Lemma class_round_trip (python_type_to_str : PyType -> string)
    (create : list (string * PyVal) -> Result PyVal)
    (class_type : PyType) (cls : string)
    (gens : list FieldSerializer) (parsers : list FieldDeserializer)
    (attrs : list (string * PyVal)) :
  map fs_field_name gens = map fst attrs ->
  map fd_field_name parsers = map fst attrs ->
  map fs_property_name gens = map fd_property_name parsers ->
  NoDup (map fst attrs) ->
  NoDup (map fs_property_name gens) ->
  Forall3 (field_round_trips generate parse) gens parsers (map snd attrs) ->
  exists d,
    generate_fields generate gens (VObject cls attrs) [] = Ok d
    /\ ClassDeserializer_parse python_type_to_str (parse_fields parse parsers)
         create class_type (JDict d)
       = create attrs.
Proof.
  intros N1 N2 P ND1 ND2 RT.
  pose proof (rows_ok gens parsers attrs N1 N2 P RT) as R.
  destruct (generate_fields_round_trip (VObject cls attrs) gens parsers attrs [] R)
    as (d & E & F & Q); try assumption.
  { intros a I. cbn [getattr]. now rewrite (get_of_NoDup attrs a ND1 I). }
  { reflexivity. }
  exists d. split; [exact E|].
  unfold ClassDeserializer_parse.
  rewrite (parse_fields_round_trip d parsers attrs [] [] Q ND1) by reflexivity.
  cbn [rbind app].
  rewrite filter_nil; [reflexivity|].
  intros name I. apply negb_false_iff, str_in_In.
  rewrite <- P.
  destruct (in_dec string_dec name (map fs_property_name gens)) as [|Nn]; [assumption|].
  exfalso. apply (F name) in Nn. cbn [Dict.get] in Nn.
  apply DictFacts.get_None in Nn. contradiction.
Qed.

(** [class_type( **field_values )] of a named tuple, given the values of
    its fields in the order of [_fields]. *)
Lemma create_named_tuple_attrs (name : string)
    (fields : list (string * PyType * FieldDefaults))
    (to_json : option (PyVal -> HookOutcome JsonType))
    (from_json : option (JsonType -> HookOutcome PyVal))
    (attrs : list (string * PyVal)) :
  NoDup (map fst attrs) ->
  create_named_tuple (tClass name (KNamedTuple (map fst attrs)) fields to_json from_json)
    attrs
  = Ok (VObject name attrs).
Proof.
  intros ND. cbn [create_named_tuple].
  assert (K : forallb (fun kv => str_in (fst kv) (map fst attrs)) attrs = true).
  { apply forallb_forall. intros a I. apply str_in_In. now apply in_map. }
  rewrite K.
  assert (M : forall l, incl l attrs ->
            mapM (fun n => match Dict.get attrs n with
                           | Some v => Ok (n, v)
                           | None =>
                               raise TypeError
                                 [Text "__new__() missing required argument: "; Text n]
                           end) (map fst l) = Ok l).
  { induction l as [|a l IH]; intros I; cbn [map mapM]; [reflexivity|].
    rewrite (get_of_NoDup attrs a ND (I a (or_introl eq_refl))). cbn [rbind].
    rewrite IH by (intros x Hx; apply I; now right). cbn [rbind].
    now destruct a. }
  now rewrite (M attrs (incl_refl attrs)).
Qed.

End RoundTrip.

(** ** The field codecs that the factories build *)

Section FieldCodecs.
Variable python_field_to_json_property : string -> option PyType -> string.

Local Abbreviation property_name := (property_name python_field_to_json_property).

Lemma dataclass_field_parser_names (pn fn : string) (defaults : FieldDefaults)
    (is_optional : bool) (parser : Deserializer) :
  fd_property_name (dataclass_field_parser pn fn defaults is_optional parser) = pn
  /\ fd_field_name (dataclass_field_parser pn fn defaults is_optional parser) = fn.
Proof.
  unfold dataclass_field_parser.
  destruct (default defaults), (default_factory defaults), is_optional; now split.
Qed.

Lemma field_serializers_spec (create : PyType -> Result Serializer)
    (fields : list (string * PyType * FieldDefaults)) (gens : list FieldSerializer) :
  field_serializers python_field_to_json_property create fields = Ok gens ->
  Forall2 (fun f g => exists generator,
             create (field_type f) = Ok generator
             /\ g = mkFieldSerializer (field_name f) (property_name f) generator)
    fields gens.
Proof.
  revert gens. induction fields as [|[[n t] d] fields IH]; intros gens H;
    cbn [field_serializers] in H.
  - injection H as <-. constructor.
  - rbind_inv H. rbind_inv H. injection H as <-.
    constructor; [eauto | now apply IH].
Qed.

Lemma dataclass_parsers_spec (create : PyType -> Result Deserializer)
    (fields : list (string * PyType * FieldDefaults)) (parsers : list FieldDeserializer) :
  dataclass_parsers python_field_to_json_property create fields = Ok parsers ->
  Forall2 (fun f p => exists parser,
             required_parser create (field_type f) = Ok parser
             /\ p = dataclass_field_parser (property_name f) (field_name f)
                      (field_defaults f) (is_type_optional (field_type f)) parser)
    fields parsers.
Proof.
  revert parsers. induction fields as [|[[n t] d] fields IH]; intros parsers H;
    cbn [dataclass_parsers] in H.
  - injection H as <-. constructor.
  - rbind_inv H. rbind_inv H. injection H as <-.
    constructor; [eauto | now apply IH].
Qed.

Lemma typed_class_parsers_spec (create : PyType -> Result Deserializer)
    (fields : list (string * PyType * FieldDefaults)) (parsers : list FieldDeserializer) :
  typed_class_parsers python_field_to_json_property create fields = Ok parsers ->
  Forall2 (fun f p => exists parser,
             required_parser create (field_type f) = Ok parser
             /\ p = typed_class_field_parser (property_name f) (field_name f)
                      (is_type_optional (field_type f)) parser)
    fields parsers.
Proof.
  revert parsers. induction fields as [|[[n t] d] fields IH]; intros parsers H;
    cbn [typed_class_parsers] in H.
  - injection H as <-. constructor.
  - rbind_inv H. rbind_inv H. injection H as <-.
    constructor; [eauto | now apply IH].
Qed.

Lemma named_tuple_parsers_spec (create : PyType -> Result Deserializer)
    (fields : list (string * PyType * FieldDefaults)) (parsers : list FieldDeserializer) :
  named_tuple_parsers create fields = Ok parsers ->
  Forall2 (fun f p => exists parser,
             create (field_type f) = Ok parser
             /\ p = RequiredFieldDeserializer (field_name f) (field_name f) parser)
    fields parsers.
Proof.
  revert parsers. induction fields as [|[[n t] d] fields IH]; intros parsers H;
    cbn [named_tuple_parsers] in H.
  - injection H as <-. constructor.
  - rbind_inv H. rbind_inv H. injection H as <-.
    constructor; [eauto | now apply IH].
Qed.

Lemma Forall2_map_eq {A B C} (f : A -> C) (g : B -> C) (R : A -> B -> Prop)
    (la : list A) (lb : list B) :
  (forall a b, R a b -> f a = g b) -> Forall2 R la lb -> map f la = map g lb.
Proof.
  intros H F. induction F as [|a b la lb Rab F IH]; cbn [map]; [reflexivity|].
  now rewrite (H a b Rab), IH.
Qed.

Lemma Forall2_impl {A B} (R S : A -> B -> Prop) (la : list A) (lb : list B) :
  (forall a b, R a b -> S a b) -> Forall2 R la lb -> Forall2 S la lb.
Proof. intros H F. induction F; constructor; auto. Qed.

End FieldCodecs.

(** ** Records: the round trip *)

Section Records.
Variable python_type_to_str : PyType -> string.
Variable python_field_to_json_property : string -> option PyType -> string.
Variable py_str : PyVal -> string.
Variable float_of_int : Z -> option PyFloat.
Variable b64encode : list Byte.byte -> string.
Variable b64decode : string -> option (list Byte.byte).
Variable uuid_parse : string -> option N.
Variable object_to_json : PyVal -> Result JsonType.

Lemma generate_class (property_generators : list FieldSerializer) (obj : PyVal) :
  let generate := generate python_field_to_json_property py_str b64encode object_to_json in
  generate (DataclassSerializer property_generators) obj
  = (let* object_dict := generate_fields generate property_generators obj [] in
     Ok (JDict object_dict))
  /\ generate (TypedClassSerializer property_generators) obj
     = (let* object_dict := generate_fields generate property_generators obj [] in
        Ok (JDict object_dict))
  /\ generate (TypedNamedTupleSerializer property_generators) obj
     = (let* object_dict := generate_fields generate property_generators obj [] in
        Ok (JDict object_dict)).
Proof. repeat split. Qed.

Local Abbreviation create_serializer :=
  (create_serializer python_type_to_str python_field_to_json_property).
Local Abbreviation create_deserializer :=
  (create_deserializer python_type_to_str python_field_to_json_property).
Local Abbreviation generate :=
  (generate python_field_to_json_property py_str b64encode object_to_json).
Local Abbreviation parse := (parse python_type_to_str float_of_int b64decode uuid_parse).
Local Abbreviation property_name := (property_name python_field_to_json_property).
Local Abbreviation codecs_of := (codecs_of python_field_to_json_property).

Lemma field_serializers_names (fields : list (string * PyType * FieldDefaults))
    (gens : list FieldSerializer) :
  field_serializers python_field_to_json_property create_serializer fields = Ok gens ->
  map fs_field_name gens = map field_name fields
  /\ map fs_property_name gens = map property_name fields.
Proof.
  intros E. apply field_serializers_spec in E.
  split; symmetry; (eapply Forall2_map_eq; [|exact E]);
    intros f q (generator & _ & ->); reflexivity.
Qed.

Lemma create_dataclass_codecs (name : string)
    (fields : list (string * PyType * FieldDefaults)) (g : Serializer) (p : Deserializer) :
  create_serializer (tClass name KDataclass fields None None) = Ok g ->
  create_deserializer (tClass name KDataclass fields None None) = Ok p ->
  exists gens parsers,
    g = DataclassSerializer gens
    /\ p = DataclassDeserializer (tClass name KDataclass fields None None) parsers
    /\ codecs_of fields gens parsers.
Proof.
  intros G P. cbn in G, P. rbind_inv G. rbind_inv P.
  injection G as <-. injection P as <-.
  destruct (field_serializers_names fields a E) as [N1 P1].
  apply dataclass_parsers_spec in E0.
  exists a, a0. repeat split; try assumption.
  - symmetry. eapply Forall2_map_eq; [|exact E0].
    intros f q (parser & _ & ->). symmetry. apply dataclass_field_parser_names.
  - symmetry. eapply Forall2_map_eq; [|exact E0].
    intros f q (parser & _ & ->). symmetry. apply dataclass_field_parser_names.
Qed.

Lemma create_typed_class_codecs (name : string)
    (fields : list (string * PyType * FieldDefaults)) (g : Serializer) (p : Deserializer) :
  fields <> [] ->
  create_serializer (tClass name KPlain fields None None) = Ok g ->
  create_deserializer (tClass name KPlain fields None None) = Ok p ->
  exists gens parsers,
    g = TypedClassSerializer gens
    /\ p = TypedClassDeserializer (tClass name KPlain fields None None) parsers
    /\ codecs_of fields gens parsers.
Proof.
  intros NE G P. destruct fields as [|f0 fields0]; [contradiction|].
  set (fields := f0 :: fields0) in *.
  cbn -[field_serializers typed_class_parsers] in G, P. rbind_inv G. rbind_inv P.
  injection G as <-. injection P as <-.
  destruct (field_serializers_names fields a E) as [N1 P1].
  apply typed_class_parsers_spec in E0.
  exists a, a0. repeat split; try assumption.
  - symmetry. eapply Forall2_map_eq; [|exact E0].
    intros f q (parser & _ & ->). unfold typed_class_field_parser.
    now destruct (is_type_optional (field_type f)).
  - symmetry. eapply Forall2_map_eq; [|exact E0].
    intros f q (parser & _ & ->). unfold typed_class_field_parser.
    now destruct (is_type_optional (field_type f)).
Qed.

Lemma create_named_tuple_codecs (name : string) (names : list string)
    (fields : list (string * PyType * FieldDefaults)) (g : Serializer) (p : Deserializer) :
  fields <> [] ->
  (forall f, In f fields -> property_name f = field_name f) ->
  create_serializer (tClass name (KNamedTuple names) fields None None) = Ok g ->
  create_deserializer (tClass name (KNamedTuple names) fields None None) = Ok p ->
  exists gens parsers,
    g = TypedNamedTupleSerializer gens
    /\ p = NamedTupleDeserializer (tClass name (KNamedTuple names) fields None None) parsers
    /\ codecs_of fields gens parsers.
Proof.
  intros NE A G P. destruct fields as [|f0 fields0]; [contradiction|].
  set (fields := f0 :: fields0) in *.
  cbn -[field_serializers named_tuple_parsers] in G, P. rbind_inv G. rbind_inv P.
  injection G as <-. injection P as <-.
  destruct (field_serializers_names fields a E) as [N1 P1].
  apply named_tuple_parsers_spec in E0.
  exists a, a0. repeat split; try assumption.
  - symmetry. eapply Forall2_map_eq; [|exact E0].
    intros f q (parser & _ & ->). reflexivity.
  - transitivity (map field_name fields); [|now apply map_ext_in; intros; rewrite A].
    symmetry. eapply Forall2_map_eq; [|exact E0].
    intros f q (parser & _ & ->). reflexivity.
Qed.

(** The round trip through the built codecs of a class, for the three kinds
    of class and their ways of creating the object. *)
Lemma record_round_trip (class_type : PyType) (name : string)
    (create : list (string * PyVal) -> Result PyVal)
    (fields : list (string * PyType * FieldDefaults))
    (gens : list FieldSerializer) (parsers : list FieldDeserializer)
    (attrs : list (string * PyVal)) :
  codecs_of fields gens parsers ->
  map fst attrs = map field_name fields ->
  NoDup (map field_name fields) ->
  NoDup (map property_name fields) ->
  create attrs = Ok (VObject name attrs) ->
  Forall3 (field_round_trips generate parse) gens parsers (map snd attrs) ->
  exists d,
    generate_fields generate gens (VObject name attrs) [] = Ok d
    /\ ClassDeserializer_parse python_type_to_str (parse_fields parse parsers)
         create class_type (JDict d)
       = Ok (VObject name attrs).
Proof.
  intros (N1 & P1 & N2 & P2) A ND1 ND2 C RT.
  destruct (class_round_trip generate parse python_type_to_str create class_type
              name gens parsers attrs) as (d & E & Q); try congruence.
  exists d. split; [exact E | now rewrite Q].
Qed.


End Records.

Ltac nodup_strings :=
  repeat (constructor; [cbn; intuition discriminate|]); constructor.

Ltac field_round_trip :=
  split;
  [ intros Z; try discriminate Z; intros data D; cbn -[Dict.get] in D |- *; now rewrite D
  | intros NZ;
    first [ exfalso; now apply NZ
          | eexists; split; [vm_compute; reflexivity|];
            intros data D; cbn -[Dict.get] in D |- *; rewrite D; vm_compute; reflexivity ] ].



(** ** Records: the omission law *)

Section AbsentFields.
Variable parse : Deserializer -> JsonType -> Result PyVal.

Lemma parse_field_dataclass_absent (pn fn : string) (defaults : FieldDefaults)
    (is_optional : bool) (parser : Deserializer) (data : list (string * JsonType)) :
  has_default defaults = true \/ is_optional = true ->
  Dict.get data pn = Some JNull \/ Dict.get data pn = None ->
  parse_field parse (dataclass_field_parser pn fn defaults is_optional parser) data
  = Ok (declared_default defaults).
Proof.
  intros Hd H. destruct defaults as [[v|] [f|]];
    unfold dataclass_field_parser, declared_default, has_default in *; cbn in *;
    try (destruct H as [-> | ->]; reflexivity).
  destruct Hd as [Hd | ->]; [discriminate|].
  cbn. destruct H as [-> | ->]; reflexivity.
Qed.

Lemma parse_field_typed_class_absent (pn fn : string) (parser : Deserializer)
    (data : list (string * JsonType)) :
  Dict.get data pn = Some JNull \/ Dict.get data pn = None ->
  parse_field parse (typed_class_field_parser pn fn true parser) data = Ok VNone.
Proof. intros H. cbn. destruct H as [-> | ->]; reflexivity. Qed.

Lemma parse_field_required_absent (pn fn : string) (parser : Deserializer)
    (data : list (string * JsonType)) :
  Dict.get data pn = None ->
  parse_field parse (RequiredFieldDeserializer pn fn parser) data
  = raise JsonKeyError
      [Text "missing required property `"; Text pn;
       Text "` from JSON object: "; Data (JDict data)].
Proof. intros H. cbn. now rewrite H. Qed.

End AbsentFields.

Section OmissionLaw.
Variable python_type_to_str : PyType -> string.
Variable python_field_to_json_property : string -> option PyType -> string.
Variable py_str : PyVal -> string.
Variable b64encode : list Byte.byte -> string.
Variable object_to_json : PyVal -> Result JsonType.

Local Abbreviation create_deserializer :=
  (create_deserializer python_type_to_str python_field_to_json_property).
Local Abbreviation generate :=
  (generate python_field_to_json_property py_str b64encode object_to_json).
Local Abbreviation property_name := (property_name python_field_to_json_property).


End OmissionLaw.



(** ** Records: what is written and what is read *)

Section RecordShape.
Variable python_type_to_str : PyType -> string.
Variable python_field_to_json_property : string -> option PyType -> string.
Variable py_str : PyVal -> string.
Variable float_of_int : Z -> option PyFloat.
Variable b64encode : list Byte.byte -> string.
Variable b64decode : string -> option (list Byte.byte).
Variable uuid_parse : string -> option N.
Variable object_to_json : PyVal -> Result JsonType.

Local Abbreviation generate :=
  (generate python_field_to_json_property py_str b64encode object_to_json).
Local Abbreviation parse := (parse python_type_to_str float_of_int b64decode uuid_parse).

Lemma generate_fields_keys (gen : Serializer -> PyVal -> Result JsonType)
    (obj : PyVal) (gens : list FieldSerializer) :
  forall acc d,
    generate_fields gen gens obj acc = Ok d ->
    NoDup (map fs_property_name gens) ->
    (forall g, In g gens -> Dict.get acc (fs_property_name g) = None) ->
    Dict.keys d = Dict.keys acc ++ map fs_property_name (filter (holds_value obj) gens)
    /\ (forall name, ~ In name (map fs_property_name gens) ->
                     Dict.get d name = Dict.get acc name)
    /\ (forall g, In g gens -> holds_value obj g = true ->
          exists x j, getattr obj (fs_field_name g) = Ok x
                      /\ gen (fs_generator g) x = Ok j
                      /\ Dict.get d (fs_property_name g) = Some j).
Proof.
  induction gens as [|g rest IH]; intros acc d H ND A; cbn [generate_fields] in H.
  - injection H as <-. cbn [map filter]. rewrite app_nil_r.
    split; [reflexivity | split; [reflexivity | intros g []]].
  - rbind_inv H. cbn [map] in ND. inversion ND as [|? ? Ng NDrest]; subst.
    apply generate_field_Ok in E.
    destruct E as (value & G & [[-> ->] | (NZ & j & J & ->)]).
    + destruct (IH acc d H NDrest) as (K & F & V); [intros; apply A; now right|].
      cbn [filter]. unfold holds_value at 1. rewrite G.
      split; [exact K | split].
      * intros name Nn. apply F. intros I. apply Nn. now right.
      * intros g' [<- | I] Hv; [|now apply V].
        unfold holds_value in Hv. rewrite G in Hv. discriminate.
    + assert (Fresh : Dict.get acc (fs_property_name g) = None) by (apply A; now left).
      rewrite (DictFacts.set_fresh acc _ j Fresh) in H.
      destruct (IH _ d H NDrest) as (K & F & V).
      { intros g' I. rewrite DictFacts.get_app_fresh, A by now right.
        destruct (String.eqb_spec (fs_property_name g) (fs_property_name g')) as [EQ|];
          [|reflexivity].
        exfalso. apply Ng. rewrite EQ. now apply in_map. }
      cbn [filter]. unfold holds_value at 1. rewrite G.
      assert (Hv : match value with VNone => false | _ => true end = true)
        by (destruct value; try reflexivity; contradiction).
      rewrite Hv. cbn [map].
      split; [|split].
      * rewrite K, DictFacts.keys_app. cbn [Dict.keys map fst]. now rewrite <- app_assoc.
      * intros name Nn. rewrite F by (intros I; apply Nn; now right).
        rewrite DictFacts.get_app_fresh.
        destruct (Dict.get acc name); [reflexivity|].
        destruct (String.eqb_spec (fs_property_name g) name) as [EQ|]; [|reflexivity].
        exfalso. apply Nn. now left.
      * intros g' [<- | I] Hv'; [|now apply V].
        exists value, j. split; [exact G | split; [exact J|]].
        rewrite (F _ Ng), DictFacts.get_app_fresh, Fresh. now rewrite String.eqb_refl.
Qed.

(** X1.  The object that the serializer of a data class, of an annotated
    class or of an annotated named tuple writes, when the property names are
    pairwise distinct: its keys are the property names of the fields that
    hold a value other than [None], in the order of declaration, and each
    holds what the serializer of the field writes for the value. *)
Theorem X1_record_keys :
  forall property_generators obj j,
    NoDup (map fs_property_name property_generators) ->
    generate (DataclassSerializer property_generators) obj = Ok j
    \/ generate (TypedClassSerializer property_generators) obj = Ok j
    \/ generate (TypedNamedTupleSerializer property_generators) obj = Ok j ->
    exists d,
      j = JDict d
      /\ Dict.keys d
         = map fs_property_name (filter (holds_value obj) property_generators)
      /\ (forall g, In g property_generators -> holds_value obj g = true ->
            exists x jx, getattr obj (fs_field_name g) = Ok x
                         /\ generate (fs_generator g) x = Ok jx
                         /\ Dict.get d (fs_property_name g) = Some jx).
Proof.
  intros gens obj j ND H.
  assert (G : (let* object_dict := generate_fields generate gens obj [] in
               Ok (JDict object_dict)) = Ok j) by (destruct H as [H | [H | H]]; exact H).
  rbind_inv G. injection G as <-.
  destruct (generate_fields_keys generate obj gens [] a E ND) as (K & _ & V);
    [reflexivity|].
  exists a. split; [reflexivity | split; [exact K | exact V]].
Qed.

Lemma parse_fields_spec (p : Deserializer -> JsonType -> Result PyVal)
    (parsers : list FieldDeserializer) (d : list (string * JsonType)) :
  forall fv pp fv' pp',
    parse_fields p parsers d fv pp = Ok (fv', pp') ->
    NoDup (map fd_field_name parsers) ->
    (forall q, In q parsers -> Dict.get fv (fd_field_name q) = None) ->
    exists attrs,
      fv' = fv ++ attrs
      /\ map fst attrs = map fd_field_name parsers
      /\ Forall2 (fun q a => parse_field p q d = Ok (snd a)) parsers attrs.
Proof.
  induction parsers as [|q rest IH]; intros fv pp fv' pp' H ND F; cbn [parse_fields] in H.
  - injection H as <- _. exists []. rewrite app_nil_r. repeat split. constructor.
  - rbind_inv H. cbn [map] in ND. inversion ND as [|? ? Nq NDrest]; subst.
    rewrite DictFacts.set_fresh in H by (apply F; now left).
    destruct (IH _ _ _ _ H NDrest) as (attrs & -> & N & Q).
    { intros q' I. rewrite DictFacts.get_app_fresh, F by now right.
      destruct (String.eqb_spec (fd_field_name q) (fd_field_name q')) as [EQ|];
        [|reflexivity].
      exfalso. apply Nq. rewrite EQ. now apply in_map. }
    exists ((fd_field_name q, a) :: attrs). split; [|split].
    + now rewrite <- app_assoc.
    + cbn [map fst]. now rewrite N.
    + constructor; [exact E | exact Q].
Qed.

Lemma filter_nil_inv {A} (f : A -> bool) (l : list A) :
  filter f l = [] -> forall x, In x l -> f x = false.
Proof.
  induction l as [|y l IH]; cbn [filter In]; [tauto|].
  destruct (f y) eqn:E; [discriminate|].
  intros H x [<- | I]; [exact E | now apply IH].
Qed.

Lemma ClassDeserializer_parse_Ok (create : list (string * PyVal) -> Result PyVal)
    (class_type : PyType) (parsers : list FieldDeserializer) (data : JsonType) (v : PyVal) :
  NoDup (map fd_field_name parsers) ->
  ClassDeserializer_parse python_type_to_str (parse_fields parse parsers) create
    class_type data = Ok v ->
  exists d attrs,
    data = JDict d
    /\ create attrs = Ok v
    /\ map fst attrs = map fd_field_name parsers
    /\ Forall2 (fun q a => parse_field parse q d = Ok (snd a)) parsers attrs
    /\ (forall name, In name (Dict.keys d) -> In name (map fd_property_name parsers)).
Proof.
  intros ND H. unfold ClassDeserializer_parse in H.
  destruct data as [| | | | | |d]; try discriminate H.
  rbind_inv H. destruct a as [fv pp].
  pose proof (parse_fields_properties _ _ _ _ _ _ _ E) as P. cbn [app] in P. subst pp.
  destruct (parse_fields_spec _ _ _ _ _ _ _ E ND) as (attrs & -> & N & Q); [reflexivity|].
  cbn [app] in H.
  destruct (filter _ (Dict.keys d)) eqn:U; cbn [nonempty] in H; [|discriminate H].
  exists d, attrs. repeat split; try assumption.
  intros name I. apply (filter_nil_inv _ _ U) in I.
  apply negb_false_iff in I. now apply str_in_In.
Qed.

(** X2.  What a record deserializer has done when it returns: the input is
    a JSON object all of whose keys are property names of the fields; every
    field deserializer has returned a value for it; and, the field names
    being pairwise distinct, the object of a data class or of an annotated
    class has exactly the declared fields as its attributes, in the order of
    declaration, while the named tuple is made from those values. *)
Theorem X2_record_parse_ok :
  forall class_type property_parsers data v,
    NoDup (map fd_field_name property_parsers) ->
    (parse (DataclassDeserializer class_type property_parsers) data = Ok v
     \/ parse (TypedClassDeserializer class_type property_parsers) data = Ok v ->
     exists d attrs,
       data = JDict d
       /\ v = VObject (class_name python_type_to_str class_type) attrs
       /\ map fst attrs = map fd_field_name property_parsers
       /\ Forall2 (fun q a => parse_field parse q d = Ok (snd a)) property_parsers attrs
       /\ (forall name, In name (Dict.keys d) ->
                        In name (map fd_property_name property_parsers)))
    /\ (parse (NamedTupleDeserializer class_type property_parsers) data = Ok v ->
        exists d attrs,
          data = JDict d
          /\ create_named_tuple class_type attrs = Ok v
          /\ map fst attrs = map fd_field_name property_parsers
          /\ Forall2 (fun q a => parse_field parse q d = Ok (snd a)) property_parsers attrs
          /\ (forall name, In name (Dict.keys d) ->
                           In name (map fd_property_name property_parsers))).
Proof.
  intros class_type parsers data v ND. split.
  - intros H.
    assert (P : ClassDeserializer_parse python_type_to_str (parse_fields parse parsers)
                  (create python_type_to_str class_type) class_type data = Ok v)
      by (destruct H as [H | H]; exact H).
    destruct (ClassDeserializer_parse_Ok _ _ _ _ _ ND P) as (d & attrs & -> & C & R).
    exists d, attrs. split; [reflexivity | split; [|exact R]].
    unfold create in C. now injection C as <-.
  - intros H. exact (ClassDeserializer_parse_Ok _ class_type _ _ _ ND H).
Qed.

Lemma parse_fields_first_failure (p : Deserializer -> JsonType -> Result PyVal)
    (before : list FieldDeserializer) (q : FieldDeserializer)
    (after : list FieldDeserializer) (d : list (string * JsonType)) (e : Exception) :
  Forall (fun b => exists x, parse_field p b d = Ok x) before ->
  parse_field p q d = Raise e ->
  forall fv pp, parse_fields p (before ++ q :: after) d fv pp = Raise e.
Proof.
  intros B Q. induction B as [|b before (x & X) _ IH]; intros fv pp;
    cbn [app parse_fields].
  - now rewrite Q.
  - rewrite X. cbn [rbind]. apply IH.
Qed.

(** X3.  The fields of a record are read in the order of declaration, and
    the exception of the first field that fails is the exception of the
    record, whatever the later fields and the other keys of the object are.
    In particular a required property that is absent raises
    [JsonKeyError] with the name of that property. *)
Theorem X3_first_failing_field :
  forall class_type before q after d e,
    Forall (fun b => exists x, parse_field parse b d = Ok x) before ->
    parse_field parse q d = Raise e ->
    parse (DataclassDeserializer class_type (before ++ q :: after)) (JDict d) = Raise e
    /\ parse (TypedClassDeserializer class_type (before ++ q :: after)) (JDict d) = Raise e
    /\ parse (NamedTupleDeserializer class_type (before ++ q :: after)) (JDict d) = Raise e
    /\ (forall property_name field_name parser,
          q = RequiredFieldDeserializer property_name field_name parser ->
          Dict.get d property_name = None ->
          e = mkexc JsonKeyError
                [Text "missing required property `"; Text property_name;
                 Text "` from JSON object: "; Data (JDict d)]).
Proof.
  intros class_type before q after d e B Q.
  rewrite parse_DataclassDeserializer, parse_TypedClassDeserializer,
    parse_NamedTupleDeserializer.
  unfold ClassDeserializer_parse.
  rewrite (parse_fields_first_failure parse before q after d e B Q).
  repeat split.
  intros pn fn parser -> A. cbn [parse_field] in Q. rewrite A in Q.
  now injection Q as <-.
Qed.

End RecordShape.

Lemma X1_record_keys_witness :
  exists d,
    Py.serialize Sample.Event sample_event = Ok (JDict d)
    /\ Dict.keys d = ["name"; "when"; "tags"; "priority"].
Proof.
  edestruct (X1_record_keys Lib.python_field_to_json_property Lib.py_str Lib.b64encode
               (Py.object_to_json Py.recursion_limit)
               [mkFieldSerializer "name" "name" StringSerializer;
                mkFieldSerializer "when" "when" DateTimeSerializer;
                mkFieldSerializer "tags" "tags" (TypedListSerializer StringSerializer);
                mkFieldSerializer "side" "side" UnionSerializer;
                mkFieldSerializer "priority" "priority" IntSerializer;
                mkFieldSerializer "note" "comment" UnionSerializer]
               sample_event)
    as (d & E & K & _); [nodup_strings | left; vm_compute; reflexivity |].
  injection E as <-. exists [("name", JStr "launch"); ("when", JStr "1989-10-23T01:45:50Z");
                             ("tags", JList [JStr "a"; JStr "b"]); ("priority", JInt 3)].
  split; [vm_compute; reflexivity | exact K].
Defined.

Lemma X2_record_parse_ok_witness :
  exists d attrs,
    JDict [("value", JInt 23)] = JDict d
    /\ VObject "SimpleValueWrapper" [("value", VInt 23)]
       = VObject "SimpleValueWrapper" attrs
    /\ map fst attrs = ["value"]
    /\ (forall name, In name (Dict.keys d) -> In name ["value"]).
Proof.
  edestruct (proj1 (X2_record_parse_ok Lib.python_type_to_str Lib.float_of_int
                      Lib.b64decode Lib.uuid_parse Sample.SimpleValueWrapper
                      [RequiredFieldDeserializer "value" "value" IntDeserializer]
                      (JDict [("value", JInt 23)])
                      (VObject "SimpleValueWrapper" [("value", VInt 23)])
                      ltac:(nodup_strings)))
    as (d & attrs & E & V & N & _ & K); [left; reflexivity |].
  exists d, attrs. repeat split; assumption.
Defined.

Lemma X3_first_failing_field_witness :
  Py.deserialize Sample.Event
    (JDict [("name", JStr "launch"); ("tags", JInt 0); ("extra", JNull)])
  = raise JsonKeyError
      [Text "missing required property `"; Text "when";
       Text "` from JSON object: ";
       Data (JDict [("name", JStr "launch"); ("tags", JInt 0); ("extra", JNull)])].
Proof.
  refine (proj1 (X3_first_failing_field Lib.python_type_to_str Lib.float_of_int
                   Lib.b64decode Lib.uuid_parse Sample.Event
                   [RequiredFieldDeserializer "name" "name" StringDeserializer]
                   (RequiredFieldDeserializer "when" "when" DateTimeDeserializer)
                   [RequiredFieldDeserializer "tags" "tags"
                      (ListDeserializer tStr StringDeserializer);
                    OptionalFieldDeserializer "side" "side" (EnumDeserializer Sample.Side);
                    DefaultFieldDeserializer "priority" "priority" IntDeserializer (VInt 0);
                    DefaultFieldDeserializer "comment" "note" StringDeserializer VNone]
                   [("name", JStr "launch"); ("tags", JInt 0); ("extra", JNull)]
                   (mkexc JsonKeyError
                      [Text "missing required property `"; Text "when";
                       Text "` from JSON object: ";
                       Data (JDict [("name", JStr "launch"); ("tags", JInt 0);
                                    ("extra", JNull)])])
                   _ _)).
  - constructor; [exists (VStr "launch"); reflexivity | constructor].
  - reflexivity.
Defined.

(** ** Collections, enumerations and unions *)

Section Comprehensions.
Context {A B : Type}.

Lemma mapM_cons (f : A -> Result B) (x : A) (l : list A) :
  mapM f (x :: l) = (let* y := f x in let* ys := mapM f l in Ok (y :: ys)).
Proof. reflexivity. Qed.

Lemma mapM_Ok (f : A -> Result B) (l : list A) (r : list B) :
  mapM f l = Ok r <-> Forall2 (fun x y => f x = Ok y) l r.
Proof.
  revert r. induction l as [|x l IH]; intros r; cbn [mapM].
  - split; [intros H; injection H as <-; constructor | intros H; now inversion H].
  - fold (mapM f l). split.
    + intros H. rbind_inv H. rbind_inv H. injection H as <-.
      constructor; [assumption | now apply IH].
    + intros H. inversion H as [|? y ? ys Hx Hl]; subst.
      rewrite Hx. cbn [rbind]. apply IH in Hl. now rewrite Hl.
Qed.

Lemma mapM_first_failure (f : A -> Result B) (before : list A) (x : A) (after : list A)
    (e : Exception) :
  Forall (fun b => exists y, f b = Ok y) before ->
  f x = Raise e ->
  mapM f (before ++ x :: after) = Raise e.
Proof.
  intros F X. induction F as [|b before (y & Y) _ IH]; cbn [app mapM].
  - now rewrite X.
  - rewrite Y. cbn [rbind]. fold (mapM f (before ++ x :: after)). now rewrite IH.
Qed.

End Comprehensions.

Lemma zipM_length {N I O} (run : N -> I -> Result O) (nodes : list N) (items : list I)
    (out : list O) :
  zipM run nodes items = Ok out ->
  List.length out = Nat.min (List.length nodes) (List.length items).
Proof.
  revert items out. induction nodes as [|n nodes IH]; intros [|x items] out H;
    cbn [zipM] in H; try (injection H as <-; reflexivity).
  rbind_inv H. rbind_inv H. injection H as <-. cbn [List.length Nat.min].
  now rewrite (IH _ _ E0).
Qed.

Lemma JsonType_eqb_scalar (a b : JsonType) :
  is_scalar a = true -> is_scalar b = true -> JsonType_eqb a b = true -> a = b.
Proof.
  destruct a, b; try discriminate; cbn [JsonType_eqb]; intros _ _ H.
  - apply Z.eqb_eq in H. now subst.
  - apply String.eqb_eq in H. now subst.
Qed.

Lemma JsonType_eqb_scalar_refl (a : JsonType) :
  is_scalar a = true -> JsonType_eqb a a = true.
Proof.
  destruct a; try discriminate; cbn [JsonType_eqb]; intros _;
    [apply Z.eqb_refl | apply String.eqb_refl].
Qed.

Lemma unique_types_same (t : PyType) (types : list PyType) :
  type_is t t = true -> Forall (eq t) types ->
  unique_types [t] types = [].
Proof.
  intros R F. induction F as [|x types <- _ IH]; cbn [unique_types existsb]; [reflexivity|].
  now rewrite R.
Qed.

Section Collections.
Variable python_type_to_str : PyType -> string.
Variable python_field_to_json_property : string -> option PyType -> string.
Variable py_str : PyVal -> string.
Variable float_of_int : Z -> option PyFloat.
Variable b64encode : list Byte.byte -> string.
Variable b64decode : string -> option (list Byte.byte).
Variable uuid_parse : string -> option N.
Variable object_to_json : PyVal -> Result JsonType.

Lemma generate_TypedListSerializer (generator : Serializer) (items : list PyVal) :
  generate python_field_to_json_property py_str b64encode object_to_json
    (TypedListSerializer generator) (VList items)
  = (let* js := mapM (generate python_field_to_json_property py_str b64encode
                        object_to_json generator) items in
     Ok (JList js)).
Proof. reflexivity. Qed.

Lemma parse_ListDeserializer (item_type : PyType) (item_parser : Deserializer)
    (items : list JsonType) :
  parse python_type_to_str float_of_int b64decode uuid_parse
    (ListDeserializer item_type item_parser) (JList items)
  = (let* values := mapM (parse python_type_to_str float_of_int b64decode uuid_parse
                            item_parser) items in
     Ok (VList values)).
Proof. reflexivity. Qed.

Lemma generate_TypedTupleSerializer (item_generators : list Serializer)
    (items : list PyVal) :
  generate python_field_to_json_property py_str b64encode object_to_json
    (TypedTupleSerializer item_generators) (VTuple items)
  = (let* js := zipM (generate python_field_to_json_property py_str b64encode
                        object_to_json) item_generators items in
     Ok (JList js)).
Proof. reflexivity. Qed.

Lemma parse_TupleDeserializer (item_types : list PyType) (item_parsers : list Deserializer)
    (items : list JsonType) :
  parse python_type_to_str float_of_int b64decode uuid_parse
    (TupleDeserializer item_types item_parsers) (JList items)
  = (if negb (List.length items =? List.length item_parsers) then
       raise JsonValueError
         [Text "type `Tuple["; TypeNames (map python_type_to_str item_types);
          Text "]` expects a JSON `array` of length ";
          Number (List.length item_parsers);
          Text " but received length "; Number (List.length items)]
     else
       let* values := zipM (parse python_type_to_str float_of_int b64decode uuid_parse)
                        item_parsers items in
       Ok (VTuple values)).
Proof. reflexivity. Qed.

Lemma generate_TypedStringDictSerializer (generator : Serializer)
    (items : list (PyVal * PyVal)) :
  generate python_field_to_json_property py_str b64encode object_to_json
    (TypedStringDictSerializer generator) (VDict items)
  = (let* pairs := generate_items py_key
                     (generate python_field_to_json_property py_str b64encode
                        object_to_json generator) items in
     Ok (JDict (dict_of pairs))).
Proof. reflexivity. Qed.

Lemma generate_TypedEnumDictSerializer (generator : Serializer)
    (items : list (PyVal * PyVal)) :
  generate python_field_to_json_property py_str b64encode object_to_json
    (TypedEnumDictSerializer generator) (VDict items)
  = (let* pairs := generate_items enum_key
                     (generate python_field_to_json_property py_str b64encode
                        object_to_json generator) items in
     Ok (JDict (dict_of pairs))).
Proof. reflexivity. Qed.

Lemma parse_DictDeserializer (key_type value_type : PyType) (value_parser : Deserializer)
    (props : list (string * JsonType)) :
  parse python_type_to_str float_of_int b64decode uuid_parse
    (DictDeserializer key_type value_type value_parser) (JDict props)
  = (let* items :=
       mapM (fun kv => let* k := call_key_type python_type_to_str key_type (fst kv) in
                       let* v := parse python_type_to_str float_of_int b64decode uuid_parse
                                   value_parser (snd kv) in
                       Ok (k, v)) props in
     Ok (VDict items)).
Proof. reflexivity. Qed.

Local Abbreviation create_serializer :=
  (create_serializer python_type_to_str python_field_to_json_property).
Local Abbreviation create_deserializer :=
  (create_deserializer python_type_to_str python_field_to_json_property).
Local Abbreviation generate :=
  (generate python_field_to_json_property py_str b64encode object_to_json).
Local Abbreviation parse := (parse python_type_to_str float_of_int b64decode uuid_parse).
Local Abbreviation round_trips := (round_trips generate parse).

Lemma mapM_round_trip (g : Serializer) (p : Deserializer) (items : list PyVal) :
  Forall (round_trips g p) items ->
  exists js, mapM (generate g) items = Ok js /\ mapM (parse p) js = Ok items.
Proof.
  induction 1 as [|x items (j & G & P) _ (js & Gs & Ps)].
  - now exists [].
  - exists (j :: js). cbn [mapM]. fold (mapM (generate g) items). fold (mapM (parse p) js).
    now rewrite G, Gs, P, Ps.
Qed.

(** X4.  The codecs of [List[T]] are built from those of [T], and a list
    comes back from its JSON array when each of its items comes back through
    the codecs of [T]. *)
Theorem X4_list_round_trip :
  forall item_type g p items,
    create_serializer (tList item_type) = Ok g ->
    create_deserializer (tList item_type) = Ok p ->
    exists generator item_parser,
      create_serializer item_type = Ok generator
      /\ create_deserializer item_type = Ok item_parser
      /\ g = TypedListSerializer generator
      /\ p = ListDeserializer item_type item_parser
      /\ (Forall (round_trips generator item_parser) items ->
          round_trips g p (VList items)).
Proof.
  intros t g p items G P. cbn in G, P. rbind_inv G. rbind_inv P.
  injection G as <-. injection P as <-.
  exists a, a0. repeat split; try assumption.
  intros F. destruct (mapM_round_trip _ _ _ F) as (js & Gs & Ps).
  exists (JList js). rewrite generate_TypedListSerializer, parse_ListDeserializer.
  now rewrite Gs, Ps.
Qed.

Lemma zipM_round_trip (gs : list Serializer) (ps : list Deserializer)
    (items : list PyVal) :
  Forall3 (round_trips) gs ps items ->
  exists js,
    zipM generate gs items = Ok js /\ zipM parse ps js = Ok items
    /\ List.length js = List.length ps.
Proof.
  induction 1 as [|g p x gs ps items (j & G & P) _ (js & Gs & Ps & L)].
  - now exists [].
  - exists (j :: js). cbn [zipM List.length]. now rewrite G, Gs, P, Ps, L.
Qed.

(** X5.  The codecs of [Tuple[T1, ..., Tn]] are built from those of the item
    types, in their order, and a tuple of [n] items comes back from its JSON
    array when each item comes back through the codecs of its type. *)
Theorem X5_tuple_round_trip :
  forall item_types g p items,
    create_serializer (tTuple item_types) = Ok g ->
    create_deserializer (tTuple item_types) = Ok p ->
    exists item_generators item_parsers,
      Forall2 (fun t generator => create_serializer t = Ok generator)
        item_types item_generators
      /\ Forall2 (fun t parser => create_deserializer t = Ok parser)
           item_types item_parsers
      /\ g = TypedTupleSerializer item_generators
      /\ p = TupleDeserializer item_types item_parsers
      /\ (Forall3 round_trips item_generators item_parsers items ->
          round_trips g p (VTuple items)).
Proof.
  intros ts g p items G P. cbn in G, P. rbind_inv G. rbind_inv P.
  injection G as <-. injection P as <-.
  exists a, a0. split; [now apply mapM_Ok | split; [now apply mapM_Ok|]].
  split; [reflexivity | split; [reflexivity|]].
  intros F. destruct (zipM_round_trip _ _ _ F) as (js & Gs & Ps & L).
  exists (JList js). rewrite generate_TypedTupleSerializer, parse_TupleDeserializer.
  rewrite Gs, L, Nat.eqb_refl. cbn [negb rbind]. now rewrite Ps.
Qed.

(** X6.  [TypedTupleSerializer.generate] pairs the item serializers with
    the items of the tuple and stops at the shorter of the two: a tuple
    with more items than its type has is cut without an error.  A tuple whose
    length is not that of its type does therefore never come back: what is
    written for it is refused for its length, or gives a shorter tuple. *)
Theorem X6_tuple_length_mismatch :
  forall item_types item_generators item_parsers items j,
    List.length item_generators = List.length item_parsers ->
    List.length items <> List.length item_parsers ->
    generate (TypedTupleSerializer item_generators) (VTuple items) = Ok j ->
    (exists js,
       j = JList js
       /\ List.length js = Nat.min (List.length item_generators) (List.length items))
    /\ parse (TupleDeserializer item_types item_parsers) j <> Ok (VTuple items)
    /\ (List.length items < List.length item_parsers ->
        exists m, parse (TupleDeserializer item_types item_parsers) j
                  = Raise (mkexc JsonValueError m)).
Proof.
  intros ts gs ps items j L N G.
  rewrite generate_TypedTupleSerializer in G. rbind_inv G. injection G as <-.
  pose proof (zipM_length _ _ _ _ E) as La.
  split; [now exists a | split].
  - rewrite parse_TupleDeserializer.
    destruct (List.length a =? List.length ps) eqn:Q; cbn [negb]; [|discriminate].
    intros H. rbind_inv H. injection H as ->.
    pose proof (zipM_length _ _ _ _ E0) as Lb.
    apply Nat.eqb_eq in Q. lia.
  - intros Lt. rewrite parse_TupleDeserializer.
    assert (Q : (List.length a =? List.length ps) = false) by (apply Nat.eqb_neq; lia).
    rewrite Q. cbn [negb]. eexists. reflexivity.
Qed.

Lemma dict_of_fresh (pairs acc : list (string * JsonType)) :
  NoDup (Dict.keys acc ++ map fst pairs) ->
  fold_left (fun d kv => Dict.set d (fst kv) (snd kv)) pairs acc = acc ++ pairs.
Proof.
  revert acc. induction pairs as [|[k j] pairs IH]; intros acc ND; cbn [fold_left].
  - now rewrite app_nil_r.
  - cbn [fst snd map] in *.
    assert (F : Dict.get acc k = None).
    { apply DictFacts.get_None. intros I. apply NoDup_remove_2 in ND.
      apply ND. apply in_or_app. now left. }
    rewrite (DictFacts.set_fresh acc k j F), IH.
    + now rewrite <- app_assoc.
    + rewrite DictFacts.keys_app. cbn [Dict.keys map fst]. rewrite <- app_assoc. exact ND.
Qed.

Lemma dict_of_NoDup (pairs : list (string * JsonType)) :
  NoDup (map fst pairs) -> dict_of pairs = pairs.
Proof. intros ND. unfold dict_of. now rewrite dict_of_fresh. Qed.

Lemma generate_items_round_trip {K : Type} (key : K -> string) (py : K -> PyVal)
    (key_of : PyVal -> Result string) (key_type : PyType)
    (gv : Serializer) (pv : Deserializer) (items : list (K * PyVal)) :
  (forall kv, In kv items ->
     key_of (py (fst kv)) = Ok (key (fst kv))
     /\ call_key_type python_type_to_str key_type (key (fst kv)) = Ok (py (fst kv))) ->
  Forall (fun kv => round_trips gv pv (snd kv)) items ->
  exists pairs,
    generate_items key_of (generate gv) (map (fun kv => (py (fst kv), snd kv)) items)
    = Ok pairs
    /\ map fst pairs = map (fun kv => key (fst kv)) items
    /\ mapM (fun kv => let* k := call_key_type python_type_to_str key_type (fst kv) in
                       let* v := parse pv (snd kv) in Ok (k, v)) pairs
       = Ok (map (fun kv => (py (fst kv), snd kv)) items).
Proof.
  intros Hk F. unfold generate_items.
  induction F as [|[k x] items (j & G & P) _ IH].
  - exists []. repeat split.
  - destruct IH as (pairs & Gs & Ks & Ps); [intros; apply Hk; now right|].
    destruct (Hk (k, x) (or_introl eq_refl)) as [K1 K2]. cbn [fst snd] in *.
    exists ((key k, j) :: pairs). cbn [map]. rewrite !mapM_cons. cbn [fst snd].
    rewrite K1. cbn [rbind]. rewrite G. cbn [rbind].
    rewrite Gs. cbn [rbind].
    split; [reflexivity | split; [now rewrite Ks|]].
    rewrite K2. cbn [rbind]. rewrite P. cbn [rbind].
    now rewrite Ps.
Qed.

(** X7.  The codecs of [Dict[str, V]] are built from those of [V], and a
    dictionary with string keys comes back from its JSON object, with its
    keys in their order, when each of its values comes back through the
    codecs of [V]. *)
Theorem X7_str_dict_round_trip :
  forall value_type g p items,
    create_serializer (tDict tStr value_type) = Ok g ->
    create_deserializer (tDict tStr value_type) = Ok p ->
    exists generator value_parser,
      create_serializer value_type = Ok generator
      /\ create_deserializer value_type = Ok value_parser
      /\ g = TypedStringDictSerializer generator
      /\ p = DictDeserializer tStr value_type value_parser
      /\ (NoDup (map fst items) ->
          Forall (fun kv => round_trips generator value_parser (snd kv)) items ->
          round_trips g p (str_dict items)).
Proof.
  intros t g p items G P. cbn in G, P. rbind_inv G. rbind_inv P.
  injection G as <-. injection P as <-.
  exists a, a0. repeat split; try assumption.
  intros ND F.
  destruct (generate_items_round_trip (fun k => k) VStr py_key tStr a a0 items)
    as (pairs & Gs & Ks & Ps); [intros; split; reflexivity | exact F |].
  exists (JDict pairs). unfold str_dict.
  rewrite generate_TypedStringDictSerializer, Gs. cbn [rbind].
  rewrite dict_of_NoDup by (rewrite Ks; exact ND).
  split; [reflexivity|].
  rewrite parse_DictDeserializer, Ps. reflexivity.
Qed.

Lemma enum_lookup_member (name : string) (members : list (string * JsonType))
    (fields : list (string * PyType * FieldDefaults))
    (to_json : option (PyVal -> HookOutcome JsonType))
    (from_json : option (JsonType -> HookOutcome PyVal)) (n : string) (v : JsonType) :
  Forall (fun m => is_scalar (snd m) = true) members ->
  NoDup (map snd members) ->
  In (n, v) members ->
  enum_lookup python_type_to_str (tClass name (KEnum members) fields to_json from_json) v
  = Ok (VEnum name n v).
Proof.
  intros S ND I. unfold enum_lookup. cbn [enum_members class_name].
  rewrite Forall_forall in S.
  destruct (find _ members) as [[n' v']|] eqn:F.
  - apply find_some in F. destruct F as [I' Q]. cbn [snd] in Q.
    apply JsonType_eqb_scalar in Q; [|exact (S _ I') | exact (S _ I)]. subst v'.
    assert (E : (n', v) = (n, v))
      by (apply (NoDup_map_inj snd members); [assumption..| reflexivity]).
    now injection E as ->.
  - pose proof (find_none _ _ F _ I) as Q. cbn [snd] in Q.
    rewrite JsonType_eqb_scalar_refl in Q; [discriminate | exact (S _ I)].
Qed.

Lemma enum_lookup_unknown (name : string) (members : list (string * JsonType))
    (fields : list (string * PyType * FieldDefaults))
    (to_json : option (PyVal -> HookOutcome JsonType))
    (from_json : option (JsonType -> HookOutcome PyVal)) (data : JsonType) :
  Forall (fun m => is_scalar (snd m) = true) members ->
  is_scalar data = true ->
  ~ In data (map snd members) ->
  exists m,
    enum_lookup python_type_to_str (tClass name (KEnum members) fields to_json from_json)
      data
    = Raise (mkexc ValueError m).
Proof.
  intros S D N. unfold enum_lookup. cbn [enum_members].
  rewrite Forall_forall in S.
  destruct (find _ members) as [[n' v']|] eqn:F; [|eexists; reflexivity].
  apply find_some in F. destruct F as [I' Q]. cbn [snd] in Q.
  apply JsonType_eqb_scalar in Q; [|exact (S _ I') | exact D]. subst v'.
  exfalso. apply N. change data with (snd (n', data)). now apply in_map.
Qed.

(** X8.  The codecs of an enumeration whose member values are strings or
    integers, no two members having the same value: a member is written as
    its value and read back as that member, and a string or an integer that
    is the value of no member is refused with the [ValueError] of the
    enumeration, which is no error of the package. *)
Theorem X8_enum_round_trip :
  forall name members fields from_json,
    Forall (fun m => is_scalar (snd m) = true) members ->
    NoDup (map snd members) ->
    create_serializer (tClass name (KEnum members) fields None from_json)
    = Ok EnumSerializer
    /\ create_deserializer (tClass name (KEnum members) fields None from_json)
       = Ok (EnumDeserializer (tClass name (KEnum members) fields None from_json))
    /\ (forall n v,
          In (n, v) members ->
          generate EnumSerializer (VEnum name n v) = Ok v
          /\ parse (EnumDeserializer (tClass name (KEnum members) fields None from_json)) v
             = Ok (VEnum name n v))
    /\ (forall data,
          is_scalar data = true -> ~ In data (map snd members) ->
          exists m,
            parse (EnumDeserializer (tClass name (KEnum members) fields None from_json))
              data
            = Raise (mkexc ValueError m)).
Proof.
  intros name members fields from_json S ND.
  split; [reflexivity | split; [reflexivity | split]].
  - intros n v I. split; [reflexivity|]. now apply enum_lookup_member.
  - intros data D N. now apply enum_lookup_unknown.
Qed.

Lemma enum_value_types_str (name : string) (members : list (string * JsonType))
    (fields : list (string * PyType * FieldDefaults))
    (to_json : option (PyVal -> HookOutcome JsonType))
    (from_json : option (JsonType -> HookOutcome PyVal)) :
  members <> [] -> str_valued members ->
  enum_value_types (tClass name (KEnum members) fields to_json from_json) = [tStr].
Proof.
  intros NE S. unfold enum_value_types. cbn [enum_members].
  destruct members as [|m members]; [contradiction|].
  inversion S as [|? ? (s & Hs) S']; subst.
  cbn [map unique_types existsb]. rewrite Hs. cbn [type_of_json]. f_equal.
  apply unique_types_same; [reflexivity|].
  apply Forall_map. revert S'. apply Forall_impl. intros m' (s' & ->). reflexivity.
Qed.

(** X9.  The codecs of [Dict[E, V]] for an enumeration [E] whose member
    values are strings, no two members having the same value: they are
    built from the codecs of [V]; a key is written as the value of the
    member and read back as the member, so that a dictionary whose keys are
    members of [E] comes back when its values come back through the codecs
    of [V]. *)
Theorem X9_enum_dict_round_trip :
  forall name members fields to_json from_json value_type generator value_parser items,
    members <> [] -> str_valued members -> NoDup (map snd members) ->
    create_serializer value_type = Ok generator ->
    create_deserializer value_type = Ok value_parser ->
    create_serializer
      (tDict (tClass name (KEnum members) fields to_json from_json) value_type)
    = Ok (TypedEnumDictSerializer generator)
    /\ create_deserializer
         (tDict (tClass name (KEnum members) fields to_json from_json) value_type)
       = Ok (DictDeserializer (tClass name (KEnum members) fields to_json from_json)
               value_type value_parser)
    /\ ((forall kv, In kv items -> In (fst (fst kv), JStr (snd (fst kv))) members) ->
        NoDup (map (fun kv => snd (fst kv)) items) ->
        Forall (fun kv => round_trips generator value_parser (snd kv)) items ->
        round_trips (TypedEnumDictSerializer generator)
          (DictDeserializer (tClass name (KEnum members) fields to_json from_json)
             value_type value_parser)
          (enum_dict name items)).
Proof.
  intros name members fields to_json from_json t gv pv items NE S ND G P.
  pose proof (enum_value_types_str name members fields to_json from_json NE S) as V.
  split; [|split].
  - cbn -[enum_value_types TypedEnumDictSerializer_init]. rewrite G. cbn [rbind].
    unfold TypedEnumDictSerializer_init. now rewrite V.
  - cbn -[enum_value_types]. unfold _check_key_type.
    cbn [type_is issubclass_Enum isclass rbind]. rewrite V.
    cbn [List.length Nat.eqb negb pop last type_is rbind]. now rewrite P.
  - intros M NDk F.
    assert (Sc : Forall (fun m => is_scalar (snd m) = true) members).
    { revert S. apply Forall_impl. intros m (s & ->). reflexivity. }
    destruct (generate_items_round_trip (fun k : string * string => snd k)
                (fun k => VEnum name (fst k) (JStr (snd k))) enum_key
                (tClass name (KEnum members) fields to_json from_json) gv pv items)
      as (pairs & Gs & Ks & Ps).
    { intros kv I. split; [reflexivity|].
      unfold call_key_type. cbn [type_is].
      apply enum_lookup_member; [assumption.. |].
      destruct kv as [[n s] x]. exact (M _ I). }
    { exact F. }
    exists (JDict pairs). unfold enum_dict.
    rewrite generate_TypedEnumDictSerializer, Gs. cbn [rbind].
    rewrite dict_of_NoDup by (rewrite Ks; exact NDk).
    split; [reflexivity|].
    rewrite parse_DictDeserializer, Ps. reflexivity.
Qed.

(** X10.  [ListDeserializer.parse] reads the items of the array in their
    order with the deserializer of the item type: it returns the list of
    their values when every item is read, and otherwise raises the
    exception of the first item that is not, so that one item of the wrong
    kind makes the whole array an input of the wrong shape. *)
Theorem X10_list_parse :
  forall item_type item_parser,
    (forall items v,
       parse (ListDeserializer item_type item_parser) (JList items) = Ok v
       <-> exists values,
             v = VList values
             /\ Forall2 (fun j x => parse item_parser j = Ok x) items values)
    /\ (forall before j after e,
          Forall (fun b => exists x, parse item_parser b = Ok x) before ->
          parse item_parser j = Raise e ->
          parse (ListDeserializer item_type item_parser) (JList (before ++ j :: after))
          = Raise e).
Proof.
  intros t p. split.
  - intros items v. rewrite parse_ListDeserializer. split.
    + intros H. rbind_inv H. injection H as <-. exists a. split; [reflexivity|].
      now apply mapM_Ok.
    + intros (values & -> & F). apply mapM_Ok in F. now rewrite F.
  - intros before j after e B J. rewrite parse_ListDeserializer.
    now rewrite (mapM_first_failure _ before j after e B J).
Qed.

(** X11.  A union does not go on to its next alternative after every
    failure.  An array whose length is not that of a tuple alternative, and
    a string or an integer that is no value of an enumeration alternative,
    end the union with the exception of that alternative
    ([JsonValueError], [ValueError]), whatever the alternatives after it
    would have made of the input. *)
Theorem X11_union_stops :
  forall member_types before after data,
    Forall (shape_mismatch python_type_to_str float_of_int b64decode uuid_parse data)
      before ->
    (forall item_types item_parsers items,
       data = JList items ->
       List.length items <> List.length item_parsers ->
       parse (UnionDeserializer member_types
                (before ++ TupleDeserializer item_types item_parsers :: after)) data
       = raise JsonValueError
           [Text "type `Tuple["; TypeNames (map python_type_to_str item_types);
            Text "]` expects a JSON `array` of length ";
            Number (List.length item_parsers);
            Text " but received length "; Number (List.length items)])
    /\ (forall name members fields to_json from_json,
          Forall (fun m => is_scalar (snd m) = true) members ->
          is_scalar data = true -> ~ In data (map snd members) ->
          exists m,
            parse (UnionDeserializer member_types
                     (before
                      ++ EnumDeserializer
                           (tClass name (KEnum members) fields to_json from_json)
                      :: after)) data
            = Raise (mkexc ValueError m)).
Proof.
  intros mts before after data B. split.
  - intros ts ps items -> N.
    rewrite parse_UnionDeserializer, parse_members_skip by assumption.
    cbn [parse_members]. rewrite parse_TupleDeserializer.
    apply Nat.eqb_neq in N. rewrite N. reflexivity.
  - intros name members fields to_json from_json S D N.
    rewrite parse_UnionDeserializer, parse_members_skip by assumption.
    cbn [parse_members].
    change (parse (EnumDeserializer
                     (tClass name (KEnum members) fields to_json from_json)) data)
      with (enum_lookup python_type_to_str
              (tClass name (KEnum members) fields to_json from_json) data).
    destruct (enum_lookup_unknown name members fields to_json from_json data S D N)
      as (m & ->).
    exists m. reflexivity.
Qed.

(** X12.  Every deserializer that tests the kind of its input raises
    [JsonTypeError] for a JSON value of another kind: [null] for [None],
    a boolean for [bool], an integer or a boolean for [int], a number or a
    boolean for [float], a string for [str], [bytes], the date and time
    types and [UUID], an array for a list, a set and a tuple, an object for
    a dictionary and for the three kinds of record.  A union catches this
    exception and tries its next alternative. *)
Theorem X12_kind_mismatch :
  forall p data,
    accepts_kind p data = Some false ->
    (exists m, parse p data = Raise (mkexc JsonTypeError m))
    /\ shape_mismatch python_type_to_str float_of_int b64decode uuid_parse data p.
Proof.
  intros p data H.
  assert (E : exists m, parse p data = Raise (mkexc JsonTypeError m)).
  { destruct p; cbn [accepts_kind] in H; try discriminate H;
      destruct data; try discriminate H; eexists; reflexivity. }
  split; [exact E|].
  destruct E as (m & E). exists (mkexc JsonTypeError m). split; [exact E | reflexivity].
Qed.

End Collections.

Ltac round_trip := eexists; split; vm_compute; reflexivity.

Lemma X4_list_round_trip_witness :
  round_trips Py.generate Py.parse
    (TypedListSerializer (TypedListSerializer IntSerializer))
    (ListDeserializer (tList tInt) (ListDeserializer tInt IntDeserializer))
    (VList [VList [VInt 1; VInt 2]; VList []]).
Proof.
  edestruct (X4_list_round_trip Lib.python_type_to_str Lib.python_field_to_json_property
               Lib.py_str Lib.float_of_int Lib.b64encode Lib.b64decode Lib.uuid_parse
               (Py.object_to_json Py.recursion_limit) (tList tInt) _ _
               [VList [VInt 1; VInt 2]; VList []] eq_refl eq_refl)
    as (generator & item_parser & G & P & Eg & Ep & H).
  injection G as <-. injection P as <-.
  apply H. repeat (constructor; [round_trip|]). constructor.
Defined.

Lemma X5_tuple_round_trip_witness :
  round_trips Py.generate Py.parse
    (TypedTupleSerializer [IntSerializer; StringSerializer])
    (TupleDeserializer [tInt; tStr] [IntDeserializer; StringDeserializer])
    (VTuple [VInt 7; VStr "seven"]).
Proof.
  edestruct (X5_tuple_round_trip Lib.python_type_to_str Lib.python_field_to_json_property
               Lib.py_str Lib.float_of_int Lib.b64encode Lib.b64decode Lib.uuid_parse
               (Py.object_to_json Py.recursion_limit) [tInt; tStr] _ _
               [VInt 7; VStr "seven"] eq_refl eq_refl)
    as (gs & ps & G & P & Eg & Ep & H).
  injection Eg as <-. injection Ep as <-.
  apply H. repeat (constructor; [round_trip|]). constructor.
Defined.

Lemma X6_tuple_length_mismatch_witness :
  Py.generate (TypedTupleSerializer [IntSerializer; IntSerializer])
    (VTuple [VInt 1; VInt 2; VInt 3]) = Ok (JList [JInt 1; JInt 2])
  /\ Py.parse (TupleDeserializer [tInt; tInt] [IntDeserializer; IntDeserializer])
       (JList [JInt 1; JInt 2])
     <> Ok (VTuple [VInt 1; VInt 2; VInt 3]).
Proof.
  split; [reflexivity|].
  refine (proj1 (proj2 (X6_tuple_length_mismatch Lib.python_type_to_str
                          Lib.python_field_to_json_property Lib.py_str Lib.float_of_int
                          Lib.b64encode Lib.b64decode Lib.uuid_parse
                          (Py.object_to_json Py.recursion_limit)
                          [tInt; tInt] [IntSerializer; IntSerializer]
                          [IntDeserializer; IntDeserializer]
                          [VInt 1; VInt 2; VInt 3] (JList [JInt 1; JInt 2]) _ _ _)));
    [reflexivity | cbn; lia | reflexivity].
Defined.

Lemma X7_str_dict_round_trip_witness :
  round_trips Py.generate Py.parse
    (TypedStringDictSerializer IntSerializer) (DictDeserializer tStr tInt IntDeserializer)
    (str_dict [("a", VInt 1); ("b", VInt 2)]).
Proof.
  edestruct (X7_str_dict_round_trip Lib.python_type_to_str
               Lib.python_field_to_json_property
               Lib.py_str Lib.float_of_int Lib.b64encode Lib.b64decode Lib.uuid_parse
               (Py.object_to_json Py.recursion_limit) tInt _ _
               [("a", VInt 1); ("b", VInt 2)] eq_refl eq_refl)
    as (generator & value_parser & G & P & Eg & Ep & H).
  injection G as <-. injection P as <-.
  apply H; [nodup_strings | repeat (constructor; [round_trip|]); constructor].
Defined.

Lemma X8_enum_round_trip_witness :
  Py.parse (EnumDeserializer Sample.Suit) (JInt 3) = Ok (VEnum "Suit" "Clubs" (JInt 3))
  /\ (exists m, Py.parse (EnumDeserializer Sample.Suit) (JInt 5)
                = Raise (mkexc ValueError m)).
Proof.
  edestruct (X8_enum_round_trip Lib.python_type_to_str Lib.python_field_to_json_property
               Lib.py_str Lib.float_of_int Lib.b64encode Lib.b64decode Lib.uuid_parse
               (Py.object_to_json Py.recursion_limit) "Suit"
               [("Diamonds", JInt 1); ("Hearts", JInt 2); ("Clubs", JInt 3);
                ("Spades", JInt 4)] [] None)
    as (_ & _ & M & U).
  - repeat constructor.
  - repeat (constructor; [cbn; intuition discriminate|]); constructor.
  - split.
    + apply (M "Clubs" (JInt 3)). cbn. tauto.
    + apply (U (JInt 5)); [reflexivity | cbn; intuition discriminate].
Defined.

Lemma X9_enum_dict_round_trip_witness :
  round_trips Py.generate Py.parse
    (TypedEnumDictSerializer IntSerializer)
    (DictDeserializer Sample.Side tInt IntDeserializer)
    (enum_dict "Side" [("RIGHT", "R", VInt 1); ("LEFT", "L", VInt 2)]).
Proof.
  edestruct (X9_enum_dict_round_trip Lib.python_type_to_str
               Lib.python_field_to_json_property
               Lib.py_str Lib.float_of_int Lib.b64encode Lib.b64decode Lib.uuid_parse
               (Py.object_to_json Py.recursion_limit) "Side"
               [("LEFT", JStr "L"); ("RIGHT", JStr "R")] [] None None tInt
               IntSerializer IntDeserializer
               [("RIGHT", "R", VInt 1); ("LEFT", "L", VInt 2)])
    as (_ & _ & H).
  - discriminate.
  - repeat (constructor; [eexists; reflexivity|]); constructor.
  - repeat (constructor; [cbn; intuition discriminate|]); constructor.
  - reflexivity.
  - reflexivity.
  - apply H.
    + intros kv [<- | [<- | []]]; cbn; tauto.
    + nodup_strings.
    + repeat (constructor; [round_trip|]); constructor.
Defined.

Lemma X10_list_parse_witness :
  Py.parse (ListDeserializer tInt IntDeserializer) (JList [JInt 1; JStr "2"; JNull])
  = expects "`int` type" "integer data as JSON `number`" (JStr "2").
Proof.
  refine (proj2 (X10_list_parse Lib.python_type_to_str Lib.float_of_int Lib.b64decode
                   Lib.uuid_parse tInt IntDeserializer)
            [JInt 1] (JStr "2") [JNull] _ _ eq_refl).
  constructor; [exists (VInt 1); reflexivity | constructor].
Defined.

Lemma X11_union_stops_witness :
  Py.parse (UnionDeserializer [tInt; tTuple [tInt; tInt]; tList tInt]
              [IntDeserializer;
               TupleDeserializer [tInt; tInt] [IntDeserializer; IntDeserializer];
               ListDeserializer tInt IntDeserializer])
    (JList [JInt 1; JInt 2; JInt 3])
  = raise JsonValueError
      [Text "type `Tuple["; TypeNames ["int"; "int"];
       Text "]` expects a JSON `array` of length "; Number 2;
       Text " but received length "; Number 3]
  /\ Py.parse (ListDeserializer tInt IntDeserializer) (JList [JInt 1; JInt 2; JInt 3])
     = Ok (VList [VInt 1; VInt 2; VInt 3]).
Proof.
  split; [|reflexivity].
  refine (proj1 (X11_union_stops Lib.python_type_to_str Lib.float_of_int Lib.b64decode
                   Lib.uuid_parse [tInt; tTuple [tInt; tInt]; tList tInt]
                   [IntDeserializer] [ListDeserializer tInt IntDeserializer]
                   (JList [JInt 1; JInt 2; JInt 3]) _)
            [tInt; tInt] [IntDeserializer; IntDeserializer] [JInt 1; JInt 2; JInt 3]
            eq_refl _).
  - constructor; [|constructor]. eexists. split; reflexivity.
  - cbn. lia.
Defined.

Lemma X12_kind_mismatch_witness :
  exists m,
    Py.parse (DataclassDeserializer Sample.SimpleValueWrapper
                [RequiredFieldDeserializer "value" "value" IntDeserializer])
      (JList [JInt 23])
    = Raise (mkexc JsonTypeError m).
Proof.
  exact (proj1 (X12_kind_mismatch Lib.python_type_to_str Lib.float_of_int Lib.b64decode
                  Lib.uuid_parse
                  (DataclassDeserializer Sample.SimpleValueWrapper
                     [RequiredFieldDeserializer "value" "value" IntDeserializer])
                  (JList [JInt 23]) eq_refl)).
Defined.

(** ** Dates and times: what is written is read back *)

Module OffsetFacts.
Import Str StrFacts datetime DatetimeFacts.

Lemma offset_fields_bounds (o : tzinfo) :
  check_tzinfo (Some o) = true ->
  let '(hh, mm, ss, us) := offset_fields o in
  ((hh < 24) /\ (mm < 60) /\ (ss < 60) /\ (us < 1000000)
   /\ ((hh * 60 + mm) * 60 + ss) * 1000000 + us = Z.to_N (Z.abs o))%N.
Proof.
  unfold check_tzinfo, day_us, offset_fields. intros H.
  apply andb_true_iff in H. destruct H as [H1 H2].
  apply Z.ltb_lt in H1, H2.
  set (a := Z.to_N (Z.abs o)).
  assert (Ha : (a < 86400000000)%N) by (unfold a; lia).
  pose proof (N.Div0.div_mod a 3600000000) as D1.
  pose proof (N.mod_upper_bound a 3600000000 ltac:(discriminate)) as B1.
  set (r := (a mod 3600000000)%N) in *.
  pose proof (N.Div0.div_mod r 60000000) as D2.
  pose proof (N.mod_upper_bound r 60000000 ltac:(discriminate)) as B2.
  set (r' := (r mod 60000000)%N) in *.
  pose proof (N.Div0.div_mod r' 1000000) as D3.
  pose proof (N.mod_upper_bound r' 1000000 ltac:(discriminate)) as B3.
  generalize dependent (a / 3600000000)%N. intros hh D1.
  generalize dependent (r / 60000000)%N. intros mm D2.
  generalize dependent (r' / 1000000)%N. intros ss D3.
  generalize dependent (r' mod 1000000)%N. intros us D3 B3.
  repeat split; lia.
Qed.

Lemma format_offset_body (o : tzinfo) :
  check_tzinfo (Some o) = true ->
  format_offset (Some o) = (if (o <? 0)%Z then "-" else "+") +++ offset_body o.
Proof.
  intros V. pose proof (offset_fields_bounds o V) as B.
  unfold format_offset, offset_body, offset_fields in *. cbv zeta in *.
  destruct B as (Bh & Bm & Bs & Bu & _).
  unfold format_time.
  rewrite !zfill_digits by (cbn; lia).
  destruct ((_ =? 0) && (_ =? 0))%N; [|reflexivity].
  now rewrite append_empty_r.
Qed.

Lemma parse_hh_mm (hh mm : N) :
  (hh < 100)%N -> (mm < 100)%N ->
  parse_hh_mm_ss_ff (digits 2 hh +++ ":" +++ digits 2 mm) = Some (hh, mm, 0%N, 0%N).
Proof.
  intros Hh Hm.
  pose proof (parse_int_digits 2 hh ltac:(lia) Hh) as Ph.
  pose proof (parse_int_digits 2 mm ltac:(lia) Hm) as Pm.
  rewrite !digits2 in *. unfold parse_hh_mm_ss_ff.
  cbn -[parse_int]. rewrite Ph. cbn -[parse_int]. rewrite Pm. reflexivity.
Qed.

Lemma offset_body_spec (o : tzinfo) :
  check_tzinfo (Some o) = true ->
  parse_hh_mm_ss_ff (offset_body o) = Some (offset_fields o)
  /\ no_sign (offset_body o)
  /\ (String.length (offset_body o) = 5 \/ String.length (offset_body o) = 8
      \/ String.length (offset_body o) = 15)
  /\ exists n, last_char (offset_body o) = Some (digit_char n).
Proof.
  intros V. pose proof (offset_fields_bounds o V) as B.
  unfold offset_body. destruct (offset_fields o) as [[[hh mm] ss] us].
  destruct B as (Bh & Bm & Bs & Bu & _).
  destruct ((ss =? 0) && (us =? 0))%N eqn:Z.
  - apply andb_true_iff in Z. destruct Z as [Zs Zu].
    apply N.eqb_eq in Zs, Zu. subst ss us.
    split; [apply parse_hh_mm; lia | split; [|split]].
    + repeat first [ apply no_sign_digits | (split; reflexivity) | apply no_sign_app ].
    + left. rewrite !length_append, !length_digits. reflexivity.
    + exists mm. rewrite !last_char_app by (rewrite digits2; discriminate).
      apply last_char_digits.
  - split; [apply parse_format_time; lia | split; [|split]].
    + apply no_sign_format_time; lia.
    + unfold format_time. rewrite !zfill_digits by (cbn; lia).
      destruct (us =? 0)%N; rewrite !length_append, !length_digits; cbn; lia.
    + unfold format_time. rewrite !zfill_digits by (cbn; lia).
      destruct (us =? 0)%N.
      * exists ss. rewrite append_empty_r.
        rewrite <- !append_assoc. rewrite last_char_app by (rewrite digits2; discriminate).
        apply last_char_digits.
      * exists us. rewrite <- !append_assoc.
        rewrite last_char_app by discriminate. apply last_char_digits.
Qed.

Lemma slice_from_1 (c : ascii) (s : string) : slice_from 1 (String c s) = s.
Proof. unfold slice_from. cbn [String.length Nat.sub substring]. rewrite Nat.sub_0_r. apply substring_all. Qed.

Lemma parse_isoformat_time_offset (tstr : string) (c : N * N * N * N) (o : tzinfo) :
  2 <= String.length tstr -> no_sign tstr ->
  parse_hh_mm_ss_ff tstr = Some c ->
  check_tzinfo (Some o) = true ->
  parse_isoformat_time (tstr +++ format_offset (Some o)) = Some (c, Some o).
Proof.
  intros L [S1 S2] P V.
  destruct (offset_body_spec o V) as (Pb & [B1 B2] & Lb & _).
  pose proof (offset_fields_bounds o V) as Bo.
  rewrite (format_offset_body o V).
  unfold parse_isoformat_time.
  assert (L' : (2 <=? String.length
                        (tstr +++ (if (o <? 0)%Z then "-" else "+") +++ offset_body o))
               = true).
  { apply Nat.leb_le. rewrite length_append. lia. }
  rewrite L'. cbn [guard bind].
  assert (F : match find "-" (tstr +++ (if (o <? 0)%Z then "-" else "+") +++ offset_body o)
              with
              | Some i => Some i
              | None => find "+" (tstr +++ (if (o <? 0)%Z then "-" else "+")
                                  +++ offset_body o)
              end = Some (String.length tstr)).
  { rewrite !find_app, S1, S2.
    destruct (o <? 0)%Z; cbn [append find Ascii.eqb Bool.eqb option_map].
    - now rewrite Nat.add_0_r.
    - rewrite B1. cbn [option_map]. now rewrite Nat.add_0_r. }
  rewrite F. rewrite slice_app_l by reflexivity. rewrite P. cbn [bind].
  destruct c as [[[hh mm] ss] us].
  replace (S (String.length tstr)) with (String.length tstr + 1) by lia.
  rewrite slice_from_app_plus, slice_app_at.
  assert (T : slice_from 1 ((if (o <? 0)%Z then "-" else "+") +++ offset_body o)
              = offset_body o)
    by (destruct (o <? 0)%Z; cbn [append]; apply slice_from_1).
  rewrite T.
  assert (G : ((String.length (offset_body o) =? 5) || (String.length (offset_body o) =? 8)
               || (String.length (offset_body o) =? 15)) = true).
  { destruct Lb as [-> | [-> | ->]]; reflexivity. }
  rewrite G. cbn [guard bind]. rewrite Pb. cbn [bind].
  destruct (offset_fields o) as [[[zh zm] zs] zus].
  destruct Bo as (_ & _ & _ & _ & R). rewrite R.
  assert (O : ((if String.eqb
                      (slice 0 1 ((if (o <? 0)%Z then "-" else "+") +++ offset_body o)) "-"
                then -1 else 1) * Z.of_N (Z.to_N (Z.abs o)))%Z = o).
  { destruct (o <? 0)%Z eqn:Sg; cbn [append slice Nat.sub substring];
      rewrite substring_0_0; cbn [String.eqb Ascii.eqb Bool.eqb];
      [apply Z.ltb_lt in Sg | apply Z.ltb_ge in Sg]; lia. }
  rewrite O. unfold tzinfo in *. rewrite V. reflexivity.
Qed.

Lemma valid_time_bounds (t : time) :
  valid_time t = true ->
  ((t_hour t < 100) /\ (t_minute t < 100) /\ (t_second t < 100)
   /\ (t_microsecond t < 1000000))%N.
Proof.
  unfold valid_time, check_time_fields.
  rewrite !andb_true_iff, !N.leb_le. lia.
Qed.

Lemma parse_isoformat_time_format (hh mm ss us : N) (tz : option tzinfo) :
  (hh < 100)%N -> (mm < 100)%N -> (ss < 100)%N -> (us < 1000000)%N ->
  check_tzinfo tz = true ->
  parse_isoformat_time (format_time hh mm ss us +++ format_offset tz)
  = Some (hh, mm, ss, us, tz).
Proof.
  intros Hh Hm Hs Hu V.
  pose proof (length_format_time hh mm ss us Hh Hm Hs) as L.
  destruct tz as [o|].
  - apply parse_isoformat_time_offset; [lia | | | exact V].
    + now apply no_sign_format_time.
    + now apply parse_format_time.
  - cbn [format_offset]. rewrite append_empty_r.
    apply parse_isoformat_time_naive; [lia | |].
    + now apply no_sign_format_time.
    + now apply parse_format_time.
Qed.

(** [time.fromisoformat] reads what [time.isoformat] writes. *)
Lemma time_fromisoformat_isoformat (t : time) :
  valid_time t = true -> time_fromisoformat (time_isoformat t) = Some t.
Proof.
  intros V. pose proof (valid_time_bounds t V) as (Bh & Bm & Bs & Bu).
  unfold valid_time in V. apply andb_true_iff in V. destruct V as [V1 V2].
  unfold time_fromisoformat, time_isoformat.
  rewrite parse_isoformat_time_format by assumption. cbn [bind].
  rewrite V1. cbn [guard bind]. now destruct t.
Qed.

(** [datetime.fromisoformat] reads what [datetime.isoformat] writes. *)
Lemma fromisoformat_isoformat (d : datetime) :
  valid_datetime d = true -> fromisoformat (isoformat d) = Some d.
Proof.
  intros V. pose proof (valid_datetime_bounds d V) as B.
  pose proof (length_format_time (hour d) (minute d) (second d) (microsecond d)
                ltac:(lia) ltac:(lia) ltac:(lia)) as L.
  rewrite isoformat_parts by assumption.
  rewrite (fromisoformat_parts d _ (dt_tzinfo d) V).
  - now destruct d.
  - apply nonempty_length. rewrite length_append. unfold time_part. lia.
  - unfold time_part. apply parse_isoformat_time_format; try lia.
    unfold valid_datetime in V. now apply andb_true_iff in V.
Qed.

Lemma isoformat_last_char (d : datetime) (o : tzinfo) :
  valid_datetime d = true -> dt_tzinfo d = Some o ->
  exists n, last_char (isoformat d) = Some (digit_char n).
Proof.
  intros V Z.
  assert (Vo : check_tzinfo (Some o) = true).
  { unfold valid_datetime in V. apply andb_true_iff in V. now rewrite Z in V. }
  destruct (offset_body_spec o Vo) as (_ & _ & Lb & n & Ln).
  exists n. rewrite isoformat_parts, Z, (format_offset_body o Vo) by assumption.
  rewrite <- Ln.
  assert (NE : offset_body o <> "").
  { intros E. rewrite E in Lb. cbn in Lb. lia. }
  rewrite !last_char_app; try reflexivity; try assumption.
  - destruct (o <? 0)%Z; destruct (offset_body o); try discriminate; contradiction.
  - destruct (time_part d +++ (if (o <? 0)%Z then "-" else "+") +++ offset_body o) eqn:E;
      [|discriminate].
    destruct (time_part d); [|discriminate]. cbn [append] in E.
    destruct (o <? 0)%Z; discriminate.
Qed.

Lemma date_fromisoformat_isoformat (d : date) :
  valid_date d = true -> date_fromisoformat (date_isoformat d) = Some d.
Proof.
  intros V. unfold valid_date in V. pose proof V as V'.
  unfold check_date_fields in V'. rewrite !andb_true_iff, !N.leb_le in V'.
  assert (Bd : (days_in_month (d_year d) (d_month d) <= 31)%N).
  { unfold days_in_month.
    destruct (d_month d =? 2)%N; [destruct (is_leap (d_year d)); lia|].
    destruct ((d_month d =? 4) || (d_month d =? 6) || (d_month d =? 9)
              || (d_month d =? 11))%N; lia. }
  unfold date_fromisoformat, date_isoformat.
  rewrite !zfill_digits by (cbn; lia).
  rewrite !length_append, !length_digits. cbn [String.length Nat.add Nat.eqb guard bind].
  rewrite parse_isoformat_date_format by lia. cbn [bind].
  rewrite V. cbn [guard bind]. now destruct d.
Qed.

End OffsetFacts.

Section DateTimeRoundTrips.
Import datetime StrFacts DatetimeFacts OffsetFacts.

(** X13.  Every timestamp with a time zone comes back: what
    [DateTimeSerializer] writes for it, with ["Z"] for the offset zero or
    with the numeric offset otherwise, is read by [DateTimeDeserializer] as
    the same date, time and offset. *)
Theorem X13_datetime_round_trip :
  forall d,
    valid_datetime d = true -> dt_tzinfo d <> None ->
    exists s,
      DateTimeSerializer_generate (VDateTime d) = Ok (JStr s)
      /\ DateTimeDeserializer_parse (JStr s) = Ok (VDateTime d).
Proof.
  intros d V Z. destruct (dt_tzinfo d) as [o|] eqn:T; [clear Z | contradiction].
  unfold DateTimeSerializer_generate. cbn [py_tzinfo py_isoformat rbind]. rewrite T.
  destruct (Str.endswith (isoformat d) "+00:00") eqn:E.
  - apply endswith_inv in E. destruct E as [body E].
    exists (Str.drop_last 6 (isoformat d) +++ "Z"). split; [reflexivity|].
    rewrite E. change 6 with (String.length "+00:00"). rewrite drop_last_app.
    rewrite parse_Z_as_offset, <- E.
    unfold DateTimeDeserializer_parse.
    rewrite E, endswith_offset_not_Z, <- E, fromisoformat_isoformat by assumption.
    now rewrite T.
  - exists (isoformat d). split; [reflexivity|].
    unfold DateTimeDeserializer_parse.
    assert (NZ : Str.endswith (isoformat d) "Z" = false).
    { destruct (Str.endswith (isoformat d) "Z") eqn:EZ; [|reflexivity].
      apply endswith_last_char in EZ; [|discriminate].
      destruct (isoformat_last_char d o V T) as (n & Ln).
      rewrite Ln in EZ. injection EZ as EZ. now apply digit_char_not_Z in EZ. }
    rewrite NZ, fromisoformat_isoformat by assumption. now rewrite T.
Qed.

(** X14.  Every date and every time of day comes back through
    [DateSerializer] and [DateDeserializer], and through [TimeSerializer]
    and [TimeDeserializer]: they write and read the text of [isoformat].
    Unlike a timestamp, a time of day needs no time zone, and it keeps the
    offset it has. *)
Theorem X14_date_time_round_trip :
  (forall d,
     valid_date d = true ->
     DateSerializer_generate (VDate d) = Ok (JStr (date_isoformat d))
     /\ DateDeserializer_parse (JStr (date_isoformat d)) = Ok (VDate d))
  /\ (forall t,
        valid_time t = true ->
        TimeSerializer_generate (VTime t) = Ok (JStr (time_isoformat t))
        /\ TimeDeserializer_parse (JStr (time_isoformat t)) = Ok (VTime t)).
Proof.
  split.
  - intros d V. split; [reflexivity|].
    unfold DateDeserializer_parse. now rewrite date_fromisoformat_isoformat.
  - intros t V. split; [reflexivity|].
    unfold TimeDeserializer_parse. now rewrite time_fromisoformat_isoformat.
Qed.

End DateTimeRoundTrips.

Lemma X13_datetime_round_trip_witness :
  exists s,
    DateTimeSerializer_generate
      (VDateTime (datetime.mkdatetime 1989 10 23 1 45 50 250000 (Some 3600000000%Z)))
    = Ok (JStr s)
    /\ DateTimeDeserializer_parse (JStr s)
       = Ok (VDateTime (datetime.mkdatetime 1989 10 23 1 45 50 250000 (Some 3600000000%Z))).
Proof.
  apply (X13_datetime_round_trip
           (datetime.mkdatetime 1989 10 23 1 45 50 250000 (Some 3600000000%Z))).
  - reflexivity.
  - discriminate.
Defined.

Lemma X14_date_time_round_trip_witness :
  DateDeserializer_parse (JStr "2024-02-29") = Ok (VDate (datetime.mkdate 2024 2 29))
  /\ TimeDeserializer_parse (JStr "06:15:30-05:30")
     = Ok (VTime (datetime.mktime 6 15 30 0 (Some (-19800000000)%Z))).
Proof.
  split.
  - exact (proj2 (proj1 X14_date_time_round_trip (datetime.mkdate 2024 2 29) eq_refl)).
  - exact (proj2 (proj2 X14_date_time_round_trip
                    (datetime.mktime 6 15 30 0 (Some (-19800000000)%Z)) eq_refl)).
Defined.

(** ** Construction: the types that have codecs *)

(** Induction on a type through the arguments of its generic forms; a
    class is taken as a whole. *)
Lemma PyType_generic_ind (P : PyType -> Prop) :
  (forall t, match t with
             | tList _ | tDict _ _ | tSet _ | tTuple _ | tUnion _ | tAnnotated _ _ => False
             | _ => True
             end -> P t) ->
  (forall t, P t -> P (tList t)) ->
  (forall k v, P k -> P v -> P (tDict k v)) ->
  (forall t, P t -> P (tSet t)) ->
  (forall ts, Forall P ts -> P (tTuple ts)) ->
  (forall ts, Forall P ts -> P (tUnion ts)) ->
  (forall t m, P t -> P (tAnnotated t m)) ->
  forall t, P t.
Proof.
  intros Hatom HList HDict HSet HTuple HUnion HAnn.
  fix IH 1. intros t.
  destruct t as [ | | | | | | | | | | | | | | item | key value | member | items | members
                | values | inner metadata | name kind fields to_json from_json | | | | ];
    try (apply Hatom; exact I).
  - apply HList, IH.
  - apply HDict; apply IH.
  - apply HSet, IH.
  - apply HTuple. induction items as [|x items IHitems]; constructor; [apply IH | exact IHitems].
  - apply HUnion. induction members as [|x members IHm]; constructor; [apply IH | exact IHm].
  - apply HAnn, IH.
Qed.

Section Construction2.
Variable python_type_to_str : PyType -> string.
Variable python_field_to_json_property : string -> option PyType -> string.

Lemma create_serializer_Tuple (item_types : list PyType) :
  create_serializer python_type_to_str python_field_to_json_property (tTuple item_types)
  = (let* item_generators :=
       mapM (create_serializer python_type_to_str python_field_to_json_property)
         item_types in
     Ok (TypedTupleSerializer item_generators)).
Proof. reflexivity. Qed.

Lemma create_deserializer_Tuple (item_types : list PyType) :
  create_deserializer python_type_to_str python_field_to_json_property (tTuple item_types)
  = (let* item_parsers :=
       mapM (create_deserializer python_type_to_str python_field_to_json_property)
         item_types in
     Ok (TupleDeserializer item_types item_parsers)).
Proof. reflexivity. Qed.

Local Abbreviation create_serializer :=
  (create_serializer python_type_to_str python_field_to_json_property).
Local Abbreviation create_deserializer :=
  (create_deserializer python_type_to_str python_field_to_json_property).

Lemma mapM_total {A B} (f : A -> Result B) (l : list A) :
  Forall (fun x => exists y, f x = Ok y) l -> exists r, mapM f l = Ok r.
Proof.
  induction 1 as [|x l (y & Y) _ (r & R)]; [now exists []|].
  exists (y :: r). rewrite mapM_cons, Y, R. reflexivity.
Qed.

(** X15.  For every type that is built from the well-known types with
    [List], [Set], [Tuple], [Dict] with string keys, [Union] and
    [Annotated], a serializer and a deserializer are built: the
    construction raises nothing for such a type. *)
Theorem X15_plain_types_have_codecs :
  forall typ,
    plain_type typ = true ->
    (exists g, create_serializer typ = Ok g)
    /\ (exists p, create_deserializer typ = Ok p).
Proof.
  induction typ as [t A | t IH | k v IHk IHv | t IH | ts IH | ts IH | t m IH]
    using PyType_generic_ind; intros H.
  - destruct t; try discriminate H; try contradiction; split; eexists; reflexivity.
  - cbn [plain_type] in H. destruct (IH H) as [[g G] [p P]].
    split; eexists; cbn; [rewrite G | rewrite P]; reflexivity.
  - cbn [plain_type] in H. apply andb_true_iff in H. destruct H as [K V].
    destruct (IHv V) as [[g G] [p P]].
    split; eexists; cbn -[_check_key_type]; unfold _check_key_type; rewrite K;
      [rewrite G | cbn [rbind]; rewrite P]; reflexivity.
  - cbn [plain_type] in H. destruct (IH H) as [[g G] [p P]].
    split; eexists; cbn; [rewrite G | rewrite P]; reflexivity.
  - cbn [plain_type] in H. rewrite forallb_forall in H. rewrite Forall_forall in IH.
    destruct (mapM_total create_serializer ts) as [gs Gs].
    { apply Forall_forall. intros t I. exact (proj1 (IH t I (H t I))). }
    destruct (mapM_total create_deserializer ts) as [ps Ps].
    { apply Forall_forall. intros t I. exact (proj2 (IH t I (H t I))). }
    split; eexists; [rewrite create_serializer_Tuple, Gs
                    | rewrite create_deserializer_Tuple, Ps]; reflexivity.
  - cbn [plain_type] in H. rewrite forallb_forall in H. rewrite Forall_forall in IH.
    destruct (mapM_total create_deserializer ts) as [ps Ps].
    { apply Forall_forall. intros t I. exact (proj2 (IH t I (H t I))). }
    split; eexists; [reflexivity | rewrite create_deserializer_Union, Ps; reflexivity].
  - cbn [plain_type] in H. destruct (IH H) as [[g G] [p P]].
    split; eexists; [exact G | exact P].
Qed.

(** X16.  A key type of a dictionary that is neither [str] nor an
    enumeration is refused when the codec is built, in both directions: a
    class by a [TypeError] in the serializer and by [JsonTypeError] in the
    deserializer, and a type that is no class by
    a [TypeError] in both. *)
Theorem X16_invalid_key_type :
  forall key_type value_type,
    type_is key_type tStr = false ->
    (isclass key_type = true -> is_type_enum key_type = false ->
     (exists m, create_serializer (tDict key_type value_type)
                = Raise (mkexc TypeError m))
     /\ create_deserializer (tDict key_type value_type)
        = raise JsonTypeError
            ([Text "`type `"] ++ dict_container_type python_type_to_str key_type value_type
             ++ [Text "` has invalid key type, expected `str` or `enum.Enum` with string values"]))
    /\ (isclass key_type = false ->
        (exists m, create_serializer (tDict key_type value_type)
                   = Raise (mkexc TypeError m))
        /\ (exists m, create_deserializer (tDict key_type value_type)
                      = Raise (mkexc TypeError m))).
Proof.
  intros k v S. split.
  - intros C E.
    destruct k as [ | | | | | | | | | | | | | | item | key value | member | items | members
                  | values | inner metadata | name kind fields to_json from_json | | | | ];
      try discriminate S; try discriminate C;
      try (split; [eexists|]; reflexivity).
    destruct kind; try discriminate E; (split; [eexists|]; reflexivity).
  - intros C.
    destruct k; try discriminate C; split; eexists; reflexivity.
Qed.

Lemma unique_types_same_inv (t : PyType) (values : list LiteralValue) :
  unique_types [t] (map type_of_literal values) = [] ->
  Forall (fun v => type_is (type_of_literal v) t = true) values.
Proof.
  induction values as [|v values IH]; cbn [map unique_types existsb]; [constructor|].
  rewrite orb_false_r. destruct (type_is (type_of_literal v) t) eqn:E; [|discriminate].
  intros H. constructor; [exact E | now apply IH].
Qed.

Lemma type_is_literal (v w : LiteralValue) :
  type_is (type_of_literal v) (type_of_literal w) = true
  <-> type_of_literal v = type_of_literal w.
Proof. destruct v, w; cbn; split; intros H; try discriminate H; reflexivity. Qed.

Lemma literal_types_one (v : LiteralValue) (values : list LiteralValue) :
  unique_types [] (map type_of_literal (v :: values)) = [type_of_literal v]
  <-> Forall (fun w => type_of_literal w = type_of_literal v) values.
Proof.
  cbn [map unique_types existsb]. split.
  - intros H. injection H as H. apply unique_types_same_inv in H.
    revert H. apply Forall_impl. intros w. apply type_is_literal.
  - intros F. f_equal. apply unique_types_same.
    + now apply type_is_literal.
    + apply Forall_map. revert F. apply Forall_impl. intros w E. now symmetry.
Qed.

(** X17.  [LiteralSerializer] is built for the literal types whose values
    are all of one type, and it is the serializer of that type: a type
    with values of two types is refused with [TypeError].  The serializer
    writes whatever the serializer of the type writes, without looking
    whether the value is one of the literal's values. *)
Theorem X17_literal_serializer :
  (forall v values,
     Forall (fun w => type_of_literal w = type_of_literal v) values ->
     exists generator,
       well_known_serializer (type_of_literal v) = Some generator
       /\ create_serializer (tLiteral (v :: values)) = Ok (LiteralSerializer generator))
  /\ (forall values v w,
        In v values -> In w values -> type_of_literal v <> type_of_literal w ->
        exists m, create_serializer (tLiteral values) = Raise (mkexc TypeError m))
  /\ (forall pfjp py_str b64encode object_to_json generator obj,
        generate pfjp py_str b64encode object_to_json (LiteralSerializer generator) obj
        = generate pfjp py_str b64encode object_to_json generator obj).
Proof.
  split; [|split].
  - intros v values F. apply literal_types_one in F.
    assert (W : exists generator, well_known_serializer (type_of_literal v) = Some generator)
      by (destruct v; eexists; reflexivity).
    destruct W as [g W]. exists g. split; [exact W|].
    change (create_serializer (tLiteral (v :: values)))
      with (LiteralSerializer_init python_type_to_str (v :: values)).
    unfold LiteralSerializer_init. rewrite F. cbn [List.length Nat.eqb negb pop last].
    now rewrite W.
  - intros values v w Iv Iw N.
    change (create_serializer (tLiteral values))
      with (LiteralSerializer_init python_type_to_str values).
    unfold LiteralSerializer_init.
    destruct values as [|x values]; [contradiction|].
    destruct (unique_types [] (map type_of_literal (x :: values))) as [|t [|t' ts]] eqn:U;
      try (eexists; reflexivity).
    exfalso. cbn [map unique_types existsb] in U. injection U as <- U.
    assert (F : unique_types [] (map type_of_literal (x :: values)) = [type_of_literal x])
      by (cbn [map unique_types existsb]; now rewrite U).
    apply literal_types_one in F. rewrite Forall_forall in F.
    assert (A : forall u, In u (x :: values) -> type_of_literal u = type_of_literal x)
      by (intros u [<- | I]; [reflexivity | now apply F]).
    apply N. now rewrite (A v Iv), (A w Iw).
  - reflexivity.
Qed.

End Construction2.

Lemma X15_plain_types_have_codecs_witness :
  (exists g, Py.create_serializer
               (tDict tStr (tList (tUnion [tTuple [tInt; tDateTime]; tSet tBytes; tNone])))
             = Ok g)
  /\ (exists p, Py.create_deserializer
                  (tDict tStr (tList (tUnion [tTuple [tInt; tDateTime]; tSet tBytes; tNone])))
                = Ok p).
Proof.
  apply (X15_plain_types_have_codecs Lib.python_type_to_str
           Lib.python_field_to_json_property). reflexivity.
Defined.

Lemma X16_invalid_key_type_witness :
  (exists m, Py.create_serializer (tDict tInt tStr) = Raise (mkexc TypeError m))
  /\ Py.create_deserializer (tDict tInt tStr)
     = raise JsonTypeError
         [Text "`type `"; Text "Dict["; TypeName "int"; Text ", "; TypeName "str"; Text "]";
          Text "` has invalid key type, expected `str` or `enum.Enum` with string values"].
Proof.
  exact (proj1 (X16_invalid_key_type Lib.python_type_to_str
                  Lib.python_field_to_json_property tInt tStr eq_refl) eq_refl eq_refl).
Defined.

Lemma X17_literal_serializer_witness :
  (exists generator,
     well_known_serializer (type_of_literal (LitStr "val1")) = Some generator
     /\ Py.create_serializer (tLiteral [LitStr "val1"; LitStr "val2"])
        = Ok (LiteralSerializer generator))
  /\ (exists m, Py.create_serializer (tLiteral [LitStr "val1"; LitInt 2])
                = Raise (mkexc TypeError m)).
Proof.
  destruct (X17_literal_serializer Lib.python_type_to_str
              Lib.python_field_to_json_property) as (A & B & _).
  split.
  - apply (A (LitStr "val1") [LitStr "val2"]). repeat constructor.
  - apply (B [LitStr "val1"; LitInt 2] (LitStr "val1") (LitInt 2));
      cbn; try tauto; discriminate.
Defined.

(** ** [object_to_json] on JSON values *)

Section JsonValues.
Variable python_type_to_str : PyType -> string.
Variable python_field_to_json_property : string -> option PyType -> string.
Variable class_of : string -> PyType.
Variable py_str : PyVal -> string.
Variable b64encode : list Byte.byte -> string.

Hypothesis py_str_str : forall s, py_str (VStr s) = s.

Lemma object_to_json_S (depth : nat) (obj : PyVal) :
  object_to_json python_type_to_str python_field_to_json_property class_of py_str
    b64encode (S depth) obj
  = (let* generator := create_serializer python_type_to_str python_field_to_json_property
                         (type_of class_of obj) in
     generate python_field_to_json_property py_str b64encode
       (object_to_json python_type_to_str python_field_to_json_property class_of py_str
          b64encode depth) generator obj).
Proof. reflexivity. Qed.

Local Abbreviation object_to_json :=
  (object_to_json python_type_to_str python_field_to_json_property class_of py_str
     b64encode).

Lemma generate_items_cons (key_of : PyVal -> Result string)
    (value_of : PyVal -> Result JsonType) (k x : PyVal) (items : list (PyVal * PyVal)) :
  generate_items key_of value_of ((k, x) :: items)
  = (let* k' := key_of k in
     let* j := value_of x in
     let* rest := generate_items key_of value_of items in
     Ok ((k', j) :: rest)).
Proof.
  unfold generate_items. rewrite mapM_cons. cbn [fst snd].
  destruct (key_of k); [|reflexivity]. cbn [rbind].
  destruct (value_of x); reflexivity.
Qed.

Lemma as_json_VList (items : list PyVal) (j : JsonType) :
  as_json (VList items) = Some j ->
  exists js, j = JList js /\ Forall2 (fun x jx => as_json x = Some jx) items js.
Proof.
  cbn [as_json]. 
  match goal with |- option_map _ (?go items) = _ -> _ => set (G := go) end.
  destruct (G items) as [js|] eqn:E; cbn [option_map]; [|discriminate].
  intros H. injection H as <-. exists js. split; [reflexivity|].
  revert js E. induction items as [|x items IH]; intros js E; cbn in E.
  - injection E as <-. constructor.
  - destruct (as_json x) as [jx|] eqn:X; [|discriminate].
    fold (G items) in E. destruct (G items) as [js'|] eqn:E'; [|discriminate].
    injection E as <-. constructor; [exact X | now apply IH].
Qed.

Lemma as_json_VDict (items : list (PyVal * PyVal)) (j : JsonType) :
  as_json (VDict items) = Some j ->
  exists props,
    j = JDict props
    /\ Forall2 (fun kv p => fst kv = VStr (fst p) /\ as_json (snd kv) = Some (snd p))
         items props.
Proof.
  cbn [as_json].
  match goal with |- option_map _ (?go items) = _ -> _ => set (G := go) end.
  destruct (G items) as [props|] eqn:E; cbn [option_map]; [|discriminate].
  intros H. injection H as <-. exists props. split; [reflexivity|].
  revert props E. induction items as [|[k x] items IH]; intros props E; cbn in E.
  - injection E as <-. constructor.
  - destruct k; try discriminate E.
    destruct (as_json x) as [jx|] eqn:X; [|discriminate].
    fold (G items) in E. destruct (G items) as [props'|] eqn:E'; [|discriminate].
    injection E as <-. constructor; [now split | now apply IH].
Qed.


End JsonValues.


(** ** The values that the deserializers return *)

Section QuantifierFacts.
Context {A B : Type}.

Lemma allM_cons (f : A -> Result bool) (x : A) (l : list A) :
  allM f (x :: l) = (let* b := f x in if b then allM f l else Ok false).
Proof. reflexivity. Qed.

Lemma allM_true (f : A -> Result bool) (l : list A) :
  Forall (fun x => f x = Ok true) l -> allM f l = Ok true.
Proof.
  induction 1 as [|x l X _ IH]; [reflexivity|]. now rewrite allM_cons, X.
Qed.

Lemma allM_total (f : A -> Result bool) (l : list A) :
  Forall (fun x => exists b, f x = Ok b) l -> exists b, allM f l = Ok b.
Proof.
  induction 1 as [|x l (b & X) _ (r & R)]; [now exists true|].
  rewrite allM_cons, X. cbn [rbind]. destruct b; [now exists r | now exists false].
Qed.

Lemma anyM_total (f : A -> Result bool) (l : list A) :
  Forall (fun x => exists b, f x = Ok b) l -> exists b, anyM f l = Ok b.
Proof.
  induction 1 as [|x l (b & X) _ (r & R)]; [now exists false|].
  cbn [anyM]. rewrite X. cbn [rbind]. destruct b; [now exists true | now exists r].
Qed.

Lemma anyM_true (f : A -> Result bool) (l : list A) (x : A) :
  Forall (fun y => exists b, f y = Ok b) l ->
  In x l -> f x = Ok true -> anyM f l = Ok true.
Proof.
  induction 1 as [|y l (b & Y) _ IH]; intros I X; [contradiction|].
  cbn [anyM]. rewrite Y. cbn [rbind]. destruct b; [reflexivity|].
  destruct I as [-> | I]; [congruence | now apply IH].
Qed.

Lemma all2M_true (f : A -> B -> Result bool) (la : list A) (lb : list B) :
  Forall2 (fun a b => f a b = Ok true) la lb -> all2M f la lb = Ok true.
Proof.
  induction 1 as [|a b la lb X _ IH]; [reflexivity|]. cbn [all2M]. now rewrite X.
Qed.

Lemma all2M_total (f : A -> B -> Result bool) (la : list A) (lb : list B) :
  Forall (fun a => forall b, exists r, f a b = Ok r) la ->
  exists r, all2M f la lb = Ok r.
Proof.
  intros F. revert lb. induction F as [|a la X _ IH]; intros lb; [now exists true|].
  destruct lb as [|b lb]; [now exists true|].
  cbn [all2M]. destruct (X b) as (r & ->). cbn [rbind].
  destruct r; [apply IH | now exists false].
Qed.

End QuantifierFacts.

Lemma zipM_Ok {N I O} (run : N -> I -> Result O) (nodes : list N) (items : list I)
    (out : list O) :
  List.length items = List.length nodes ->
  zipM run nodes items = Ok out ->
  Forall2 (fun ni o => run (fst ni) (snd ni) = Ok o) (combine nodes items) out.
Proof.
  revert items out. induction nodes as [|n nodes IH]; intros [|x items] out L H;
    try discriminate L; cbn [zipM combine] in *.
  - injection H as <-. constructor.
  - rbind_inv H. rbind_inv H. injection H as <-. injection L as L.
    constructor; [exact E | now apply IH].
Qed.

Lemma In_set_of (seen items : list PyVal) (x : PyVal) :
  In x (set_of seen items) -> In x items.
Proof.
  revert seen. induction items as [|y items IH]; intros seen; cbn [set_of]; [tauto|].
  destruct (existsb (PyVal_eqb y) seen).
  - intros I. right. now apply (IH seen).
  - intros [<- | I]; [now left | right; now apply (IH (y :: seen))].
Qed.

Section TypedResults.
Variable python_type_to_str : PyType -> string.
Variable python_field_to_json_property : string -> option PyType -> string.
Variable class_of : string -> PyType.
Variable float_of_int : Z -> option PyFloat.
Variable b64decode : string -> option (list Byte.byte).
Variable uuid_parse : string -> option N.

Lemma parse_SetDeserializer (member_type : PyType) (member_parser : Deserializer)
    (items : list JsonType) :
  parse python_type_to_str float_of_int b64decode uuid_parse
    (SetDeserializer member_type member_parser) (JList items)
  = (let* values := mapM (parse python_type_to_str float_of_int b64decode uuid_parse
                            member_parser) items in
     Ok (VSet (set_of [] values))).
Proof. reflexivity. Qed.

Lemma create_deserializer_Dict (key_type value_type : PyType) :
  create_deserializer python_type_to_str python_field_to_json_property
    (tDict key_type value_type)
  = (let* _ := _check_key_type python_type_to_str key_type value_type in
     let* value_parser := create_deserializer python_type_to_str
                            python_field_to_json_property value_type in
     Ok (DictDeserializer key_type value_type value_parser)).
Proof. reflexivity. Qed.

Lemma is_generic_instance_List (items : list PyVal) (list_item_type : PyType) :
  is_generic_instance python_type_to_str class_of (VList items) (tList list_item_type)
  = allM (fun item =>
            is_generic_instance python_type_to_str class_of item list_item_type) items.
Proof. reflexivity. Qed.

Lemma is_generic_instance_Set (items : list PyVal) (set_member_type : PyType) :
  is_generic_instance python_type_to_str class_of (VSet items) (tSet set_member_type)
  = allM (fun item =>
            is_generic_instance python_type_to_str class_of item set_member_type) items.
Proof. reflexivity. Qed.

Lemma is_generic_instance_Dict (items : list (PyVal * PyVal))
    (key_type value_type : PyType) :
  is_generic_instance python_type_to_str class_of (VDict items)
    (tDict key_type value_type)
  = allM (fun kv =>
            let* k := is_generic_instance python_type_to_str class_of (fst kv) key_type in
            if k then
              is_generic_instance python_type_to_str class_of (snd kv) value_type
            else Ok false) items.
Proof. reflexivity. Qed.

Lemma is_generic_instance_Tuple (obj : PyVal) (item_types : list PyType) :
  is_generic_instance python_type_to_str class_of obj (tTuple item_types)
  = match tuple_items class_of obj with
    | Some items =>
        all2M (fun tuple_item_type item =>
                 is_generic_instance python_type_to_str class_of item tuple_item_type)
          item_types items
    | None => Ok false
    end.
Proof. reflexivity. Qed.

Lemma is_generic_instance_Union (obj : PyVal) (member_types : list PyType) :
  is_generic_instance python_type_to_str class_of obj (tUnion member_types)
  = anyM (fun member_type =>
            is_generic_instance python_type_to_str class_of obj member_type)
      member_types.
Proof. reflexivity. Qed.

Local Abbreviation create_deserializer :=
  (create_deserializer python_type_to_str python_field_to_json_property).
Local Abbreviation parse := (parse python_type_to_str float_of_int b64decode uuid_parse).
Local Abbreviation is_generic_instance :=
  (is_generic_instance python_type_to_str class_of).

Lemma is_generic_instance_total (typ : PyType) :
  checkable typ = true -> forall obj, exists b, is_generic_instance obj typ = Ok b.
Proof.
  induction typ as [t A | t IH | k v IHk IHv | t IH | ts IH | ts IH | t m IH]
    using PyType_generic_ind; intros C obj.
  - destruct t; try discriminate C; try contradiction; eexists; reflexivity.
  - cbn [checkable] in C. destruct obj; try (now exists false).
    rewrite is_generic_instance_List.
    apply allM_total. apply Forall_forall. intros x _. now apply IH.
  - cbn [checkable] in C. apply andb_true_iff in C. destruct C as [Ck Cv].
    destruct obj; try (now exists false).
    rewrite is_generic_instance_Dict.
    apply allM_total. apply Forall_forall. intros [x y] _. cbn [fst snd].
    destruct (IHk Ck x) as (b & ->). cbn [rbind].
    destruct b; [now apply IHv | now exists false].
  - cbn [checkable] in C. destruct obj; try (now exists false).
    rewrite is_generic_instance_Set.
    apply allM_total. apply Forall_forall. intros x _. now apply IH.
  - cbn [checkable] in C. rewrite forallb_forall in C. rewrite Forall_forall in IH.
    rewrite is_generic_instance_Tuple.
    destruct (tuple_items class_of obj); [|now exists false].
    apply all2M_total. apply Forall_forall. intros t I x. exact (IH t I (C t I) x).
  - cbn [checkable] in C. rewrite forallb_forall in C. rewrite Forall_forall in IH.
    rewrite is_generic_instance_Union. apply anyM_total.
    apply Forall_forall. intros t I. exact (IH t I (C t I) obj).
  - discriminate C.
Qed.

Lemma ClassDeserializer_parse_created
    (parse_fields : list (string * JsonType) -> list (string * PyVal) -> list string ->
                    Result (list (string * PyVal) * list string))
    (create : list (string * PyVal) -> Result PyVal)
    (class_type : PyType) (data : JsonType) (v : PyVal) :
  ClassDeserializer_parse python_type_to_str parse_fields create class_type data = Ok v ->
  exists field_values, create field_values = Ok v.
Proof.
  unfold ClassDeserializer_parse. destruct data; try discriminate.
  intros H. rbind_inv H. destruct a as [fv pp].
  destruct (nonempty _); [discriminate|]. now exists fv.
Qed.

Lemma parse_members_Some (ps : list Deserializer) (data : JsonType) (v : PyVal) :
  parse_members parse ps data = Some (Ok v) ->
  exists p, In p ps /\ parse p data = Ok v.
Proof.
  induction ps as [|p ps IH]; cbn [parse_members]; [discriminate|].
  destruct (parse p data) as [x|e] eqn:E.
  - intros H. injection H as <-. exists p. split; [now left | exact E].
  - destruct (is_shape_error e); [|discriminate].
    intros H. destruct (IH H) as (q & I & Q). exists q. split; [now right | exact Q].
Qed.

(** X19.  What a deserializer returns is a value of the type it was built
    for, as [is_generic_instance] tests it.  This holds for the well-known
    types, enumerations, named tuples and the classes without a
    [from_json] hook, and for the lists, dictionaries, sets, tuples and
    unions made of them. *)
Theorem X19_parse_returns_instance :
  forall typ p data v,
    checkable typ = true ->
    create_deserializer typ = Ok p ->
    parse p data = Ok v ->
    is_generic_instance v typ = Ok true.
Proof.
  induction typ as [t A | t IH | k vt IHk IHv | t IH | ts IH | ts IH | t m IH]
    using PyType_generic_ind; intros p data v C G P.
  - destruct t; try discriminate C; try contradiction; try discriminate G.
    1-10: injection G as <-; destruct data; try discriminate P; cbn in P;
      unfold py_float, DateTimeDeserializer_parse, DateDeserializer_parse,
        TimeDeserializer_parse in P;
      repeat match type of P with
             | context [match ?x with _ => _ end] => destruct x; try discriminate P
             end;
      injection P as <-; reflexivity.
    cbn [checkable] in C. cbn -[named_tuple_parsers dataclass_parsers typed_class_parsers]
      in G.
    destruct kind as [members|names| |].
    + injection G as <-. change (enum_lookup python_type_to_str
                                  (tClass name (KEnum members) fields to_json from_json)
                                  data = Ok v) in P.
      unfold enum_lookup in P. destruct (find _ _) as [[n x]|]; [|discriminate P].
      injection P as <-. cbn. now rewrite String.eqb_refl.
    + rbind_inv G. injection G as <-. rewrite parse_NamedTupleDeserializer in P.
      apply ClassDeserializer_parse_created in P. destruct P as (fv & P).
      cbn [create_named_tuple] in P. destruct (forallb _ fv); [|discriminate P].
      rbind_inv P. injection P as <-. cbn. now rewrite String.eqb_refl.
    + destruct from_json; [discriminate C|]. rbind_inv G. injection G as <-.
      rewrite parse_DataclassDeserializer in P.
      apply ClassDeserializer_parse_created in P. destruct P as (fv & P).
      injection P as <-. cbn. now rewrite String.eqb_refl.
    + destruct from_json; [discriminate C|]. rbind_inv G. injection G as <-.
      rewrite parse_TypedClassDeserializer in P.
      apply ClassDeserializer_parse_created in P. destruct P as (fv & P).
      injection P as <-. cbn. now rewrite String.eqb_refl.
  - cbn [checkable] in C. cbn in G. rbind_inv G. injection G as <-.
    destruct data; try discriminate P. rewrite parse_ListDeserializer in P.
    rbind_inv P. injection P as <-. apply mapM_Ok in E0.
    rewrite is_generic_instance_List. apply allM_true.
    induction E0 as [|j x items values X _ IHF]; constructor; [|exact IHF].
    exact (IH a j x C E X).
  - cbn [checkable] in C. apply andb_true_iff in C. destruct C as [Ck Cv].
    rewrite create_deserializer_Dict in G.
    apply rbind_Ok in G. destruct G as (u & Hcheck & G).
    apply rbind_Ok in G. destruct G as (vp & Hvp & G). injection G as <-.
    destruct data; try discriminate P. rewrite parse_DictDeserializer in P.
    apply rbind_Ok in P. destruct P as (items & Hitems & P). injection P as <-.
    apply mapM_Ok in Hitems.
    rewrite is_generic_instance_Dict. apply allM_true.
    induction Hitems as [|[s j] [x y] props items X _ IHF]; constructor; [|exact IHF].
    cbn [fst snd] in *.
    apply rbind_Ok in X. destruct X as (x' & Hx & X).
    apply rbind_Ok in X. destruct X as (y' & Hy & X). injection X as <- <-.
    assert (K : is_generic_instance x' k = Ok true).
    { unfold _check_key_type in Hcheck. unfold call_key_type in Hx.
      destruct (type_is k tStr) eqn:S.
      - injection Hx as <-. destruct k; try discriminate S. reflexivity.
      - apply rbind_Ok in Hcheck. destruct Hcheck as (is_enum & He & Hcheck).
        destruct is_enum; [|discriminate Hcheck].
        unfold issubclass_Enum in He.
        destruct (isclass k); [|discriminate He].
        destruct k as [ | | | | | | | | | | | | | | | | | | | | |n kind fs tj fj| | | | ];
          try discriminate He.
        destruct kind; try discriminate He.
        unfold enum_lookup in Hx. destruct (find _ _) as [[mn mv]|]; [|discriminate Hx].
        injection Hx as <-. cbn. now rewrite String.eqb_refl. }
    rewrite K. cbn [rbind]. exact (IHv vp j y' Cv Hvp Hy).
  - cbn [checkable] in C. cbn in G. rbind_inv G. injection G as <-.
    destruct data; try discriminate P. rewrite parse_SetDeserializer in P.
    rbind_inv P. injection P as <-. apply mapM_Ok in E0.
    rewrite is_generic_instance_Set. apply allM_true.
    apply Forall_forall. intros x I. apply In_set_of in I.
    clear -IH C E E0 I.
    induction E0 as [|j y items values X _ IHF]; [contradiction|].
    destruct I as [<- | I]; [exact (IH a j y C E X) | now apply IHF].
  - cbn [checkable] in C. rewrite forallb_forall in C. rewrite Forall_forall in IH.
    rewrite create_deserializer_Tuple in G. rbind_inv G. injection G as <-.
    apply mapM_Ok in E.
    destruct data; try discriminate P. rewrite parse_TupleDeserializer in P.
    destruct (List.length items =? List.length a) eqn:L; cbn [negb] in P;
      [|discriminate P].
    rbind_inv P. injection P as <-. apply Nat.eqb_eq in L.
    rewrite is_generic_instance_Tuple. cbn [tuple_items].
    apply all2M_true.
    revert items a0 L E0.
    induction E as [|t q ts qs Q _ IHF]; intros items values L Z.
    + cbn [zipM] in Z. injection Z as <-. constructor.
    + destruct items as [|j items]; [discriminate L|]. cbn [zipM] in Z.
      apply rbind_Ok in Z. destruct Z as (x & X & Z).
      apply rbind_Ok in Z. destruct Z as (xs & Xs & Z). injection Z as <-.
      injection L as L. constructor.
      * exact (IH t (or_introl eq_refl) q j x (C t (or_introl eq_refl)) Q X).
      * apply (IHF (fun t' I => IH t' (or_intror I)) (fun t' I => C t' (or_intror I))
                 items xs L Xs).
  - cbn [checkable] in C. rewrite forallb_forall in C. rewrite Forall_forall in IH.
    rewrite create_deserializer_Union in G. rbind_inv G. injection G as <-.
    apply mapM_Ok in E.
    rewrite parse_UnionDeserializer in P.
    destruct (parse_members parse a data) as [r|] eqn:M; [|discriminate P]. subst r.
    apply parse_members_Some in M. destruct M as (q & I & Q).
    rewrite is_generic_instance_Union.
    assert (T : exists t, In t ts /\ create_deserializer t = Ok q).
    { clear -E I. induction E as [|t q' ts qs X _ IHF]; [contradiction|].
      destruct I as [-> | I]; [exists t; split; [now left | exact X]|].
      destruct (IHF I) as (t' & I' & X'). exists t'. split; [now right | exact X']. }
    destruct T as (t & It & Gt).
    apply (anyM_true _ ts t); [|exact It | exact (IH t It q data v (C t It) Gt Q)].
    apply Forall_forall. intros t' I'. apply is_generic_instance_total. exact (C t' I').
  - discriminate C.
Qed.

Lemma all2M_firstn {A B} (f : A -> B -> Result bool) (la : list A) (lb : list B)
    (n : nat) :
  all2M f la lb = Ok true -> all2M f la (firstn n lb) = Ok true.
Proof.
  revert lb n. induction la as [|a la IH]; intros lb n H; [reflexivity|].
  destruct lb as [|b lb]; [now rewrite firstn_nil|].
  destruct n as [|n]; [reflexivity|].
  cbn [all2M firstn] in *. destruct (f a b) as [[|]|]; try discriminate H.
  cbn [rbind] in *. now apply IH.
Qed.

(** X20.  [is_generic_instance] pairs the items of a tuple with the item
    types and stops at the shorter of the two, so that it does not compare
    their numbers: with a tuple, every tuple of its first items is an
    instance of the same tuple type, and the empty tuple is an instance of
    every tuple type. *)
Theorem X20_tuple_instance_prefix :
  forall item_types,
    is_generic_instance (VTuple []) (tTuple item_types) = Ok true
    /\ (forall items n,
          is_generic_instance (VTuple items) (tTuple item_types) = Ok true ->
          is_generic_instance (VTuple (firstn n items)) (tTuple item_types) = Ok true).
Proof.
  intros ts. split.
  - rewrite is_generic_instance_Tuple. cbn [tuple_items]. now destruct ts.
  - intros items n. rewrite !is_generic_instance_Tuple. cbn [tuple_items].
    apply all2M_firstn.
Qed.

End TypedResults.

Lemma X19_parse_returns_instance_witness :
  is_generic_instance Lib.python_type_to_str Sample.class_of
    (VDict [(VStr "a", VTuple [VInt 1; VEnum "Side" "LEFT" (JStr "L")])])
    (tDict tStr (tTuple [tInt; Sample.Side]))
  = Ok true.
Proof.
  eapply (X19_parse_returns_instance Lib.python_type_to_str
            Lib.python_field_to_json_property Sample.class_of Lib.float_of_int
            Lib.b64decode Lib.uuid_parse
            (tDict tStr (tTuple [tInt; Sample.Side])) _
            (JDict [("a", JList [JInt 1; JStr "L"])])).
  - reflexivity.
  - reflexivity.
  - reflexivity.
Defined.

Lemma X20_tuple_instance_prefix_witness :
  is_generic_instance Lib.python_type_to_str Sample.class_of
    (VTuple [VInt 1]) (tTuple [tInt; tStr])
  = Ok true.
Proof.
  exact (proj2 (X20_tuple_instance_prefix Lib.python_type_to_str Sample.class_of
                  [tInt; tStr])
           [VInt 1; VStr "one"] 1 eq_refl).
Defined.

(** ** Optional and union types, referenced types, JSON names *)

Section UnionTypes.

(** X21.  A union type, annotated or not, is optional, or a union, or
    both: it is optional when [NoneType] is one of its members, a union
    when it has more than two members or [NoneType] is none of them, and so
    both when [NoneType] is one of more than two members.  [Optional[T]],
    for a [T] that is neither a union nor [NoneType], is optional and no
    union; a type that is no union is neither.
    [unwrap_union_types] does not take an annotation off, as [is_type_union]
    does, and raises [TypeError] for an annotated union. *)
Theorem X21_optional_or_union :
  forall typ,
    (_is_union_like (unwrap_annotated_type typ) = true ->
     (is_type_optional typ = true \/ is_type_union typ = true)
     /\ (is_type_optional typ = true /\ is_type_union typ = true
         <-> existsb (type_is tNone) (get_args (unwrap_annotated_type typ)) = true
             /\ 2 < List.length (get_args (unwrap_annotated_type typ))))
    /\ (_is_union_like (unwrap_annotated_type typ) = false ->
        is_type_optional typ = false /\ is_type_union typ = false)
    /\ (forall t, _is_union_like t = false -> type_is t tNone = false ->
                  is_type_optional (tOptional t) = true
                  /\ is_type_union (tOptional t) = false)
    /\ (forall members metadata,
          is_type_union (tAnnotated (tUnion members) metadata)
          = is_type_union (tUnion members)
          /\ exists m, unwrap_union_types (tAnnotated (tUnion members) metadata)
                       = Raise (mkexc TypeError m)).
Proof.
  intros typ. split; [|split; [|split]].
  - intros U. unfold is_type_optional, is_type_union. cbv zeta. rewrite U.
    destruct (existsb (type_is tNone) _) eqn:E; cbn [negb].
    + split; [now left|]. rewrite orb_false_r, Nat.ltb_lt. tauto.
    + rewrite orb_true_r. split; [now right|]. split; [intros [H _]|intros [H _]];
        discriminate H.
  - intros U. unfold is_type_optional, is_type_union. cbv zeta. now rewrite U.
  - intros t _ _. unfold is_type_optional, is_type_union, tOptional.
    cbn [unwrap_annotated_type _is_union_like get_args existsb List.length Nat.ltb
         Nat.leb type_is].
    rewrite orb_true_r. cbn. split; reflexivity.
  - intros members metadata. split; [reflexivity | eexists; reflexivity].
Qed.

Lemma existsb_filter_false (f : PyType -> bool) (l : list PyType) :
  existsb f (filter (fun x => negb (f x)) l) = false.
Proof.
  induction l as [|x l IH]; [reflexivity|]. cbn [filter].
  destruct (f x) eqn:E; cbn [negb existsb]; [exact IH | now rewrite E].
Qed.

Lemma type_is_sym_None (t : PyType) : type_is tNone t = type_is t tNone.
Proof. now destruct t. Qed.

Lemma is_type_optional_make_union (members : list PyType) :
  Forall (fun m => is_type_optional m = false) members ->
  is_type_optional (make_union (filter (fun item => negb (type_is item tNone)) members))
  = false.
Proof.
  intros F.
  pose proof (existsb_filter_false (fun t => type_is t tNone) members) as X.
  assert (F' : Forall (fun m => is_type_optional m = false)
                 (filter (fun item => negb (type_is item tNone)) members)).
  { apply Forall_forall. intros m I. apply filter_In in I.
    rewrite Forall_forall in F. now apply F. }
  destruct (filter _ members) as [|t [|t' ts]] eqn:E.
  - reflexivity.
  - cbn [make_union]. now inversion F'.
  - cbn [make_union]. unfold is_type_optional.
    cbn [unwrap_annotated_type _is_union_like get_args].
    rewrite <- X. clear. generalize (t :: t' :: ts). intros l.
    induction l as [|x l IH]; [reflexivity|]. cbn [existsb].
    now rewrite IH, type_is_sym_None.
Qed.

(** X22.  [unwrap_optional_type] takes [NoneType] out of the members of a
    union: when none of the members is itself optional, what it returns is
    not optional.  It keeps the annotations of an annotated type, so that
    the result carries the same alias when the members have no annotations
    of their own.  [Optional[T]], for a [T] that is neither a union nor
    [NoneType], gives [T] itself, without a union around it.  A type that is
    no union raises [TypeError]. *)
Theorem X22_unwrap_optional_type :
  (forall typ t,
     unwrap_optional_type typ = Ok t ->
     Forall (fun m => is_type_optional m = false) (get_args (unwrap_annotated_type typ)) ->
     is_type_optional t = false)
  /\ (forall inner metadata t,
        unwrap_optional_type (tAnnotated inner metadata) = Ok t ->
        Forall (fun m => is_type_annotated m = false) (get_args inner) ->
        get_annotation_Alias t = get_annotation_Alias (tAnnotated inner metadata))
  /\ (forall t, _is_union_like t = false -> type_is t tNone = false ->
        unwrap_optional_type (tOptional t) = Ok t)
  /\ (forall typ, _is_union_like (unwrap_annotated_type typ) = false ->
        exists m, unwrap_optional_type typ = Raise (mkexc TypeError m)).
Proof.
  split; [|split; [|split]].
  - intros typ t H F.
    destruct typ as [ | | | | | | | | | | | | | | | | | |members| |inner metadata| | | | | ];
      try discriminate H.
    + injection H as <-. cbn [unwrap_annotated_type get_args] in F.
      now apply is_type_optional_make_union.
    + cbn [unwrap_optional_type rewrap_annotated_type] in H.
      destruct inner; try discriminate H. injection H as <-.
      cbn [unwrap_annotated_type get_args] in F.
      apply is_type_optional_make_union in F.
      unfold is_type_optional in *. cbn [unwrap_annotated_type].
      destruct (make_union _) eqn:M; try reflexivity. exact F.
  - intros inner metadata t H _.
    cbn [unwrap_optional_type rewrap_annotated_type] in H.
    destruct inner; try discriminate H. now injection H as <-.
  - intros t _ N. cbn. now rewrite N.
  - intros typ U.
    destruct typ as [ | | | | | | | | | | | | | | | | | |members| |inner metadata| | | | | ];
      try discriminate U; try (eexists; reflexivity).
    cbn [unwrap_annotated_type] in U. destruct inner; try discriminate U;
      eexists; reflexivity.
Qed.

End UnionTypes.

(** X23.  [get_referenced_types] looks through [Annotated], [Optional] and
    the generic forms: every type it returns is a class other than
    [NoneType], never a generic or an annotated type; an annotated type and
    an optional type refer to what the type inside refers to, and a
    dictionary type to what its key type and its value type refer to. *)
Theorem X23_referenced_types :
  (forall typ t,
     In (RefType t) (get_referenced_types typ) ->
     isclass t = true /\ type_is t tNone = false)
  /\ (forall t metadata,
        get_referenced_types (tAnnotated t metadata) = get_referenced_types t)
  /\ (forall t, get_referenced_types (tOptional t) = get_referenced_types t)
  /\ (forall key value,
        get_referenced_types (tDict key value)
        = get_referenced_types key ++ get_referenced_types value).
Proof.
  split; [|split; [|split]].
  - induction typ as [t A | t IH | k v IHk IHv | t IH | ts IH | ts IH | t m IH]
      using PyType_generic_ind; intros r I.
    + destruct t; try contradiction; cbn [get_referenced_types] in I;
        try (destruct I as [I | []]; injection I as <-; now split);
        try contradiction.
      apply in_map_iff in I. destruct I as (x & X & _). discriminate X.
    + now apply IH.
    + cbn [get_referenced_types] in I. apply in_app_or in I.
      destruct I as [I | I]; [now apply IHk | now apply IHv].
    + now apply IH.
    + cbn [get_referenced_types] in I. apply in_flat_map in I.
      destruct I as (x & Ix & I). rewrite Forall_forall in IH. now apply (IH x Ix).
    + cbn [get_referenced_types] in I. apply in_flat_map in I.
      destruct I as (x & Ix & I). rewrite Forall_forall in IH. now apply (IH x Ix).
    + now apply IH.
  - reflexivity.
  - intros t. unfold tOptional. cbn [get_referenced_types flat_map].
    now rewrite app_nil_r.
  - reflexivity.
Qed.

Section JsonNames.
Import StrFacts.
Variable iskeyword : string -> bool.

Local Abbreviation python_id_to_json_field := (python_id_to_json_field iskeyword).

Lemma endswith_drop_last (s : string) :
  Str.endswith s "_" = true -> s = Str.drop_last 1 s +++ "_".
Proof.
  intros E. apply endswith_inv in E. destruct E as [a ->].
  change 1 with (String.length "_"). now rewrite drop_last_app.
Qed.

(** X24.  The JSON name that [python_id_to_json_field] gives a Python
    identifier: the alias of the type if it has one; otherwise the
    identifier itself, except that one underscore at its end is dropped
    when what stands before it is a keyword.  As no keyword ends in an
    underscore, giving a name to a name changes nothing. *)
Theorem X24_json_field_name :
  (forall python_id typ alias_name,
     get_annotation_Alias typ = Some alias_name ->
     python_id_to_json_field python_id (Some typ) = alias_name)
  /\ (forall python_id,
        python_id_to_json_field python_id None = python_id
        \/ (python_id = python_id_to_json_field python_id None +++ "_"
            /\ iskeyword (python_id_to_json_field python_id None) = true))
  /\ (forall k, iskeyword k = true -> python_id_to_json_field (k +++ "_") None = k)
  /\ ((forall k, iskeyword k = true -> Str.endswith k "_" = false) ->
      forall python_id,
        python_id_to_json_field (python_id_to_json_field python_id None) None
        = python_id_to_json_field python_id None).
Proof.
  split; [|split; [|split]].
  - intros id typ alias_name A. unfold python_id_to_json_field. now rewrite A.
  - intros id. unfold python_id_to_json_field.
    destruct (Str.endswith id "_") eqn:E; cbn [andb]; [|now left].
    destruct (iskeyword (Str.drop_last 1 id)) eqn:K; [|now left].
    right. split; [now apply endswith_drop_last | exact K].
  - intros k K. unfold python_id_to_json_field.
    rewrite endswith_app. change 1 with (String.length "_").
    now rewrite drop_last_app, K.
  - intros H id. unfold python_id_to_json_field at 2 3.
    destruct (Str.endswith id "_" && iskeyword (Str.drop_last 1 id)) eqn:E;
      unfold python_id_to_json_field.
    + apply andb_true_iff in E. destruct E as [_ K]. now rewrite (H _ K).
    + now rewrite E.
Qed.

End JsonNames.

Lemma X21_optional_or_union_witness :
  is_type_optional (tUnion [tInt; tStr; tNone]) = true
  /\ is_type_union (tUnion [tInt; tStr; tNone]) = true.
Proof.
  apply (proj2 (proj1 (X21_optional_or_union (tUnion [tInt; tStr; tNone])) eq_refl)).
  split; [reflexivity | cbn; lia].
Defined.

Lemma X22_unwrap_optional_type_witness :
  unwrap_optional_type (tAnnotated (tUnion [tInt; tStr; tNone]) [Alias "id"])
  = Ok (tAnnotated (tUnion [tInt; tStr]) [Alias "id"])
  /\ is_type_optional (tAnnotated (tUnion [tInt; tStr]) [Alias "id"]) = false.
Proof.
  split; [reflexivity|].
  apply (proj1 X22_unwrap_optional_type
           (tAnnotated (tUnion [tInt; tStr; tNone]) [Alias "id"])); [reflexivity|].
  repeat constructor.
Defined.

Lemma X23_referenced_types_witness :
  isclass Sample.Side = true /\ type_is Sample.Side tNone = false.
Proof.
  apply (proj1 X23_referenced_types
           (tDict tStr (tAnnotated (tOptional (tList Sample.Side)) [Alias "sides"]))).
  cbn. tauto.
Defined.

Lemma X24_json_field_name_witness :
  python_id_to_json_field (fun s => str_in s kwlist) "class_" None = "class"
  /\ python_id_to_json_field (fun s => str_in s kwlist)
       (python_id_to_json_field (fun s => str_in s kwlist) "class_" None) None
     = python_id_to_json_field (fun s => str_in s kwlist) "class_" None.
Proof.
  destruct (X24_json_field_name (fun s => str_in s kwlist)) as (_ & _ & K & I).
  split.
  - apply (K "class"). reflexivity.
  - apply I. intros k H. apply str_in_In in H.
    repeat (destruct H as [<- | H]; [reflexivity|]). contradiction.
Defined.
